(** * Regional dashboard ([streamlit_app.py]): loader and selection filter

    A shallow embedding of the script's data path:

    - Python text ([str.strip], [str.isdigit], [int], [str]);
    - the pandas frame operations the script calls (column rename, label
      and mask indexing, [.str.strip], [isin], [unique]);
    - the script itself as a program in a small writer/exception monad whose
      trace records, in order, every file access, every parse attempt and
      every element put on the page.

    What lives outside the repository (the file system, [chardet.detect],
    [pandas.read_csv], what [ax.plot] accepts) is gathered in the record
    [world] and is a parameter of every definition that uses it.

    Text is modelled over the code points U+0000..U+00FF, one [ascii] per
    code point; the character classes below are the ones of the Unicode
    database on that range. *)

From Stdlib Require Import String Ascii List ZArith Bool Lia.
From Stdlib Require Import DecimalString DecimalPos QArith_base.
Import ListNotations.

Local Close Scope Q_scope.
Local Open Scope string_scope.
Local Open Scope list_scope.

(* ================================================================== *)
(** * Python text                                                      *)
(* ================================================================== *)

Module PyStr.

(** [Py_UNICODE_ISSPACE]: the characters [str.strip()] removes.  Below
    U+0100 these are TAB..CR, FS..US, SPACE, NEL (U+0085) and NBSP
    (U+00A0). *)
Definition isspace (c : ascii) : bool :=
  let n := N_of_ascii c in
  ((9 <=? n) && (n <=? 13) || (28 <=? n) && (n <=? 32)
   || (n =? 133) || (n =? 160))%N.

(** Characters of Numeric_Type Decimal: '0'..'9'. *)
Definition isdecimal_char (c : ascii) : bool :=
  let n := N_of_ascii c in ((48 <=? n) && (n <=? 57))%N.

(** Characters of Numeric_Type Decimal or Digit, the class [str.isdigit]
    tests: '0'..'9' and the superscripts U+00B2, U+00B3, U+00B9
    ("digits that need special handling, such as the compatibility
    superscript digits", as the library reference puts it). *)
Definition isdigit_char (c : ascii) : bool :=
  let n := N_of_ascii c in
  ((48 <=? n) && (n <=? 57) || (n =? 178) || (n =? 179) || (n =? 185))%N.

Fixpoint forallb_string (p : ascii -> bool) (s : string) : bool :=
  match s with
  | EmptyString => true
  | String c r => p c && forallb_string p r
  end.

(** [s.lstrip()] *)
Fixpoint lstrip (s : string) : string :=
  match s with
  | EmptyString => EmptyString
  | String c r => if isspace c then lstrip r else s
  end.

(** [s.rstrip()] *)
Fixpoint rstrip (s : string) : string :=
  match s with
  | EmptyString => EmptyString
  | String c r =>
      match rstrip r with
      | EmptyString => if isspace c then EmptyString else String c EmptyString
      | r' => String c r'
      end
  end.

(** [s.strip()]: both ends. *)
Definition strip (s : string) : string := rstrip (lstrip s).

(** [s.isdigit()]: at least one character, and all of them digits.
    (Above U+00FF, outside the text modelled here, the class also holds
    the decimal digits of other scripts, which [int] reads.) *)
Definition isdigit (s : string) : bool :=
  match s with
  | EmptyString => false
  | _ => forallb_string isdigit_char s
  end.

(** [s.isdecimal()], for comparison: the strings [int] can read. *)
Definition isdecimal (s : string) : bool :=
  match s with
  | EmptyString => false
  | _ => forallb_string isdecimal_char s
  end.

Definition digit_value (c : ascii) : Z := (Z.of_N (N_of_ascii c) - 48)%Z.

(** The digit part of an integer literal: decimal digits, single
    underscores allowed between two digits. *)
Fixpoint digits_value (acc : Z) (after_digit : bool) (s : string) : option Z :=
  match s with
  | EmptyString => if after_digit then Some acc else None
  | String c r =>
      if isdecimal_char c then digits_value (10 * acc + digit_value c)%Z true r
      else if Ascii.eqb c "_" then
             if after_digit then digits_value acc false r else None
      else None
  end.

(** The whitespace [int] drops around a literal.  It is not all of
    [isspace]: the separators FS..US (U+001C..U+001F), which [str.strip]
    removes, make [int] fail. *)
Definition isspace_literal (c : ascii) : bool :=
  let n := N_of_ascii c in
  ((9 <=? n) && (n <=? 13) || (n =? 32) || (n =? 133) || (n =? 160))%N.

Fixpoint lstrip_literal (s : string) : string :=
  match s with
  | EmptyString => EmptyString
  | String c r => if isspace_literal c then lstrip_literal r else s
  end.

Fixpoint rstrip_literal (s : string) : string :=
  match s with
  | EmptyString => EmptyString
  | String c r =>
      match rstrip_literal r with
      | EmptyString => if isspace_literal c then EmptyString else String c EmptyString
      | r' => String c r'
      end
  end.

(** [int(s)] in base 10: surrounding whitespace is dropped, one sign is
    allowed; [None] stands for [ValueError].  (The interpreter's limit on
    the number of digits of a literal is not modelled.) *)
Definition int (s : string) : option Z :=
  match rstrip_literal (lstrip_literal s) with
  | String "+" r => digits_value 0%Z false r
  | String "-" r => option_map Z.opp (digits_value 0%Z false r)
  | t => digits_value 0%Z false t
  end.

(** [str(n)] for an integer. *)
Definition str (n : Z) : string := NilZero.string_of_int (Z.to_int n).

(** [range(a, b)] as a list. *)
Definition range (a b : Z) : list Z :=
  map (fun i => (a + Z.of_nat i)%Z) (seq 0 (Z.to_nat (b - a))).

End PyStr.

(* ================================================================== *)
(** * Exceptions and results                                           *)
(* ================================================================== *)

(** The exceptions that can travel through the script.  [StopException]
    is what [st.stop()] raises; it derives from [BaseException], not from
    [Exception]. *)
Inductive exn : Type :=
| StopException
| UnicodeDecodeError
| FileNotFoundError
| LookupError                      (* unknown encoding label *)
| EmptyDataError                   (* pandas: no columns to parse *)
| ParserError                      (* pandas: malformed rows *)
| AttributeError
| KeyError (missing : list string)
| IndexError
| ValueError
| TypeError
| NameError
| StreamlitAPIException            (* a widget refuses its arguments *)
| OtherError (name : string).

Definition is_UnicodeDecodeError (e : exn) : bool :=
  match e with UnicodeDecodeError => true | _ => false end.

(** [isinstance(e, Exception)] *)
Definition is_Exception (e : exn) : bool :=
  match e with StopException => false | _ => true end.

Inductive outcome (A : Type) : Type :=
| Ret (a : A)
| Raise (e : exn).
Arguments Ret {A} a.
Arguments Raise {A} e.

(* ================================================================== *)
(** * The pandas operations the script uses                            *)
(* ================================================================== *)

Module Pandas.

(** One element of a column, as Python code sees it. *)
Inductive value : Type :=
| VStr (s : string)
| VNum (x : Q)
| VNaN.

(** A parsed column.  [read_csv] gives a column either a numeric dtype
    (every field was a number or missing) or dtype [object], whose
    elements are text or missing.  Numbers are kept as the rationals
    their fields denote; the script never computes with them. *)
Inductive series : Type :=
| ObjectSeries (xs : list (option string))
| NumericSeries (xs : list (option Q)).

(** A frame: its labelled columns, in order.  Labels may repeat. *)
Definition DataFrame : Type := list (string * series).

(** What [df[label]] evaluates to: the column when the label is unique,
    a frame of all the columns carrying it when it repeats. *)
Inductive selection : Type :=
| Series (s : series)
| Frame (cols : DataFrame).

Definition value_eqb (v w : value) : bool :=
  match v, w with
  | VStr a, VStr b => String.eqb a b
  | VNum x, VNum y => Qeq_bool x y
  | VNaN, VNaN => true          (* [isin] and [unique] match NaN with NaN *)
  | _, _ => false
  end.

Definition series_values (s : series) : list value :=
  match s with
  | ObjectSeries xs =>
      map (fun o => match o with Some t => VStr t | None => VNaN end) xs
  | NumericSeries xs =>
      map (fun o => match o with Some q => VNum q | None => VNaN end) xs
  end.

Definition series_len (s : series) : nat :=
  match s with
  | ObjectSeries xs => length xs
  | NumericSeries xs => length xs
  end.

(** [df.columns] *)
Definition columns (df : DataFrame) : list string := map fst df.

(** [len(df)] *)
Definition nrows (df : DataFrame) : nat :=
  match df with
  | [] => 0
  | (_, s) :: _ => series_len s
  end.

(** [label in df.columns] *)
Definition has_column (df : DataFrame) (label : string) : bool :=
  existsb (String.eqb label) (columns df).

(** [df.rename(columns=f)] *)
Definition rename (f : string -> string) (df : DataFrame) : DataFrame :=
  map (fun c => (f (fst c), snd c)) df.

(** [df[label]] *)
Definition getitem (df : DataFrame) (label : string) : outcome selection :=
  match filter (fun c => String.eqb (fst c) label) df with
  | [] => Raise (KeyError [label])
  | [(_, s)] => Ret (Series s)
  | cols => Ret (Frame cols)
  end.

(** [x.str.strip()].  The [.str] accessor exists on a Series only, and
    only when its values are text; applied to an [object] column it strips
    the strings and leaves missing values missing. *)
Definition str_strip (x : selection) : outcome series :=
  match x with
  | Series (ObjectSeries xs) => Ret (ObjectSeries (map (option_map PyStr.strip) xs))
  | Series (NumericSeries _) => Raise AttributeError
  | Frame _ => Raise AttributeError
  end.

(** [df[label] = s]: replaces the column(s) of that label in place, or
    appends a new column. *)
Definition setitem (df : DataFrame) (label : string) (s : series) : DataFrame :=
  if has_column df label
  then map (fun c => if String.eqb (fst c) label then (fst c, s) else c) df
  else df ++ [(label, s)].

(** Looking up [.unique] on [df[label]]: it is an attribute of a Series,
    a frame has none of that name. *)
Definition series_attr (x : selection) : outcome series :=
  match x with
  | Series s => Ret s
  | Frame _ => Raise AttributeError
  end.

(** [s.unique()]: distinct values in order of first appearance. *)
Fixpoint dedup (seen : list value) (vs : list value) : list value :=
  match vs with
  | [] => []
  | v :: r =>
      if existsb (value_eqb v) seen then dedup seen r
      else v :: dedup (v :: seen) r
  end.

Definition unique (s : series) : list value := dedup [] (series_values s).

(** [s.isin(values)] *)
Definition isin (s : series) (values : list value) : list bool :=
  map (fun v => existsb (value_eqb v) values) (series_values s).

(** Boolean-mask indexing of a list. *)
Fixpoint mask_list {A : Type} (mask : list bool) (xs : list A) : list A :=
  match mask, xs with
  | b :: m, x :: r => if b then x :: mask_list m r else mask_list m r
  | _, _ => []
  end.

Definition mask_series (mask : list bool) (s : series) : series :=
  match s with
  | ObjectSeries xs => ObjectSeries (mask_list mask xs)
  | NumericSeries xs => NumericSeries (mask_list mask xs)
  end.

(** [df[mask]]: the rows where the mask is true, every column kept. *)
Definition getitem_mask (df : DataFrame) (mask : list bool) : DataFrame :=
  map (fun c => (fst c, mask_series mask (snd c))) df.

(** [df[labels]] with a list of labels: the columns of each label, in the
    order of the list; [KeyError] naming the labels that are no column. *)
Definition getitem_list (df : DataFrame) (labels : list string) : outcome DataFrame :=
  match filter (fun l => negb (has_column df l)) labels with
  | [] => Ret (flat_map (fun l => filter (fun c => String.eqb (fst c) l) df) labels)
  | missing => Raise (KeyError missing)
  end.

(** The rows of a frame, each as its labelled values ([df.iterrows()]). *)
Definition row_at (df : DataFrame) (i : nat) : list (string * value) :=
  map (fun c => (fst c, nth i (series_values (snd c)) VNaN)) df.

Definition iterrows (df : DataFrame) : list (list (string * value)) :=
  map (row_at df) (seq 0 (nrows df)).

(** The values a row holds under the labels, in the order of the labels. *)
Definition row_values (row : list (string * value)) (labels : list string) : list value :=
  flat_map (fun l => map snd (filter (fun c => String.eqb (fst c) l) row)) labels.

(** [row[labels]] on one row: those values, or [KeyError] naming the
    labels the row does not have. *)
Definition row_getitem (row : list (string * value)) (labels : list string)
  : outcome (list value) :=
  match filter (fun l => negb (existsb (String.eqb l) (map fst row))) labels with
  | [] => Ret (row_values row labels)
  | missing => Raise (KeyError missing)
  end.

End Pandas.

(* ================================================================== *)
(** * Effects: what a run does, in order                               *)
(* ================================================================== *)

Import Pandas.

(** The three topics of the radio button (budget, housing stock,
    investments), in the order of its options. *)
Inductive topic : Type := Budget | Housing | Investments.

(** One line of the chart ([ax.plot]). *)
Record plot_line : Type := mk_plot_line {
  line_label : list value;         (* row['Name'] *)
  line_values : list value;        (* row[year_columns].values *)
  line_color : nat                 (* idx % len(colors) *)
}.

(** The elements a run puts on the page.  Fixed texts are constructors;
    the comment gives the line of the call. *)
Inductive element : Type :=
| Title                                                   (* 59 *)
| Spinner                                                 (* 62 *)
| Header (n : nat)                                        (* 73, 99, 124, 146, 183 *)
| Radio                                                   (* 74 *)
| Caption (t : topic)                                     (* 96 *)
| Slider (min_value max_value : Z)                        (* 112 *)
| Multiselect (options default : list value)              (* 130 *)
| ErrorMissingName (file_name : string)                   (* 48: st.error naming the file *)
| ErrorLoading (e : exn)                                  (* 69: st.error with str(e) *)
| ErrorNoYearColumns                                      (* 104: st.error *)
| WarningNoRegion                                         (* 139: st.warning *)
| Pyplot (lines : list plot_line) (xticks : list Z)       (* 180 *)
| Dataframe (df : DataFrame) (height : Z)                 (* 186 *)
| Markdown                                                (* 194 *)
| Summary (t : topic) (year_range : Z * Z) (regions : nat) (today : string)  (* 195: st.info *)
| Expander                                                (* 204 *)
| DebugHeading                                            (* 205: st.write *)
| DebugLine (file_name : string) (encoding : option string).  (* 208: st.write *)

Inductive event : Type :=
| Open (file_name : string)                               (* open(file_name, 'rb') *)
| Detect (rawdata : list Byte.byte)                       (* chardet.detect(rawdata) *)
| ReadCsv (file_name sep : string) (encoding : option string)  (* pd.read_csv *)
| Ui (e : element).                                       (* a Streamlit call *)

(** A computation: its result and the events it caused, oldest first. *)
Definition M (A : Type) : Type := (outcome A * list event)%type.

Definition ret {A : Type} (a : A) : M A := (Ret a, []).

Definition raise {A : Type} (e : exn) : M A := (Raise e, []).

Definition bind {A B : Type} (m : M A) (f : A -> M B) : M B :=
  match m with
  | (Ret a, t) => let (r, t') := f a in (r, t ++ t')
  | (Raise e, t) => (Raise e, t)
  end.

Definition emit (ev : event) : M unit := (Ret tt, [ev]).

Definition lift {A : Type} (o : outcome A) : M A := (o, []).

(** [try: m  except <class>: h], the handler taking the exceptions that
    [catches] accepts. *)
Definition try_except {A : Type} (m : M A) (catches : exn -> bool) (h : exn -> M A) : M A :=
  match m with
  | (Ret a, t) => (Ret a, t)
  | (Raise e, t) =>
      if catches e then let (r, t') := h e in (r, t ++ t') else (Raise e, t)
  end.

(** A bare [except:] takes everything. *)
Definition anything (_ : exn) : bool := true.

Declare Scope py_scope.
Delimit Scope py_scope with py.
Notation "x <- m ;; k" := (bind m (fun x => k))
  (at level 61, m at next level, right associativity) : py_scope.
Notation "m ;; k" := (bind m (fun _ => k))
  (at level 61, right associativity) : py_scope.
Local Open Scope py_scope.

Fixpoint mapM {A B : Type} (f : A -> M B) (xs : list A) : M (list B) :=
  match xs with
  | [] => ret []
  | x :: r => y <- f x ;; ys <- mapM f r ;; ret (y :: ys)
  end.

(** [st.error(...)], [st.stop()] and the other page calls. *)
Definition st (e : element) : M unit := emit (Ui e).
Definition st_stop {A : Type} : M A := raise StopException.

(* ================================================================== *)
(** * The world outside the script                                     *)
(* ================================================================== *)

(** [f.read(10000)] *)
Definition read_prefix (contents : list Byte.byte) : list Byte.byte :=
  firstn (N.to_nat 10000) contents.

(** The file system and the libraries whose answer depends on more than
    the script decides.  [chardet_detect] is
    [chardet.detect(...)['encoding']] (which may be [None]);
    [pd_read_csv file sep encoding] is [pd.read_csv(file, sep=sep,
    encoding=encoding)].  [ax_plot drawn years line] is the call
    [ax.plot(years, values, label=..., color=...)] of line 161 on axes
    that already hold the lines [drawn]: matplotlib converts the values
    with the units of the axes and refuses, among others, values that are
    not as many as the years.  [today] is the date the summary prints. *)
Record world : Type := mk_world {
  open_rb : string -> outcome (list Byte.byte);
  chardet_detect : list Byte.byte -> option string;
  pd_read_csv : string -> string -> option string -> outcome DataFrame;
  ax_plot : list plot_line -> list Z -> plot_line -> outcome unit;
  today : string
}.

(** The state of the three widgets at the start of a run: what the user
    last chose, [None] while a widget was not touched. *)
Record session : Type := mk_session {
  radio_state : option topic;
  slider_state : option (Z * Z);
  multiselect_state : option (list value)
}.

(* ================================================================== *)
(** * [load_data]                                                      *)
(* ================================================================== *)

Definition read_csv (w : world) (file_name : string) (encoding : option string) : M DataFrame :=
  emit (ReadCsv file_name ";" encoding) ;;
  lift (pd_read_csv w file_name ";" encoding).

(** Lines 21-40: detect the encoding on the first 10000 bytes, parse with
    it, and on [UnicodeDecodeError] go down the nested [try]s. *)
Definition detect_and_parse (w : world) (file_name : string) : M DataFrame :=
  emit (Open file_name) ;;
  contents <- lift (open_rb w file_name) ;;
  let rawdata := read_prefix contents in
  emit (Detect rawdata) ;;
  let result := chardet_detect w rawdata in
  try_except (read_csv w file_name result) is_UnicodeDecodeError (fun _ =>
    try_except (read_csv w file_name (Some "utf-8")) anything (fun _ =>
      try_except (read_csv w file_name (Some "cp1251")) anything (fun _ =>
        read_csv w file_name (Some "latin1")))).

(** Lines 42-54: the cleaning after the parse. *)
Definition clean (file_name : string) (df : DataFrame) : M DataFrame :=
  let df := rename PyStr.strip df in
  (if negb (has_column df "Name")
   then st (ErrorMissingName file_name) ;; st_stop
   else ret tt) ;;
  name <- lift (getitem df "Name") ;;
  stripped <- lift (str_strip name) ;;
  ret (setitem df "Name" stripped).

(** The body of [load_data(file_name)], lines 21-54: what a call does
    when the cache of line 9 holds nothing for [file_name]. *)
Definition load_data (w : world) (file_name : string) : M DataFrame :=
  df <- detect_and_parse w file_name ;;
  clean file_name df.

(** Line 9.  The cache of [st.cache_data]: the frames that earlier runs
    computed, by argument.  A call whose argument is in the cache returns
    the stored frame and runs nothing of the body; a call that ends in an
    exception (that of [st.stop()] included) stores nothing. *)
Definition cache : Type := string -> option DataFrame.

Definition no_cache : cache := fun _ => None.

Definition st_cache_data (c : cache) (body : string -> M DataFrame)
    (file_name : string) : M DataFrame :=
  match c file_name with
  | Some df => ret df
  | None => body file_name
  end.

(* ================================================================== *)
(** * The page                                                         *)
(* ================================================================== *)

(** Line 102 *)
Definition numeric_cols (df : DataFrame) : list string :=
  filter PyStr.isdigit (columns df).

(** [[int(x) for x in xs]] *)
Definition ints (xs : list string) : outcome (list Z) :=
  fold_right (fun x acc =>
    match PyStr.int x, acc with
    | Some y, Ret ys => Ret (y :: ys)
    | None, _ => Raise ValueError
    | _, Raise e => Raise e
    end) (Ret []) xs.

(** Line 108 *)
Definition available_years (numeric_cols : list string) : outcome (list Z) :=
  ints numeric_cols.

Definition list_min (d : Z) (xs : list Z) : Z :=
  match xs with [] => d | x :: r => fold_left Z.min r x end.
Definition list_max (d : Z) (xs : list Z) : Z :=
  match xs with [] => d | x :: r => fold_left Z.max r x end.

(** Line 121 *)
Definition year_columns (year_range : Z * Z) : list string :=
  map PyStr.str (PyStr.range (fst year_range) (snd year_range + 1)).

(** Line 143: [df[df['Name'].isin(selected_regions)][['Name'] + year_columns]],
    where [name] is the column [df['Name']] that line 127 already
    evaluated on the same, unmodified frame. *)
Definition filtered_df (df : DataFrame) (name : series)
    (selected_regions : list value) (year_columns : list string) : outcome DataFrame :=
  getitem_list (getitem_mask df (isin name selected_regions)) ("Name" :: year_columns).

(** The widgets: each shows itself and returns the session's value, or
    its default while untouched. *)
Definition st_radio (s : session) : M topic :=
  st Radio ;;
  ret (match radio_state s with Some t => t | None => Budget end).

(** The largest integer Streamlit accepts as a bound of a slider
    (JavaScript's [Number.MAX_SAFE_INTEGER]). *)
Definition max_safe_integer : Z := 2 ^ 53 - 1.

(** [st.slider(..., min_value, max_value, value=(min_value, max_value))].
    The widget refuses bounds that are equal and bounds outside the safe
    integers; it is then not shown.  (The script calls it with
    [min_value <= max_value] only; the range a session holds is one the
    slider offered.) *)
Definition slider_refuses (min_value max_value : Z) : bool :=
  (min_value =? max_value)%Z
  || (max_value >? max_safe_integer)%Z
  || (min_value <? - max_safe_integer)%Z.

Definition st_slider (s : session) (min_value max_value : Z) : M (Z * Z) :=
  if slider_refuses min_value max_value
  then raise StreamlitAPIException
  else
    st (Slider min_value max_value) ;;
    ret (match slider_state s with Some r => r | None => (min_value, max_value) end).

(** [st.multiselect(..., options, default)].  The widget returns members
    of its options only: of what the session holds, the choices that are
    options. *)
Definition st_multiselect (s : session) (options default : list value) : M (list value) :=
  st (Multiselect options default) ;;
  ret (match multiselect_state s with
       | Some sel => filter (fun v => existsb (value_eqb v) options) sel
       | None => default
       end).

Definition input_files : list string :=
  ["budget.csv"; "housing.csv"; "investments.csv"].

(** Lines 62-70, [load] being the decorated [load_data]. *)
Definition load_all_with (load : string -> M DataFrame)
  : M (DataFrame * DataFrame * DataFrame) :=
  st Spinner ;;
  try_except
    (budget_df <- load "budget.csv" ;;
     housing_df <- load "housing.csv" ;;
     investments_df <- load "investments.csv" ;;
     ret (budget_df, housing_df, investments_df))
    is_Exception
    (fun e => st (ErrorLoading e) ;; st_stop).

(** Lines 62-70 when the cache is empty: every call runs the body. *)
Definition load_all (w : world) : M (DataFrame * DataFrame * DataFrame) :=
  load_all_with (load_data w).

(** What lines 59-140 hand to the filter of line 143. *)
Record selection_inputs : Type := mk_inputs {
  sel_topic : topic;
  sel_df : DataFrame;
  sel_name : series;
  sel_year_range : Z * Z;
  sel_year_columns : list string;
  sel_regions : list value
}.

(** Lines 72-140: the three choices and their guards. *)
Definition after_loading (s : session) (dfs : DataFrame * DataFrame * DataFrame)
  : M selection_inputs :=
  let '(budget_df, housing_df, investments_df) := dfs in
  st (Header 1) ;;
  topic <- st_radio s ;;
  let df := match topic with
            | Budget => budget_df
            | Housing => housing_df
            | Investments => investments_df
            end in
  st (Caption topic) ;;
  st (Header 2) ;;
  let numeric_cols := numeric_cols df in
  (match numeric_cols with
   | [] => st ErrorNoYearColumns ;; st_stop
   | _ => ret tt
   end) ;;
  years <- lift (available_years numeric_cols) ;;
  let min_year := list_min 0 years in
  let max_year := list_max 0 years in
  year_range <- st_slider s min_year max_year ;;
  let year_columns := year_columns year_range in
  st (Header 3) ;;
  name <- lift (match getitem df "Name" with
                | Ret x => series_attr x
                | Raise e => Raise e
                end) ;;
  let all_regions := unique name in
  default <- lift (match all_regions with
                   | [] => Raise IndexError
                   | r :: _ => Ret [r]
                   end) ;;
  selected_regions <- st_multiselect s all_regions default ;;
  (match selected_regions with
   | [] => st WarningNoRegion ;; st_stop
   | _ => ret tt
   end) ;;
  ret (mk_inputs topic df name year_range year_columns selected_regions).

(** Lines 59-140: title, loading, the choices. *)
Definition choose_from (loading : M (DataFrame * DataFrame * DataFrame))
    (s : session) : M selection_inputs :=
  st Title ;;
  dfs <- loading ;;
  after_loading s dfs.

Definition choose (w : world) (s : session) : M selection_inputs :=
  choose_from (load_all w) s.

(** Lines 156-168: the body of the loop for the row [idx], on axes that
    hold the lines [drawn].  It binds [years] and adds one line. *)
Definition plot_row (w : world) (year_columns : list string)
    (drawn : list plot_line) (idx : nat) (row : list (string * value))
  : outcome (list plot_line * list Z) :=
  match row_getitem row ["Name"] with
  | Raise e => Raise e
  | Ret region_name =>
      match row_getitem row year_columns with
      | Raise e => Raise e
      | Ret values =>
          match ints year_columns with
          | Raise e => Raise e
          | Ret years =>
              let line := mk_plot_line region_name values (idx mod 10) in
              match ax_plot w drawn years line with
              | Raise e => Raise e
              | Ret _ => Ret (drawn ++ [line], years)
              end
          end
      end
  end.

(** Lines 155-168: the loop.  The state is the lines drawn so far and the
    value of [years], [None] while the name is not bound. *)
Fixpoint plot_loop (w : world) (year_columns : list string)
    (state : list plot_line * option (list Z))
    (rows : list (nat * list (string * value)))
  : outcome (list plot_line * option (list Z)) :=
  match rows with
  | [] => Ret state
  | (idx, row) :: rest =>
      match plot_row w year_columns (fst state) idx row with
      | Raise e => Raise e
      | Ret (drawn, years) => plot_loop w year_columns (drawn, Some years) rest
      end
  end.

(** Lines 155-176: one line per row of the filtered frame.  [years] is
    bound inside the loop, so line 176 finds no such name when the frame
    has no row. *)
Definition plot_lines (w : world) (filtered : DataFrame) (year_columns : list string)
  : outcome (list plot_line * list Z) :=
  match plot_loop w year_columns ([], None)
          (combine (seq 0 (nrows filtered)) (iterrows filtered)) with
  | Raise e => Raise e
  | Ret (_, None) => Raise NameError
  | Ret (lines, Some years) => Ret (lines, years)
  end.

(** Lines 204-208 *)
Definition debug_section (w : world) : M unit :=
  st Expander ;;
  st DebugHeading ;;
  mapM (fun file =>
          emit (Open file) ;;
          contents <- lift (open_rb w file) ;;
          let rawdata := read_prefix contents in
          emit (Detect rawdata) ;;
          st (DebugLine file (chardet_detect w rawdata)))
       input_files ;;
  ret tt.

(** Lines 143-208: filter, chart, table, summary. *)
Definition render (w : world) (i : selection_inputs) : M unit :=
  filtered <- lift (filtered_df (sel_df i) (sel_name i)
                                (sel_regions i) (sel_year_columns i)) ;;
  st (Header 4) ;;
  chart <- lift (plot_lines w filtered (sel_year_columns i)) ;;
  st (Pyplot (fst chart) (snd chart)) ;;
  st (Header 5) ;;
  st (Dataframe filtered (Z.min 400 (Z.of_nat (nrows filtered) * 35 + 35))) ;;
  st Markdown ;;
  st (Summary (sel_topic i) (sel_year_range i) (length (sel_regions i)) (today w)) ;;
  debug_section w.

(** One run of the script on an empty cache. *)
Definition script (w : world) (s : session) : M unit :=
  i <- choose w s ;;
  render w i.

(** One run of the script when the cache of line 9 holds [c]. *)
Definition rerun (w : world) (c : cache) (s : session) : M unit :=
  i <- choose_from (load_all_with (st_cache_data c (load_data w))) s ;;
  render w i.

(* ================================================================== *)
(** * Vocabulary of the statements                                     *)
(* ================================================================== *)

(** A string made of whitespace only. *)
Definition whitespace (s : string) : Prop :=
  PyStr.forallb_string PyStr.isspace s = true.

(** Two strings that differ only in the whitespace around a common core. *)
Definition same_inside (a b : string) : Prop :=
  exists core l1 r1 l2 r2 : string,
    whitespace l1 /\ whitespace r1 /\ whitespace l2 /\ whitespace r2 /\
    a = (l1 ++ core ++ r1)%string /\ b = (l2 ++ core ++ r2)%string.

Definition first_char (s : string) : option ascii :=
  match s with
  | EmptyString => None
  | String c _ => Some c
  end.

Fixpoint last_char (s : string) : option ascii :=
  match s with
  | EmptyString => None
  | String c EmptyString => Some c
  | String _ r => last_char r
  end.

(** The fallback chain in the words of the specification: the candidate
    encodings are tried in the order of the list, the first parse that
    succeeds is the result, and when none does the failure of the last
    attempt stands.  The second component lists the encodings tried. *)
Fixpoint first_success (parse : option string -> outcome Pandas.DataFrame)
    (candidates : list (option string)) (failure : exn)
  : outcome Pandas.DataFrame * list (option string) :=
  match candidates with
  | [] => (Raise failure, [])
  | enc :: rest =>
      match parse enc with
      | Ret df => (Ret df, [enc])
      | Raise e =>
          let (r, tried) := first_success parse rest e in (r, enc :: tried)
      end
  end.

Definition fallback_encodings : list (option string) :=
  [Some "utf-8"; Some "cp1251"; Some "latin1"].

(** The encodings of the parse attempts of a trace, in order. *)
Fixpoint attempts (t : list event) : list (option string) :=
  match t with
  | [] => []
  | ReadCsv _ _ enc :: r => enc :: attempts r
  | _ :: r => attempts r
  end.

(** The elements of a trace, in order. *)
Fixpoint page (t : list event) : list element :=
  match t with
  | [] => []
  | Ui e :: r => e :: page r
  | _ :: r => page r
  end.

(** The first three events of every load whose file opens: the file is
    opened, the detector runs on its first bytes, and the parse with the
    detected encoding is attempted. *)
Definition opening (w : world) (file : string) (contents : list Byte.byte) : list event :=
  [Open file; Detect (read_prefix contents);
   ReadCsv file ";" (chardet_detect w (read_prefix contents))].

(** Every event of a computation satisfies [P]. *)
Definition emits {A : Type} (P : event -> Prop) (m : M A) : Prop :=
  Forall P (snd m).

(** The chart and the table of the selection. *)
Definition is_data_view (e : element) : bool :=
  match e with
  | Pyplot _ _ | Dataframe _ _ => true
  | _ => false
  end.

(** What a page can hold when loading did not succeed: the title, the
    spinner and error messages of the loader. *)
Definition is_loading_page (e : element) : bool :=
  match e with
  | Title | Spinner | ErrorMissingName _ | ErrorLoading _ => true
  | _ => false
  end.

(** The files loaded before [file] in a list of files. *)
Fixpoint before (file : string) (files : list string) : list string :=
  match files with
  | [] => []
  | f :: r => if String.eqb f file then [] else f :: before file r
  end.

(** The frame the radio button selects. *)
Definition chosen_df (t : topic) (dfs : Pandas.DataFrame * Pandas.DataFrame * Pandas.DataFrame)
  : Pandas.DataFrame :=
  let '(budget_df, housing_df, investments_df) := dfs in
  match t with
  | Budget => budget_df
  | Housing => housing_df
  | Investments => investments_df
  end.

Definition chosen_topic (s : session) : topic :=
  match radio_state s with Some t => t | None => Budget end.

(** The rows of [df] whose identifier satisfies [keep], column by column. *)
Definition rows_kept (keep : Pandas.value -> bool) (df : Pandas.DataFrame)
    (name : Pandas.series) : Pandas.DataFrame :=
  Pandas.getitem_mask df (map keep (Pandas.series_values name)).

(** The columns of [df] carrying one of the labels, in the order of the
    labels. *)
Definition select_columns (labels : list string) (df : Pandas.DataFrame)
  : Pandas.DataFrame :=
  flat_map (fun l => filter (fun c => String.eqb (fst c) l) df) labels.

(** The value the multiselect returns in a session. *)
Definition chosen_regions (s : session) (options default : list Pandas.value)
  : list Pandas.value :=
  match multiselect_state s with
  | Some sel => filter (fun v => existsb (Pandas.value_eqb v) options) sel
  | None => default
  end.

(** The value the slider returns in a session. *)
Definition chosen_range (s : session) (min_year max_year : Z) : Z * Z :=
  match slider_state s with Some r => r | None => (min_year, max_year) end.

(** What lines 59-140 can put on the page. *)
Definition is_choice_page (e : element) : bool :=
  match e with
  | Title | Spinner | Header _ | Radio | Caption _ | Slider _ _
  | Multiselect _ _ | ErrorMissingName _ | ErrorLoading _
  | ErrorNoYearColumns | WarningNoRegion => true
  | _ => false
  end.

(** The requirement on year columns read as a statement about every
    dataset of a run: whichever of the three loaded datasets has no
    year-like column, the run reports it and stops. *)
Definition every_dataset_is_checked : Prop :=
  forall (w : world) (s : session) (file : string)
         (df : Pandas.DataFrame) (t : list event),
    In file input_files ->
    load_data w file = (Ret df, t) ->
    numeric_cols df = [] ->
    fst (script w s) = Raise StopException /\
    In ErrorNoYearColumns (page (snd (script w s))).

(** The files loaded after [file] in a list of files. *)
Fixpoint after (file : string) (files : list string) : list string :=
  match files with
  | [] => []
  | f :: r => if String.eqb f file then r else after file r
  end.

(** The columns of a parse whose trimmed name is [Name]. *)
Definition name_columns (df0 : Pandas.DataFrame) : Pandas.DataFrame :=
  filter (fun c => String.eqb (PyStr.strip (fst c)) "Name") df0.

(** Every column of the frame has the frame's number of rows. *)
Definition rectangular (df : Pandas.DataFrame) : Prop :=
  Forall (fun c => Pandas.series_len (snd c) = Pandas.nrows df) df.

(** Two values [isin] and [unique] do not tell apart. *)
Definition same_value (v x : Pandas.value) : Prop := Pandas.value_eqb v x = true.

(** Whether a value occurs in a list of values. *)
Definition occurs (v : Pandas.value) (vs : list Pandas.value) : bool :=
  existsb (Pandas.value_eqb v) vs.

(** The height line 188 gives a table of [rows] rows. *)
Definition table_height (rows : nat) : Z := Z.min 400 (Z.of_nat rows * 35 + 35).

(** The libraries raise exceptions of their own, never the one of
    [st.stop()]. *)
Definition never_stops (w : world) : Prop :=
  (forall f, open_rb w f <> Raise StopException) /\
  (forall f sep enc, pd_read_csv w f sep enc <> Raise StopException) /\
  (forall drawn years line, ax_plot w drawn years line <> Raise StopException).

(** The digit characters below U+0100 that are no decimal digits:
    SUPERSCRIPT TWO, THREE and ONE. *)
Definition is_superscript_digit (c : ascii) : bool :=
  let n := N_of_ascii c in ((n =? 178) || (n =? 179) || (n =? 185))%N.

Fixpoint existsb_string (p : ascii -> bool) (s : string) : bool :=
  match s with
  | EmptyString => false
  | String c r => p c || existsb_string p r
  end.

(** The default of [sys.int_max_str_digits]: the longest literal [int]
    converts. *)
Definition int_max_str_digits : nat := 4300.
(* ================================================================== *)
(** * Sample inputs                                                    *)
(* ================================================================== *)

Module Sample.
Import Pandas.

Definition q (n : Z) : option Q := Some (Qmake n 1).

(** A parse of [Name ;2018;2019 ;2020]: padded header, padded names. *)
Definition budget : DataFrame :=
  [(" Name ", ObjectSeries [Some " Moscow "; Some "Kazan"; Some "Moscow"]);
   ("2018", NumericSeries [q 10; q 20; None]);
   ("2019 ", NumericSeries [q 11; q 21; q 31]);
   ("2020", NumericSeries [q 12; q 22; q 32])].

(** The same after cleaning. *)
Definition budget_loaded : DataFrame :=
  [("Name", ObjectSeries [Some "Moscow"; Some "Kazan"; Some "Moscow"]);
   ("2018", NumericSeries [q 10; q 20; None]);
   ("2019", NumericSeries [q 11; q 21; q 31]);
   ("2020", NumericSeries [q 12; q 22; q 32])].

(** A frame without a single year column. *)
Definition housing : DataFrame :=
  [("Name", ObjectSeries [Some "Kazan"; Some "Tver"]);
   ("abc", ObjectSeries [Some "x"; None])].

Definition investments : DataFrame :=
  [("Name", ObjectSeries [Some "Kazan"]);
   ("2019", NumericSeries [q 7])].

(** A frame whose identifier column has another name. *)
Definition no_name : DataFrame :=
  [("Region", ObjectSeries [Some "Kazan"]);
   ("2018", NumericSeries [q 1])].

(** [Name;2018;2020]: the year 2019 was not recorded. *)
Definition gap : DataFrame :=
  [("Name", ObjectSeries [Some "Kazan"; Some "Tver"]);
   ("2018", NumericSeries [q 1; q 2]);
   ("2020", NumericSeries [q 3; q 4])].

(** SUPERSCRIPT TWO (U+00B2) as a column name. *)
Definition squared : string := String "178"%char EmptyString.

Definition superscript : DataFrame :=
  [("Name", ObjectSeries [Some "Kazan"]);
   (squared, NumericSeries [q 1])].

(** The columns of the specification's example. *)
Definition mixed : DataFrame :=
  [("2018", NumericSeries []); ("2019", NumericSeries []);
   ("2020", NumericSeries []); ("abc", ObjectSeries [])].

(** A disk: three files that parse with whatever encoding is asked for;
    [noname.csv], which parses to a frame without [Name]; [legacy.csv],
    which only the single-byte encodings can decode; [odd.csv], for which
    the detector answers a label the parser does not know. *)
Definition disk (budget_df : DataFrame) (file : string) (encoding : option string)
  : outcome DataFrame :=
  if String.eqb file "budget.csv" then Ret budget_df
  else if String.eqb file "housing.csv" then Ret housing
  else if String.eqb file "investments.csv" then Ret investments
  else if String.eqb file "noname.csv" then Ret no_name
  else if String.eqb file "legacy.csv" then
    match encoding with
    | Some "cp1251" | Some "latin1" => Ret budget
    | _ => Raise UnicodeDecodeError
    end
  else if String.eqb file "odd.csv" then Raise LookupError
  else Raise FileNotFoundError.

Definition bytes_of (file : string) : outcome (list Byte.byte) :=
  if String.eqb file "legacy.csv" then Ret [Byte.x4e; Byte.xcc; Byte.x3b]
  else if String.eqb file "odd.csv" then Ret [Byte.xff; Byte.xfe]
  else match disk [] file None with
       | Raise FileNotFoundError => Raise FileNotFoundError
       | _ => Ret [Byte.x4e; Byte.x61; Byte.x6d; Byte.x65]
       end.

Definition detector (rawdata : list Byte.byte) : option string :=
  match rawdata with
  | [] => None
  | Byte.xff :: _ => Some "EUC-TW"
  | _ => Some "ascii"
  end.

(** A plotter that refuses text mixed with a missing value, and values
    that are not as many as the years. *)
Definition is_text (v : value) : bool :=
  match v with VStr _ => true | _ => false end.

Definition is_missing (v : value) : bool :=
  match v with VNaN => true | _ => false end.

Definition plotter (drawn : list plot_line) (years : list Z) (line : plot_line)
  : outcome unit :=
  if existsb is_text (line_values line) && existsb is_missing (line_values line)
  then Raise TypeError
  else if Nat.eqb (length years) (length (line_values line)) then Ret tt
  else Raise ValueError.

Definition world_with (budget_df : DataFrame) : world :=
  mk_world bytes_of detector (fun file _ encoding => disk budget_df file encoding)
           plotter "2024-01-01".

Definition w : world := world_with budget.

(** The sample disk after [housing.csv] was removed. *)
Definition w_without_housing : world :=
  mk_world (fun file => if String.eqb file "housing.csv"
                        then Raise FileNotFoundError else bytes_of file)
           detector
           (fun file _ encoding =>
              if String.eqb file "housing.csv" then Raise FileNotFoundError
              else disk budget file encoding)
           plotter "2024-01-01".

(** A parse with two columns that trim to [Name]. *)
Definition two_names : DataFrame :=
  [("Name", ObjectSeries [Some "Kazan"]);
   (" Name", ObjectSeries [Some "Tver"]);
   ("2018", NumericSeries [q 1])].

(** The cache after a run on the sample disk. *)
Definition cached : cache :=
  fun file =>
    if String.eqb file "budget.csv" then Some budget_loaded
    else if String.eqb file "housing.csv" then Some housing
    else if String.eqb file "investments.csv" then Some investments
    else None.

(** A first run: no widget was touched. *)
Definition untouched : session := mk_session None None None.

End Sample.

(* ================================================================== *)
(** * Facts about [strip]                                              *)
(* ================================================================== *)

Module StripFacts.
Import PyStr.
Local Open Scope string_scope.

Lemma append_empty_r (s : string) : s ++ "" = s.
Proof. induction s as [|c r IH]; simpl; [reflexivity | now rewrite IH]. Qed.

Lemma append_assoc (a b c : string) : (a ++ b) ++ c = a ++ (b ++ c).
Proof. induction a as [|x r IH]; simpl; [reflexivity | now rewrite IH]. Qed.

Lemma lstrip_whitespace_app (l s : string) :
  whitespace l -> lstrip (l ++ s) = lstrip s.
Proof.
  unfold whitespace. induction l as [|c r IH]; simpl; intros H; [reflexivity|].
  apply andb_true_iff in H as [Hc Hr]. rewrite Hc. now apply IH.
Qed.

Lemma rstrip_whitespace (r : string) : whitespace r -> rstrip r = "".
Proof.
  unfold whitespace. induction r as [|c r IH]; simpl; intros H; [reflexivity|].
  apply andb_true_iff in H as [Hc Hr]. now rewrite (IH Hr), Hc.
Qed.

Lemma rstrip_app_whitespace (s r : string) :
  whitespace r -> rstrip (s ++ r) = rstrip s.
Proof.
  intros Hr. induction s as [|c s IH]; simpl.
  - now apply rstrip_whitespace.
  - now rewrite IH.
Qed.

Lemma lstrip_empty_whitespace (s : string) : lstrip s = "" -> whitespace s.
Proof.
  unfold whitespace. induction s as [|c r IH]; simpl; intros H; [reflexivity|].
  destruct (isspace c); [now apply IH | discriminate].
Qed.

Lemma lstrip_app (s r : string) :
  lstrip s <> "" -> lstrip (s ++ r) = lstrip s ++ r.
Proof.
  induction s as [|c s IH]; simpl; intros H; [congruence|].
  destruct (isspace c); [now apply IH | reflexivity].
Qed.

(** Whitespace around a core does not survive [strip]. *)
Lemma strip_surrounded (l core r : string) :
  whitespace l -> whitespace r -> strip (l ++ core ++ r) = strip core.
Proof.
  intros Hl Hr. unfold strip. rewrite (lstrip_whitespace_app _ _ Hl).
  destruct (lstrip core) as [|c t] eqn:E.
  - assert (Hc : whitespace core) by now apply lstrip_empty_whitespace.
    rewrite (lstrip_whitespace_app _ _ Hc).
    rewrite (rstrip_whitespace (lstrip r)); [reflexivity|].
    clear - Hr. unfold whitespace in *.
    induction r as [|c r IH]; simpl in *; [reflexivity|].
    apply andb_true_iff in Hr as [Hc Hr]. rewrite Hc. now apply IH.
  - rewrite lstrip_app by (rewrite E; discriminate).
    rewrite E. now apply rstrip_app_whitespace.
Qed.

Lemma lstrip_first (s : string) (c : ascii) :
  first_char (lstrip s) = Some c -> isspace c = false.
Proof.
  induction s as [|x r IH]; simpl; [discriminate|].
  destruct (isspace x) eqn:E; [exact IH|].
  simpl. intros H. now inversion H; subst.
Qed.

Lemma rstrip_first (s : string) (c : ascii) :
  first_char s = Some c -> isspace c = false -> first_char (rstrip s) = Some c.
Proof.
  destruct s as [|x r]; simpl; [discriminate|].
  intros H Hc. inversion H; subst. destruct (rstrip r); [now rewrite Hc|]; reflexivity.
Qed.

Lemma rstrip_first_inv (s : string) (c : ascii) :
  first_char (rstrip s) = Some c -> first_char s = Some c.
Proof.
  destruct s as [|x r]; simpl; [discriminate|].
  destruct (rstrip r); [destruct (isspace x); [discriminate|]|]; simpl; auto.
Qed.

Lemma rstrip_last (s : string) (c : ascii) :
  last_char (rstrip s) = Some c -> isspace c = false.
Proof.
  induction s as [|x r IH]; simpl; [discriminate|].
  destruct (rstrip r) as [|y t] eqn:E.
  - destruct (isspace x) eqn:Ex; simpl; [discriminate|].
    intros H. now inversion H; subst.
  - simpl. exact IH.
Qed.

Lemma lstrip_fixed (s : string) :
  (forall c, first_char s = Some c -> isspace c = false) -> lstrip s = s.
Proof.
  destruct s as [|x r]; simpl; [reflexivity|].
  intros H. now rewrite (H x eq_refl).
Qed.

Lemma rstrip_idempotent (s : string) : rstrip (rstrip s) = rstrip s.
Proof.
  induction s as [|x r IH]; simpl; [reflexivity|].
  destruct (rstrip r) as [|y t] eqn:E.
  - destruct (isspace x) eqn:Ex; simpl; [reflexivity | now rewrite Ex].
  - change (rstrip (String x (String y t)) = String x (String y t)).
    simpl rstrip at 1. simpl in IH. rewrite IH. reflexivity.
Qed.

(** The result of [strip] neither starts nor ends with whitespace. *)
Lemma strip_first (s : string) (c : ascii) :
  first_char (strip s) = Some c -> isspace c = false.
Proof.
  unfold strip. intros H. apply rstrip_first_inv in H. now apply lstrip_first in H.
Qed.

Lemma strip_last (s : string) (c : ascii) :
  last_char (strip s) = Some c -> isspace c = false.
Proof. unfold strip. apply rstrip_last. Qed.

Lemma strip_idempotent (s : string) : strip (strip s) = strip s.
Proof.
  unfold strip at 1. rewrite lstrip_fixed.
  - unfold strip. apply rstrip_idempotent.
  - intros c H. now apply strip_first in H.
Qed.

Lemma same_inside_strip (a b : string) : same_inside a b -> strip a = strip b.
Proof.
  intros (core & l1 & r1 & l2 & r2 & H1 & H2 & H3 & H4 & -> & ->).
  now rewrite !strip_surrounded.
Qed.

(** Every string is its stripped core between two runs of whitespace. *)
Lemma lstrip_split (s : string) : exists l, whitespace l /\ s = l ++ lstrip s.
Proof.
  induction s as [|c r (l & Hl & E)]; simpl.
  - now exists "".
  - destruct (isspace c) eqn:Ec.
    + exists (String c l). split.
      * unfold whitespace in *. simpl. now rewrite Ec, Hl.
      * simpl. now f_equal.
    + now exists "".
Qed.

Lemma rstrip_split (s : string) : exists r, whitespace r /\ s = rstrip s ++ r.
Proof.
  induction s as [|c s (r & Hr & E)]; simpl.
  - now exists "".
  - destruct (rstrip s) as [|y t] eqn:Es.
    + destruct (isspace c) eqn:Ec.
      * exists (String c r). split.
        -- unfold whitespace in *. simpl. now rewrite Ec, Hr.
        -- simpl. simpl in E. now f_equal.
      * exists r. split; [assumption|]. simpl. simpl in E. now f_equal.
    + exists r. split; [assumption|]. simpl. now f_equal.
Qed.

Lemma strip_split (s : string) :
  exists l r, whitespace l /\ whitespace r /\ s = l ++ strip s ++ r.
Proof.
  destruct (lstrip_split s) as (l & Hl & El).
  destruct (rstrip_split (lstrip s)) as (r & Hr & Er).
  exists l, r. unfold strip. repeat split; try assumption.
  now rewrite <- Er.
Qed.

(** Differing only in the surrounding whitespace is having the same
    stripped text. *)
Lemma same_inside_iff (a b : string) : same_inside a b <-> strip a = strip b.
Proof.
  split; [apply same_inside_strip|]. intros E.
  destruct (strip_split a) as (l1 & r1 & H1 & H2 & Ea).
  destruct (strip_split b) as (l2 & r2 & H3 & H4 & Eb).
  exists (strip a), l1, r1, l2, r2. repeat split; try assumption.
  now rewrite E.
Qed.

End StripFacts.

(* ================================================================== *)
(** * Facts about frames                                               *)
(* ================================================================== *)

Module FrameFacts.
Import Pandas.

Lemma columns_rename (f : string -> string) (df : DataFrame) :
  columns (rename f df) = map f (columns df).
Proof. unfold columns, rename. rewrite !map_map. reflexivity. Qed.

Lemma length_rename (f : string -> string) (df : DataFrame) :
  length (rename f df) = length df.
Proof. apply length_map. Qed.

Lemma has_column_In (df : DataFrame) (label : string) :
  has_column df label = true <-> In label (columns df).
Proof.
  unfold has_column. rewrite existsb_exists. split.
  - intros (x & Hx & E). apply String.eqb_eq in E. now subst.
  - intros H. exists label. split; [assumption | apply String.eqb_refl].
Qed.

Lemma columns_setitem (df : DataFrame) (label : string) (s : series) :
  has_column df label = true -> columns (setitem df label s) = columns df.
Proof.
  unfold setitem. intros ->. unfold columns. rewrite map_map.
  apply map_ext. intros [l x]; simpl. now destruct (String.eqb l label).
Qed.

Lemma length_setitem (df : DataFrame) (label : string) (s : series) :
  has_column df label = true -> length (setitem df label s) = length df.
Proof. unfold setitem. intros ->. apply length_map. Qed.

(** [df[label]] yields something exactly when the label is a column. *)
Lemma getitem_some_has_column (df : DataFrame) (label : string) (x : selection) :
  getitem df label = Ret x -> has_column df label = true.
Proof.
  unfold getitem. intros H. apply has_column_In.
  destruct (filter _ df) as [|c r] eqn:E; [discriminate|].
  assert (Hc : In c (filter (fun c => String.eqb (fst c) label) df))
    by (rewrite E; now left).
  apply filter_In in Hc as [Hc Hl]. apply String.eqb_eq in Hl. subst.
  unfold columns. now apply in_map.
Qed.

(** Column [i] of a frame after [df[label] = s]. *)
Lemma nth_error_setitem (df : DataFrame) (label : string) (s : series) (i : nat) :
  has_column df label = true ->
  nth_error (setitem df label s) i =
  match nth_error df i with
  | Some c => Some (if String.eqb (fst c) label then (fst c, s) else c)
  | None => None
  end.
Proof.
  unfold setitem. intros ->. rewrite nth_error_map.
  now destruct (nth_error df i).
Qed.

Lemma nth_error_rename (f : string -> string) (df : DataFrame) (i : nat) :
  nth_error (rename f df) i =
  match nth_error df i with
  | Some c => Some (f (fst c), snd c)
  | None => None
  end.
Proof. unfold rename. rewrite nth_error_map. now destruct (nth_error df i). Qed.

(** Assigning to a column that exists once makes it the value of
    [df[label]]. *)
Lemma getitem_setitem (df : DataFrame) (label : string) (s0 s : series) :
  getitem df label = Ret (Series s0) ->
  getitem (setitem df label s) label = Ret (Series s).
Proof.
  intros H. pose proof (getitem_some_has_column _ _ _ H) as Hc.
  unfold setitem. rewrite Hc. unfold getitem in *.
  assert (E : filter (fun c => String.eqb (fst c) label)
                (map (fun c : string * series =>
                        if String.eqb (fst c) label then (fst c, s) else c) df)
              = map (fun c => (fst c, s))
                    (filter (fun c => String.eqb (fst c) label) df)).
  { clear. induction df as [|[l x] r IH]; simpl; [reflexivity|].
    destruct (String.eqb l label) eqn:E; simpl; rewrite E; simpl; now rewrite IH. }
  rewrite E. destruct (filter _ df) as [|[l x] [|c r]]; try discriminate.
  reflexivity.
Qed.

End FrameFacts.

(* ================================================================== *)
(** * Facts about [load_data]                                          *)
(* ================================================================== *)

Section Loader.
Import Pandas.
Variable w : world.

Lemma detect_and_parse_unfold (file : string) :
  detect_and_parse w file =
  match open_rb w file with
  | Raise e => (Raise e, [Open file])
  | Ret contents =>
      let enc := chardet_detect w (read_prefix contents) in
      let pre := opening w file contents in
      match pd_read_csv w file ";" enc with
      | Ret df => (Ret df, pre)
      | Raise e =>
          if is_UnicodeDecodeError e then
            match pd_read_csv w file ";" (Some "utf-8") with
            | Ret df => (Ret df, pre ++ [ReadCsv file ";" (Some "utf-8")])
            | Raise _ =>
                match pd_read_csv w file ";" (Some "cp1251") with
                | Ret df => (Ret df, pre ++ [ReadCsv file ";" (Some "utf-8");
                                             ReadCsv file ";" (Some "cp1251")])
                | Raise _ =>
                    (pd_read_csv w file ";" (Some "latin1"),
                     pre ++ [ReadCsv file ";" (Some "utf-8");
                             ReadCsv file ";" (Some "cp1251");
                             ReadCsv file ";" (Some "latin1")])
                end
            end
          else (Raise e, pre)
      end
  end.
Proof.
  unfold detect_and_parse, opening, read_csv, bind, try_except, emit, lift, anything.
  simpl.
  destruct (open_rb w file) as [contents|e]; [|reflexivity]. simpl.
  destruct (pd_read_csv w file ";" (chardet_detect w (read_prefix contents)))
    as [df|e]; [reflexivity|].
  destruct (is_UnicodeDecodeError e); [|reflexivity].
  destruct (pd_read_csv w file ";" (Some "utf-8")); [reflexivity|].
  destruct (pd_read_csv w file ";" (Some "cp1251")); [reflexivity|].
  destruct (pd_read_csv w file ";" (Some "latin1")); reflexivity.
Qed.

Lemma clean_unfold (file : string) (df0 : DataFrame) :
  clean file df0 =
  let df1 := rename PyStr.strip df0 in
  if has_column df1 "Name" then
    match getitem df1 "Name" with
    | Ret x =>
        match str_strip x with
        | Ret s => (Ret (setitem df1 "Name" s), [])
        | Raise e => (Raise e, [])
        end
    | Raise e => (Raise e, [])
    end
  else (Raise StopException, [Ui (ErrorMissingName file)]).
Proof.
  unfold clean, bind, st, st_stop, emit, lift, ret, raise. simpl.
  destruct (has_column (rename PyStr.strip df0) "Name"); simpl; [|reflexivity].
  destruct (getitem (rename PyStr.strip df0) "Name") as [x|e]; [|reflexivity].
  destruct (str_strip x); reflexivity.
Qed.

Lemma load_data_unfold (file : string) :
  load_data w file =
  match detect_and_parse w file with
  | (Ret df0, t) => let (r, t') := clean file df0 in (r, t ++ t')
  | (Raise e, t) => (Raise e, t)
  end.
Proof. reflexivity. Qed.

(** What a successful load is made of: a parse, whose trimmed columns
    hold one text column [Name], stripped in place. *)
Lemma load_data_ret (file : string) (df : DataFrame) (t : list event) :
  load_data w file = (Ret df, t) ->
  exists df0 raw,
    detect_and_parse w file = (Ret df0, t) /\
    getitem (rename PyStr.strip df0) "Name" = Ret (Series (ObjectSeries raw)) /\
    df = setitem (rename PyStr.strip df0) "Name"
                 (ObjectSeries (map (option_map PyStr.strip) raw)).
Proof.
  rewrite load_data_unfold.
  destruct (detect_and_parse w file) as [[df0|e] t0]; [|discriminate].
  rewrite clean_unfold. cbv zeta.
  destruct (has_column (rename PyStr.strip df0) "Name"); [|discriminate].
  destruct (getitem (rename PyStr.strip df0) "Name") as [x|e] eqn:G; [|discriminate].
  destruct x as [[raw|raw]|cols]; simpl; try discriminate.
  intros H. inversion H; subst. rewrite app_nil_r.
  exists df0, raw. repeat split; auto.
Qed.

End Loader.

(* ================================================================== *)
(** * Reasoning about computations                                     *)
(* ================================================================== *)

Section MonadFacts.
Context {A B : Type}.

Lemma bind_ret_l (a : A) (t1 : list event) (f : A -> M B) :
  bind (Ret a, t1) f = (fst (f a), t1 ++ snd (f a)).
Proof. unfold bind. now destruct (f a). Qed.

Lemma emits_bind (P : event -> Prop) (m : M A) (f : A -> M B) :
  emits P m -> (forall a, emits P (f a)) -> emits P (bind m f).
Proof.
  unfold emits, bind. destruct m as [[a|e] t1]; simpl; intros H1 H2; [|assumption].
  specialize (H2 a). destruct (f a) as [r t2]. simpl in *.
  apply Forall_app. now split.
Qed.

Lemma emits_try_except (P : event -> Prop) (m : M A) (c : exn -> bool) (h : exn -> M A) :
  emits P m -> (forall e, emits P (h e)) -> emits P (try_except m c h).
Proof.
  unfold emits, try_except. destruct m as [[a|e] t1]; simpl; intros H1 H2; [assumption|].
  destruct (c e); [|assumption].
  specialize (H2 e). destruct (h e) as [r t2]. simpl in *.
  apply Forall_app. now split.
Qed.

Lemma emits_ret (P : event -> Prop) (a : A) : emits P (ret a).
Proof. constructor. Qed.

Lemma emits_raise (P : event -> Prop) (e : exn) : emits P (@raise A e).
Proof. constructor. Qed.

Lemma emits_lift (P : event -> Prop) (o : outcome A) : emits P (lift o).
Proof. constructor. Qed.

End MonadFacts.

Lemma emits_mapM {A B : Type} (P : event -> Prop) (f : A -> M B) (xs : list A) :
  (forall x, emits P (f x)) -> emits P (mapM f xs).
Proof.
  intros H. induction xs as [|x r IH]; simpl.
  - constructor.
  - apply emits_bind; [apply H|]. intros y.
    apply emits_bind; [exact IH|]. intros ys. constructor.
Qed.

Lemma emits_emit (P : event -> Prop) (ev : event) : P ev -> emits P (emit ev).
Proof. intros H. repeat constructor. exact H. Qed.

Lemma emits_st (P : event -> Prop) (e : element) : P (Ui e) -> emits P (st e).
Proof. apply emits_emit. Qed.

Lemma emits_st_stop {A : Type} (P : event -> Prop) : emits P (@st_stop A).
Proof. constructor. Qed.

Lemma page_app (t1 t2 : list event) : page (t1 ++ t2) = page t1 ++ page t2.
Proof.
  induction t1 as [|ev r IH]; simpl; [reflexivity|].
  destruct ev; simpl; now rewrite IH.
Qed.

(** The elements of a trace whose events satisfy a property of elements. *)
Lemma emits_page (P : element -> Prop) (t : list event) :
  Forall (fun ev => match ev with Ui e => P e | _ => True end) t ->
  Forall P (page t).
Proof.
  induction 1 as [|ev r Hev _ IH]; simpl; [constructor|].
  destruct ev; auto.
Qed.


(** Discharges [emits P m] by walking through the program text. *)
Ltac walk :=
  repeat first
    [ apply emits_bind; [|intros ?]
    | apply emits_try_except; [|intros ?]
    | apply emits_mapM; intros ?
    | apply emits_st
    | apply emits_emit
    | apply emits_ret | apply emits_raise | apply emits_lift | apply emits_st_stop
    | match goal with
      | |- emits _ (match ?x with _ => _ end) => destruct x
      | |- emits _ (if ?x then _ else _) => destruct x
      | |- emits _ (let '(_, _) := ?x in _) => destruct x
      end ];
  try exact I.

(* ================================================================== *)
(** * Facts about a run                                                *)
(* ================================================================== *)

Section Run.
Import Pandas.
Variable w : world.

(** The loader shows nothing but its own error message. *)
Lemma load_data_emits (P : event -> Prop) (file : string) :
  (forall f, P (Open f)) -> (forall r, P (Detect r)) ->
  (forall f sep enc, P (ReadCsv f sep enc)) ->
  P (Ui (ErrorMissingName file)) ->
  emits P (load_data w file).
Proof.
  intros H1 H2 H3 H4.
  unfold load_data, detect_and_parse, clean, read_csv. walk; auto.
Qed.

Lemma load_all_emits (P : event -> Prop) :
  (forall f, P (Open f)) -> (forall r, P (Detect r)) ->
  (forall f sep enc, P (ReadCsv f sep enc)) ->
  P (Ui Spinner) -> (forall f, P (Ui (ErrorMissingName f))) ->
  (forall e, P (Ui (ErrorLoading e))) ->
  emits P (load_all w).
Proof.
  intros H1 H2 H3 H4 H5 H6.
  unfold load_all, load_all_with. walk; auto; apply load_data_emits; auto.
Qed.

(** A parse shows nothing on the page. *)
Lemma detect_and_parse_page (file : string) :
  page (snd (detect_and_parse w file)) = [].
Proof.
  rewrite detect_and_parse_unfold.
  destruct (open_rb w file); [|reflexivity].
  cbv zeta. unfold opening.
  repeat match goal with
         | |- context [match ?x with _ => _ end] => destruct x
         end; reflexivity.
Qed.

Lemma load_data_ret_page (file : string) (df : DataFrame) (t : list event) :
  load_data w file = (Ret df, t) -> page t = [].
Proof.
  intros H. apply load_data_ret in H as (df0 & raw & D & _).
  pose proof (detect_and_parse_page file) as Hp. now rewrite D in Hp.
Qed.

(** Loading either hands over the three frames or stops the run. *)
Lemma load_all_ret (dfs : DataFrame * DataFrame * DataFrame) (t : list event) :
  load_all w = (Ret dfs, t) ->
  exists tb th ti,
    load_data w "budget.csv" = (Ret (fst (fst dfs)), tb) /\
    load_data w "housing.csv" = (Ret (snd (fst dfs)), th) /\
    load_data w "investments.csv" = (Ret (snd dfs), ti) /\
    t = Ui Spinner :: tb ++ th ++ ti.
Proof.
  unfold load_all, load_all_with.
  destruct (load_data w "budget.csv") as [[b|e] tb]; simpl;
    [|destruct (is_Exception e); discriminate].
  destruct (load_data w "housing.csv") as [[h|e] th]; simpl;
    [|destruct (is_Exception e); discriminate].
  destruct (load_data w "investments.csv") as [[i|e] ti]; simpl;
    [|destruct (is_Exception e); discriminate].
  intros H. inversion H; subst. exists tb, th, ti.
  rewrite !app_nil_r. repeat split; reflexivity.
Qed.

Lemma load_all_raise (e : exn) (t : list event) :
  load_all w = (Raise e, t) -> e = StopException.
Proof.
  unfold load_all, load_all_with.
  destruct (load_data w "budget.csv") as [[b|e1] tb]; simpl.
  2: { destruct e1; simpl; intros H; inversion H; reflexivity. }
  destruct (load_data w "housing.csv") as [[h|e1] th]; simpl.
  2: { destruct e1; simpl; intros H; inversion H; reflexivity. }
  destruct (load_data w "investments.csv") as [[i|e1] ti]; simpl.
  2: { destruct e1; simpl; intros H; inversion H; reflexivity. }
  discriminate.
Qed.

Lemma load_all_ret_page (dfs : DataFrame * DataFrame * DataFrame) (t : list event) :
  load_all w = (Ret dfs, t) -> page t = [Spinner].
Proof.
  intros H. apply load_all_ret in H as (tb & th & ti & Hb & Hh & Hi & ->).
  simpl. rewrite !page_app.
  now rewrite (load_data_ret_page _ _ _ Hb), (load_data_ret_page _ _ _ Hh),
    (load_data_ret_page _ _ _ Hi).
Qed.

(** A run whose loading stopped is that stop, after the title. *)
Lemma script_load_stopped (s : session) (e : exn) (t : list event) :
  load_all w = (Raise e, t) -> script w s = (Raise e, Ui Title :: t).
Proof. intros H. unfold script, choose, choose_from. rewrite H. reflexivity. Qed.

End Run.

(* ================================================================== *)
(** * The loader: column names and the identifier column               *)
(* ================================================================== *)

Section LoaderClaims.
Import Pandas FrameFacts.
Variable w : world.

Lemma load_all_of_failed_load (file : string) (e : exn) (t : list event) :
  In file input_files -> load_data w file = (Raise e, t) ->
  exists t', load_all w = (Raise StopException, t').
Proof.
  intros Hin Hl. destruct (load_all w) as [[dfs|e'] t'] eqn:E.
  - apply load_all_ret in E as (tb & th & ti & Hb & Hh & Hi & _).
    simpl in Hin. destruct Hin as [<-|[<-|[<-|[]]]]; congruence.
  - rewrite (load_all_raise _ _ _ E). now exists t'.
Qed.

Lemma forallb_page_loading (t : list event) :
  Forall (fun ev => match ev with Ui e => is_loading_page e = true | _ => True end) t ->
  forallb is_loading_page (page t) = true.
Proof.
  intros H. apply forallb_forall. apply Forall_forall.
  now apply (emits_page (fun e => is_loading_page e = true)).
Qed.

(** C1.  Whatever encoding produced the parse [df0] of the file, the
    loader trims every column name and then looks for [Name] among the
    trimmed names.  When it is absent the load ends in [st.stop()] right
    after the error message naming the file, and a run that loads this
    file is stopped with nothing on the page but the title, the spinner
    and loader errors (the message itself being the last event when the
    files before it loaded).  The load stops this way only then; and a
    frame that the loader returns has exactly the trimmed names as its
    columns, [Name] among them.  Trimmed means what it says: no column
    name of a returned frame starts or ends with whitespace; and the
    check is made on the trimmed names, so that a parsed column named
    [Name] with whitespace around it is the identifier column and the
    load does not stop. *)
Theorem C1_identifier_column_checked
    (file : string) (df0 : DataFrame) (t0 : list event) :
  detect_and_parse w file = (Ret df0, t0) ->
  let trimmed := map PyStr.strip (columns df0) in
  (~ In "Name" trimmed ->
     load_data w file = (Raise StopException, t0 ++ [Ui (ErrorMissingName file)]) /\
     (In file input_files -> forall s : session,
        exists t,
          script w s = (Raise StopException, t) /\
          forallb is_loading_page (page t) = true /\
          ((forall f, In f (before file input_files) ->
                      exists d t', load_data w f = (Ret d, t')) ->
           exists pre, t = pre ++ [Ui (ErrorMissingName file)])))
  /\ (forall t, load_data w file = (Raise StopException, t) -> ~ In "Name" trimmed)
  /\ (forall df t, load_data w file = (Ret df, t) ->
        columns df = trimmed /\ In "Name" (columns df))
  /\ (forall df t, load_data w file = (Ret df, t) ->
        forall c, In c (columns df) ->
          PyStr.strip c = c /\
          (forall x, first_char c = Some x -> PyStr.isspace x = false) /\
          (forall x, last_char c = Some x -> PyStr.isspace x = false))
  /\ (forall l, In l (columns df0) -> same_inside l "Name" ->
        In "Name" trimmed /\
        forall t, load_data w file <> (Raise StopException, t)).
Proof.
  intros D trimmed.
  assert (Hcols : columns (rename PyStr.strip df0) = trimmed)
    by apply columns_rename.
  assert (Hstop : ~ In "Name" trimmed ->
            load_data w file = (Raise StopException, t0 ++ [Ui (ErrorMissingName file)])).
  { intros Hn. rewrite load_data_unfold, D, clean_unfold. cbv zeta.
    destruct (has_column (rename PyStr.strip df0) "Name") eqn:Hc; [|reflexivity].
    apply has_column_In in Hc. rewrite Hcols in Hc. contradiction. }
  assert (Honly : forall t, load_data w file = (Raise StopException, t) ->
                             ~ In "Name" trimmed).
  { intros t. rewrite load_data_unfold, D, clean_unfold. cbv zeta.
    destruct (has_column (rename PyStr.strip df0) "Name") eqn:Hc.
    + destruct (getitem _ "Name") as [x|e] eqn:G.
      * destruct x as [[?|?]|?]; simpl; discriminate.
      * unfold getitem in G.
        destruct (filter _ _) as [|[? ?] [|? ?]]; inversion G; discriminate.
    + intros _ Hin. rewrite <- Hcols in Hin. apply has_column_In in Hin. congruence. }
  assert (Hret : forall df t, load_data w file = (Ret df, t) ->
                              columns df = trimmed /\ In "Name" (columns df)).
  { intros df t Hl. apply load_data_ret in Hl as (df1 & raw & D1 & G & ->).
    rewrite D in D1. inversion D1; subst df1 t.
    pose proof (getitem_some_has_column _ _ _ G) as Hc.
    rewrite columns_setitem by assumption. rewrite Hcols. split; [reflexivity|].
    rewrite <- Hcols. now apply has_column_In. }
  split; [|split; [exact Honly|split; [exact Hret|split]]].
  - intros Hn. split; [now apply Hstop|]. intros Hin s.
    specialize (Hstop Hn).
    destruct (load_all_of_failed_load _ _ _ Hin Hstop) as [t' Ht'].
    exists (Ui Title :: t'). split; [now apply script_load_stopped|]. split.
    + simpl. apply forallb_page_loading.
      assert (He : emits (fun ev => match ev with
                                   | Ui e => is_loading_page e = true
                                   | _ => True
                                   end) (load_all w))
        by (apply load_all_emits; intros; exact I || reflexivity).
      unfold emits in He. now rewrite Ht' in He.
    + intros Hbefore. revert Ht'. unfold load_all, load_all_with.
      simpl in Hin. destruct Hin as [<-|[<-|[<-|[]]]]; simpl in Hbefore.
      * rewrite Hstop. simpl. intros H. inversion H; subst.
        exists (Ui Title :: Ui Spinner :: t0). reflexivity.
      * destruct (Hbefore "budget.csv") as (b & tb & Hb); [now left|].
        rewrite Hb, Hstop. simpl. intros H. inversion H; subst.
        exists (Ui Title :: Ui Spinner :: tb ++ t0).
        simpl. now rewrite <- !app_assoc.
      * destruct (Hbefore "budget.csv") as (b & tb & Hb); [now left|].
        destruct (Hbefore "housing.csv") as (h & th & Hh); [right; now left|].
        rewrite Hb, Hh, Hstop. simpl. intros H. inversion H; subst.
        exists (Ui Title :: Ui Spinner :: tb ++ th ++ t0).
        simpl. now rewrite <- !app_assoc.
  - intros df t Hl c Hc. destruct (Hret df t Hl) as [E _].
    rewrite E in Hc. apply in_map_iff in Hc as (l & <- & _).
    split; [apply StripFacts.strip_idempotent|].
    split; intros x; [apply StripFacts.strip_first | apply StripFacts.strip_last].
  - intros l Hl Hsame.
    assert (Hin : In "Name" trimmed).
    { apply in_map_iff. exists l. split; [|exact Hl].
      now rewrite (StripFacts.same_inside_strip l "Name" Hsame). }
    split; [exact Hin|]. intros t Ht. now apply (Honly t Ht).
Qed.


(* ------------------------------------------------------------------ *)
(** ** The order of the parse attempts                                 *)

(** The chain of the specification stops at the first success: what it
    tried is an initial part of the candidates, every attempt before the
    last failed, and a result comes from the last encoding tried. *)
Lemma first_success_tried (parse : option string -> outcome DataFrame)
    (candidates : list (option string)) (failure : exn) :
  exists rest, candidates = snd (first_success parse candidates failure) ++ rest.
Proof.
  revert failure. induction candidates as [|enc r IH]; intros failure; simpl.
  - now exists [].
  - destruct (parse enc) as [df|e]; simpl; [now exists r|].
    destruct (IH e) as [rest E]. destruct (first_success parse r e) as [x tried].
    simpl in *. exists rest. now f_equal.
Qed.

Lemma first_success_ret (parse : option string -> outcome DataFrame)
    (candidates : list (option string)) (failure : exn) (df : DataFrame) :
  fst (first_success parse candidates failure) = Ret df ->
  exists tried enc,
    snd (first_success parse candidates failure) = tried ++ [enc] /\
    parse enc = Ret df /\
    forall enc', In enc' tried -> exists e, parse enc' = Raise e.
Proof.
  revert failure. induction candidates as [|enc r IH]; intros failure; simpl.
  - discriminate.
  - destruct (parse enc) as [d|e] eqn:P; simpl.
    + intros H. inversion H; subst. exists [], enc. repeat split; auto.
      intros ? [].
    + specialize (IH e). destruct (first_success parse r e) as [x tried0].
      simpl in *. intros H. destruct (IH H) as (tried & enc1 & E & P1 & Hf).
      exists (enc :: tried), enc1. subst. repeat split; auto.
      intros enc' [<-|Hin]; [now exists e | now apply Hf].
Qed.

Lemma read_prefix_spec (contents : list Byte.byte) :
  read_prefix contents = firstn (N.to_nat 10000) contents /\
  length (read_prefix contents) = Nat.min (N.to_nat 10000) (length contents).
Proof. unfold read_prefix. split; [reflexivity | apply length_firstn]. Qed.

(** C2.  A load whose file opens reads the first 10000 bytes, runs the
    detector on them and attempts the semicolon-separated parse with the
    detected encoding: these are the first three events of [load_data],
    and a success of that attempt is the parse that is cleaned.  When the attempt raises
    [UnicodeDecodeError], the parse is retried with utf-8, then cp1251,
    then latin1; the first success is the result and no later encoding
    is tried (the nested handlers compute [first_success] on that list,
    and the three cases are spelled out). *)
Theorem C2_detect_then_fallback_in_order
    (file : string) (contents : list Byte.byte) :
  open_rb w file = Ret contents ->
  let rawdata := read_prefix contents in
  let detected := chardet_detect w rawdata in
  let parse := pd_read_csv w file ";" in
  let pre := [Open file; Detect rawdata; ReadCsv file ";" detected] in
  rawdata = firstn (N.to_nat 10000) contents /\
  (exists rest, snd (load_data w file) = pre ++ rest) /\
  (forall df, parse detected = Ret df -> detect_and_parse w file = (Ret df, pre)) /\
  (parse detected = Raise UnicodeDecodeError ->
     (let r := first_success parse fallback_encodings UnicodeDecodeError in
      detect_and_parse w file = (fst r, pre ++ map (ReadCsv file ";") (snd r))) /\
     (forall df, parse (Some "utf-8") = Ret df ->
        detect_and_parse w file = (Ret df, pre ++ [ReadCsv file ";" (Some "utf-8")])) /\
     (forall e df, parse (Some "utf-8") = Raise e -> parse (Some "cp1251") = Ret df ->
        detect_and_parse w file
        = (Ret df, pre ++ [ReadCsv file ";" (Some "utf-8");
                           ReadCsv file ";" (Some "cp1251")])) /\
     (forall e e', parse (Some "utf-8") = Raise e -> parse (Some "cp1251") = Raise e' ->
        detect_and_parse w file
        = (parse (Some "latin1"),
           pre ++ [ReadCsv file ";" (Some "utf-8");
                   ReadCsv file ";" (Some "cp1251");
                   ReadCsv file ";" (Some "latin1")]))).
Proof.
  intros Ho rawdata detected parse pre.
  pose proof (detect_and_parse_unfold w file) as U. rewrite Ho in U.
  cbv zeta in U. unfold opening in U.
  fold rawdata in U. fold detected in U. fold pre in U.
  change (pd_read_csv w file ";") with parse in U.
  split; [reflexivity|]. split; [|split].
  - assert (Hpre : exists rest, snd (detect_and_parse w file) = pre ++ rest).
    { rewrite U. clear U.
      destruct (parse detected) as [df|e];
        [exists []; symmetry; apply app_nil_r|].
      destruct (is_UnicodeDecodeError e);
        [|exists []; symmetry; apply app_nil_r].
      destruct (parse (Some "utf-8")); [eexists; reflexivity|].
      destruct (parse (Some "cp1251")); eexists; reflexivity. }
    destruct Hpre as [rest Hrest]. rewrite load_data_unfold.
    destruct (detect_and_parse w file) as [[df|e] t]; simpl in Hrest; subst t.
    + destruct (clean file df) as [r t']. exists (rest ++ t'). simpl.
      rewrite <- ?app_assoc. reflexivity.
    + now exists rest.
  - intros df Hd. now rewrite Hd in U.
  - intros Hd. rewrite Hd in U. simpl is_UnicodeDecodeError in U. cbv iota in U.
    repeat split.
    + simpl. destruct (parse (Some "utf-8")) as [d1|e1]; [exact U|].
      destruct (parse (Some "cp1251")) as [d2|e2]; [exact U|].
      destruct (parse (Some "latin1")) as [d3|e3]; exact U.
    + intros df H1. now rewrite H1 in U.
    + intros e df H1 H2. now rewrite H1, H2 in U.
    + intros e e' H1 H2. now rewrite H1, H2 in U.
Qed.

(** C9.  When the parse with the detected encoding fails with anything
    but [UnicodeDecodeError], that exception leaves [load_data] and the
    attempt with the detected encoding is the only one made; conversely a
    load that made a second attempt had its first one end in
    [UnicodeDecodeError]. *)
Theorem C9_fallback_only_on_decode_error
    (file : string) (contents : list Byte.byte) :
  open_rb w file = Ret contents ->
  let detected := chardet_detect w (read_prefix contents) in
  (forall e, pd_read_csv w file ";" detected = Raise e ->
             is_UnicodeDecodeError e = false ->
             load_data w file = (Raise e, opening w file contents) /\
             attempts (snd (load_data w file)) = [detected]) /\
  (1 < length (attempts (snd (load_data w file))) ->
   pd_read_csv w file ";" detected = Raise UnicodeDecodeError).
Proof.
  intros Ho detected.
  pose proof (detect_and_parse_unfold w file) as U. rewrite Ho in U.
  cbv zeta in U. fold detected in U.
  assert (Hclean : forall df0, attempts (snd (clean file df0)) = []).
  { intros df0. rewrite clean_unfold. cbv zeta.
    destruct (has_column _ _); [|reflexivity].
    destruct (getitem _ _) as [x|?]; [|reflexivity].
    destruct (str_strip x); reflexivity. }
  split.
  - intros e He Hne. rewrite He, Hne in U.
    assert (L : load_data w file = (Raise e, opening w file contents))
      by (rewrite load_data_unfold, U; reflexivity).
    split; [exact L|]. rewrite L. reflexivity.
  - rewrite load_data_unfold.
    destruct (pd_read_csv w file ";" detected) as [df|e] eqn:He.
    + rewrite U. specialize (Hclean df). destruct (clean file df) as [r t'].
      simpl in *. rewrite Hclean. simpl. lia.
    + destruct e; try reflexivity; simpl in U; rewrite U; simpl; lia.
Qed.

(* ------------------------------------------------------------------ *)
(** ** What the cleaning changes                                       *)

Lemma getitem_series_unique (df : DataFrame) (label : string) (s : series)
    (i : nat) (c : string * series) :
  getitem df label = Ret (Series s) ->
  nth_error df i = Some c -> fst c = label -> snd c = s.
Proof.
  unfold getitem. intros G Hn Hl.
  assert (Hin : In c (filter (fun c => String.eqb (fst c) label) df)).
  { apply filter_In. split; [now apply nth_error_In in Hn|].
    subst. apply String.eqb_refl. }
  destruct (filter _ df) as [|[l x] [|c' r]]; try discriminate.
  inversion G; subst. destruct Hin as [<-|[]]. reflexivity.
Qed.

(** C3.  In a frame that [load_data] returns, the identifier column is
    the parsed one with every text value stripped: no value starts or
    ends with whitespace, stripping again changes nothing, and two parsed
    values that differ only in the whitespace around them are the same
    value after loading. *)
Theorem C3_identifier_values_trimmed
    (file : string) (df : DataFrame) (t : list event) :
  load_data w file = (Ret df, t) ->
  exists df0 raw loaded,
    detect_and_parse w file = (Ret df0, t) /\
    getitem (rename PyStr.strip df0) "Name" = Ret (Series (ObjectSeries raw)) /\
    getitem df "Name" = Ret (Series (ObjectSeries loaded)) /\
    loaded = map (option_map PyStr.strip) raw /\
    (forall v, In (Some v) loaded ->
       PyStr.strip v = v /\
       (forall c, first_char v = Some c -> PyStr.isspace c = false) /\
       (forall c, last_char v = Some c -> PyStr.isspace c = false)) /\
    (forall i j a b,
       nth_error raw i = Some (Some a) -> nth_error raw j = Some (Some b) ->
       same_inside a b ->
       nth_error loaded i = nth_error loaded j /\
       nth_error loaded i = Some (Some (PyStr.strip a))).
Proof.
  intros Hl. apply load_data_ret in Hl as (df0 & raw & D & G & ->).
  exists df0, raw, (map (option_map PyStr.strip) raw).
  split; [exact D|]. split; [exact G|].
  split; [now apply getitem_setitem with (s0 := ObjectSeries raw)|].
  split; [reflexivity|]. split.
  - intros v Hv. apply in_map_iff in Hv as ([x|] & Hx & _); [|discriminate].
    simpl in Hx. inversion Hx; subst. split; [apply StripFacts.strip_idempotent|].
    split; intros c; [apply StripFacts.strip_first | apply StripFacts.strip_last].
  - intros i j a b Hi Hj Hab. rewrite !nth_error_map, Hi, Hj. simpl.
    now rewrite (StripFacts.same_inside_strip a b Hab).
Qed.

(** C10.  A successful load keeps the shape of the parse: as many
    columns, as many rows, column [i] of the result being column [i] of
    the parse under its trimmed name.  A column whose trimmed name is not
    [Name] is returned as parsed; the column [Name] holds, position by
    position, the stripped text of the parsed one. *)
Theorem C10_cleaning_changes_names_and_identifiers_only
    (file : string) (df : DataFrame) (t : list event) :
  load_data w file = (Ret df, t) ->
  exists df0,
    detect_and_parse w file = (Ret df0, t) /\
    length df = length df0 /\
    nrows df = nrows df0 /\
    forall i label0 s0,
      nth_error df0 i = Some (label0, s0) ->
      exists s,
        nth_error df i = Some (PyStr.strip label0, s) /\
        series_len s = series_len s0 /\
        (PyStr.strip label0 <> "Name" -> s = s0) /\
        (PyStr.strip label0 = "Name" ->
         exists xs, s0 = ObjectSeries xs /\
                    s = ObjectSeries (map (option_map PyStr.strip) xs) /\
                    forall k, nth_error (map (option_map PyStr.strip) xs) k
                              = option_map (option_map PyStr.strip) (nth_error xs k)).
Proof.
  intros Hl. apply load_data_ret in Hl as (df0 & raw & D & G & ->).
  pose proof (getitem_some_has_column _ _ _ G) as Hc.
  assert (Hcol : forall i label0 s0,
    nth_error df0 i = Some (label0, s0) ->
    exists s,
      nth_error (setitem (rename PyStr.strip df0) "Name"
                   (ObjectSeries (map (option_map PyStr.strip) raw))) i
        = Some (PyStr.strip label0, s) /\
      series_len s = series_len s0 /\
      (PyStr.strip label0 <> "Name" -> s = s0) /\
      (PyStr.strip label0 = "Name" ->
       exists xs, s0 = ObjectSeries xs /\
                  s = ObjectSeries (map (option_map PyStr.strip) xs) /\
                  forall k, nth_error (map (option_map PyStr.strip) xs) k
                            = option_map (option_map PyStr.strip) (nth_error xs k))).
  { intros i label0 s0 Hn.
    assert (Hr : nth_error (rename PyStr.strip df0) i = Some (PyStr.strip label0, s0))
      by (rewrite nth_error_rename, Hn; reflexivity).
    rewrite nth_error_setitem, Hr by assumption. simpl fst.
    destruct (String.eqb (PyStr.strip label0) "Name") eqn:E.
    - apply String.eqb_eq in E.
      pose proof (getitem_series_unique _ _ _ _ _ G Hr E) as Hs. simpl in Hs. subst s0.
      eexists. split; [reflexivity|]. split; [simpl; apply length_map|].
      split; [congruence|]. intros _. exists raw. repeat split.
      intros k. apply nth_error_map.
    - apply String.eqb_neq in E. exists s0. split; [reflexivity|].
      split; [reflexivity|]. split; [reflexivity|]. congruence. }
  exists df0. split; [exact D|].
  split; [rewrite length_setitem, length_rename by assumption; reflexivity|].
  split; [|exact Hcol].
  destruct df0 as [|[l0 s0] r0] eqn:E0.
  - discriminate.
  - destruct (Hcol 0 l0 s0 eq_refl) as (s & Hn & Hlen & _).
    unfold nrows. destruct (setitem _ _ _) as [|[l s'] r]; [discriminate|].
    simpl in Hn. inversion Hn; subst. exact Hlen.
Qed.

End LoaderClaims.

Lemma name_same_inside : same_inside " Name " "Name".
Proof.
  exists "Name", " ", " ", "", "". repeat split; reflexivity.
Qed.

(** C1 at [noname.csv], which parses to the columns [Region], [2018], and
    at [budget.csv], whose header is padded: it parses to the columns
    [ Name ], [2018], [2019 ], [2020]. *)
Lemma C1_identifier_column_checked_witness :
  (detect_and_parse Sample.w "noname.csv"
     = (Ret Sample.no_name,
        opening Sample.w "noname.csv" [Byte.x4e; Byte.x61; Byte.x6d; Byte.x65]) /\
   load_data Sample.w "noname.csv"
     = (Raise StopException,
        opening Sample.w "noname.csv" [Byte.x4e; Byte.x61; Byte.x6d; Byte.x65]
        ++ [Ui (ErrorMissingName "noname.csv")])) /\
  (detect_and_parse Sample.w "budget.csv"
     = (Ret Sample.budget,
        opening Sample.w "budget.csv" [Byte.x4e; Byte.x61; Byte.x6d; Byte.x65]) /\
   Pandas.columns Sample.budget = [" Name "; "2018"; "2019 "; "2020"] /\
   (forall t, load_data Sample.w "budget.csv" <> (Raise StopException, t)) /\
   (forall df t, load_data Sample.w "budget.csv" = (Ret df, t) ->
      Pandas.columns df = ["Name"; "2018"; "2019"; "2020"] /\
      forall c, In c (Pandas.columns df) ->
        PyStr.strip c = c /\
        (forall x, first_char c = Some x -> PyStr.isspace x = false) /\
        (forall x, last_char c = Some x -> PyStr.isspace x = false))).
Proof.
  split.
  - split; [reflexivity|].
    refine (proj1 (proj1 (C1_identifier_column_checked Sample.w "noname.csv"
                            Sample.no_name _ _) _)).
    + reflexivity.
    + simpl. intros [H|[H|[]]]; discriminate.
  - pose proof (C1_identifier_column_checked Sample.w "budget.csv" Sample.budget
                  (opening Sample.w "budget.csv"
                     [Byte.x4e; Byte.x61; Byte.x6d; Byte.x65]) eq_refl)
      as (_ & _ & Hret & Hclean & Hpadded).
    split; [reflexivity|]. split; [reflexivity|]. split.
    + refine (proj2 (Hpadded " Name " _ name_same_inside)). now left.
    + intros df t Hl. split.
      * exact (proj1 (Hret df t Hl)).
      * exact (Hclean df t Hl).
Defined.

(** C2 at [legacy.csv]: the detector answers ascii, ascii and utf-8 cannot
    decode the file, cp1251 can. *)
Lemma C2_detect_then_fallback_in_order_witness :
  open_rb Sample.w "legacy.csv" = Ret [Byte.x4e; Byte.xcc; Byte.x3b] /\
  detect_and_parse Sample.w "legacy.csv"
  = (Ret Sample.budget,
     [Open "legacy.csv"; Detect [Byte.x4e; Byte.xcc; Byte.x3b];
      ReadCsv "legacy.csv" ";" (Some "ascii");
      ReadCsv "legacy.csv" ";" (Some "utf-8");
      ReadCsv "legacy.csv" ";" (Some "cp1251")]).
Proof.
  split; [reflexivity|].
  refine (proj1 (proj2 (proj2 (proj2 (proj2 (proj2
            (C2_detect_then_fallback_in_order Sample.w "legacy.csv"
               [Byte.x4e; Byte.xcc; Byte.x3b] _))) _)))
            UnicodeDecodeError Sample.budget _ _).
  - reflexivity.
  - reflexivity.
  - reflexivity.
  - reflexivity.
Defined.

(** C9 at [odd.csv]: the parser does not know the detected label. *)
Lemma C9_fallback_only_on_decode_error_witness :
  open_rb Sample.w "odd.csv" = Ret [Byte.xff; Byte.xfe] /\
  load_data Sample.w "odd.csv"
  = (Raise LookupError,
     [Open "odd.csv"; Detect [Byte.xff; Byte.xfe];
      ReadCsv "odd.csv" ";" (Some "EUC-TW")]).
Proof.
  split; [reflexivity|].
  refine (proj1 (proj1 (C9_fallback_only_on_decode_error Sample.w "odd.csv"
                         [Byte.xff; Byte.xfe] _) LookupError _ _)).
  - reflexivity.
  - reflexivity.
  - reflexivity.
Defined.

(** The pair of names of the specification. *)
Lemma moscow_same_inside : same_inside " Moscow " "Moscow".
Proof.
  exists "Moscow", " ", " ", "", "". repeat split.
Qed.

(** C3 on the sample budget file, whose first and third rows are named
    [" Moscow "] and ["Moscow"]. *)
Lemma C3_identifier_values_trimmed_witness :
  load_data Sample.w "budget.csv"
  = (Ret Sample.budget_loaded,
     opening Sample.w "budget.csv" [Byte.x4e; Byte.x61; Byte.x6d; Byte.x65]) /\
  exists df0 raw loaded,
    detect_and_parse Sample.w "budget.csv"
    = (Ret df0, opening Sample.w "budget.csv"
                  [Byte.x4e; Byte.x61; Byte.x6d; Byte.x65]) /\
    Pandas.getitem (Pandas.rename PyStr.strip df0) "Name"
    = Ret (Pandas.Series (Pandas.ObjectSeries raw)) /\
    Pandas.getitem Sample.budget_loaded "Name"
    = Ret (Pandas.Series (Pandas.ObjectSeries loaded)) /\
    loaded = map (option_map PyStr.strip) raw /\
    (forall v, In (Some v) loaded ->
       PyStr.strip v = v /\
       (forall c, first_char v = Some c -> PyStr.isspace c = false) /\
       (forall c, last_char v = Some c -> PyStr.isspace c = false)) /\
    (forall i j a b,
       nth_error raw i = Some (Some a) -> nth_error raw j = Some (Some b) ->
       same_inside a b ->
       nth_error loaded i = nth_error loaded j /\
       nth_error loaded i = Some (Some (PyStr.strip a))).
Proof.
  split; [reflexivity|].
  apply (C3_identifier_values_trimmed Sample.w "budget.csv").
  reflexivity.
Defined.

(** C10 on the sample budget file. *)
Lemma C10_cleaning_changes_names_and_identifiers_only_witness :
  load_data Sample.w "budget.csv"
  = (Ret Sample.budget_loaded,
     opening Sample.w "budget.csv" [Byte.x4e; Byte.x61; Byte.x6d; Byte.x65]) /\
  exists df0,
    detect_and_parse Sample.w "budget.csv"
    = (Ret df0, opening Sample.w "budget.csv"
                  [Byte.x4e; Byte.x61; Byte.x6d; Byte.x65]) /\
    length Sample.budget_loaded = length df0 /\
    Pandas.nrows Sample.budget_loaded = Pandas.nrows df0 /\
    forall i label0 s0,
      nth_error df0 i = Some (label0, s0) ->
      exists s,
        nth_error Sample.budget_loaded i = Some (PyStr.strip label0, s) /\
        Pandas.series_len s = Pandas.series_len s0 /\
        (PyStr.strip label0 <> "Name" -> s = s0) /\
        (PyStr.strip label0 = "Name" ->
         exists xs, s0 = Pandas.ObjectSeries xs /\
                    s = Pandas.ObjectSeries (map (option_map PyStr.strip) xs) /\
                    forall k, nth_error (map (option_map PyStr.strip) xs) k
                              = option_map (option_map PyStr.strip) (nth_error xs k)).
Proof.
  split; [reflexivity|].
  apply (C10_cleaning_changes_names_and_identifiers_only Sample.w "budget.csv").
  reflexivity.
Defined.

(* ================================================================== *)
(** * The page: guards before the filter                               *)
(* ================================================================== *)

Section PageFacts.
Import Pandas FrameFacts.
Variable w : world.

#[local] Arguments available_years : simpl never.
#[local] Arguments numeric_cols : simpl never.
#[local] Arguments getitem : simpl never.
#[local] Arguments unique : simpl never.
#[local] Arguments year_columns : simpl never.
#[local] Arguments list_min : simpl never.
#[local] Arguments list_max : simpl never.

#[local] Arguments slider_refuses : simpl never.

(** The control flow of lines 59-140 in one formula: where the run can
    end before the filter, and with which trace. *)
Lemma choose_from_unfold
    (loading : M (DataFrame * DataFrame * DataFrame)) (s : session) :
  choose_from loading s =
  match loading with
  | (Raise e, t) => (Raise e, Ui Title :: t)
  | (Ret dfs, t) =>
      let topic := chosen_topic s in
      let df := chosen_df topic dfs in
      let pre1 := Ui Title :: t ++ [Ui (Header 1); Ui Radio; Ui (Caption topic);
                                    Ui (Header 2)] in
      match numeric_cols df with
      | [] => (Raise StopException, pre1 ++ [Ui ErrorNoYearColumns])
      | _ :: _ =>
          match available_years (numeric_cols df) with
          | Raise e => (Raise e, pre1)
          | Ret years =>
              let min_year := list_min 0 years in
              let max_year := list_max 0 years in
              if slider_refuses min_year max_year
              then (Raise StreamlitAPIException, pre1)
              else
              let year_range := chosen_range s min_year max_year in
              let pre2 := pre1 ++ [Ui (Slider min_year max_year); Ui (Header 3)] in
              match getitem df "Name" with
              | Raise e => (Raise e, pre2)
              | Ret (Frame _) => (Raise AttributeError, pre2)
              | Ret (Series name) =>
                  match unique name with
                  | [] => (Raise IndexError, pre2)
                  | r :: _ =>
                      let pre3 := pre2 ++ [Ui (Multiselect (unique name) [r])] in
                      match chosen_regions s (unique name) [r] with
                      | [] => (Raise StopException, pre3 ++ [Ui WarningNoRegion])
                      | _ :: _ =>
                          (Ret (mk_inputs topic df name year_range
                                          (year_columns year_range)
                                          (chosen_regions s (unique name) [r])),
                           pre3)
                      end
                  end
              end
          end
      end
  end.
Proof.
  unfold choose_from.
  destruct loading as [[[[b h] i]|e] t]; [|reflexivity].
  unfold after_loading, chosen_topic, chosen_df, chosen_range, chosen_regions,
    st_radio, st_slider, st_multiselect, st, st_stop.
  cbv zeta.
  destruct (radio_state s) as [[]|]; simpl;
    match goal with
    | |- context [numeric_cols ?df] =>
        destruct (numeric_cols df) as [|c cs]; simpl;
        [ rewrite <- ?app_assoc; reflexivity
        | destruct (available_years (c :: cs)) as [years|e]; simpl;
          [|rewrite <- ?app_assoc; reflexivity];
          destruct (slider_refuses (list_min 0 years) (list_max 0 years)); simpl;
          [rewrite <- ?app_assoc; reflexivity|];
          destruct (getitem df "Name") as [[name|cols]|e]; simpl;
          try (rewrite <- ?app_assoc; reflexivity);
          destruct (unique name) as [|r rs] eqn:U; simpl;
          [rewrite <- ?app_assoc; reflexivity|];
          destruct (multiselect_state s) as [sel|]; simpl;
          [destruct (filter _ sel); simpl|];
          rewrite <- ?app_assoc; simpl; rewrite <- ?app_assoc; reflexivity ]
    end.
Qed.

Lemma choose_unfold (s : session) :
  choose w s =
  match load_all w with
  | (Raise e, t) => (Raise e, Ui Title :: t)
  | (Ret dfs, t) =>
      let topic := chosen_topic s in
      let df := chosen_df topic dfs in
      let pre1 := Ui Title :: t ++ [Ui (Header 1); Ui Radio; Ui (Caption topic);
                                    Ui (Header 2)] in
      match numeric_cols df with
      | [] => (Raise StopException, pre1 ++ [Ui ErrorNoYearColumns])
      | _ :: _ =>
          match available_years (numeric_cols df) with
          | Raise e => (Raise e, pre1)
          | Ret years =>
              let min_year := list_min 0 years in
              let max_year := list_max 0 years in
              if slider_refuses min_year max_year
              then (Raise StreamlitAPIException, pre1)
              else
              let year_range := chosen_range s min_year max_year in
              let pre2 := pre1 ++ [Ui (Slider min_year max_year); Ui (Header 3)] in
              match getitem df "Name" with
              | Raise e => (Raise e, pre2)
              | Ret (Frame _) => (Raise AttributeError, pre2)
              | Ret (Series name) =>
                  match unique name with
                  | [] => (Raise IndexError, pre2)
                  | r :: _ =>
                      let pre3 := pre2 ++ [Ui (Multiselect (unique name) [r])] in
                      match chosen_regions s (unique name) [r] with
                      | [] => (Raise StopException, pre3 ++ [Ui WarningNoRegion])
                      | _ :: _ =>
                          (Ret (mk_inputs topic df name year_range
                                          (year_columns year_range)
                                          (chosen_regions s (unique name) [r])),
                           pre3)
                      end
                  end
              end
          end
      end
  end.
Proof. apply choose_from_unfold. Qed.

Lemma choose_emits (s : session) :
  emits (fun ev => match ev with Ui e => is_choice_page e = true | _ => True end)
        (choose w s).
Proof.
  unfold choose, choose_from, after_loading, st_radio, st_slider, st_multiselect.
  walk; reflexivity.
Qed.

Lemma render_emits (i : selection_inputs) :
  emits (fun ev => ev <> Ui ErrorNoYearColumns) (render w i).
Proof. unfold render, debug_section. walk; discriminate. Qed.

Lemma script_of_choose_raise (s : session) (e : exn) (t : list event) :
  choose w s = (Raise e, t) -> script w s = (Raise e, t).
Proof. intros H. unfold script. rewrite H. reflexivity. Qed.

Lemma script_of_choose_ret (s : session) (i : selection_inputs) (t : list event) :
  choose w s = (Ret i, t) ->
  script w s = (fst (render w i), t ++ snd (render w i)).
Proof. intros H. unfold script. rewrite H. apply bind_ret_l. Qed.

Lemma loading_page_no_multiselect (t : list event) (options default : list value) :
  Forall (fun ev => match ev with Ui e => is_loading_page e = true | _ => True end) t ->
  ~ In (Multiselect options default) (page t).
Proof.
  intros H Hin.
  apply (emits_page (fun e => is_loading_page e = true)) in H.
  rewrite Forall_forall in H. apply H in Hin. discriminate.
Qed.

(** C7.  Line 143 is reached only with a selection that is not empty;
    and in a session whose selection is empty the run never completes,
    shows neither chart nor table, and, once the selector has been shown,
    ends in [st.stop()] with the warning as its last event, right after
    the selector. *)
Theorem C7_empty_selection_stops_before_the_filter (s : session) :
  (forall i t, choose w s = (Ret i, t) -> sel_regions i <> []) /\
  (multiselect_state s = Some [] ->
   exists e t,
     choose w s = (Raise e, t) /\
     script w s = (Raise e, t) /\
     forallb (fun x => negb (is_data_view x)) (page t) = true /\
     (forall options default, In (Multiselect options default) (page t) ->
        e = StopException /\
        exists pre, t = pre ++ [Ui (Multiselect options default); Ui WarningNoRegion])).
Proof.
  split.
  - intros i t. rewrite choose_unfold.
    destruct (load_all w) as [[dfs|e] tl]; [|discriminate]. cbv zeta.
    destruct (numeric_cols _); [discriminate|].
    destruct (available_years _); [|discriminate].
    destruct (slider_refuses _ _); [discriminate|].
    destruct (getitem _ "Name") as [[name|cols]|e]; try discriminate.
    destruct (unique name) as [|r rs]; [discriminate|].
    destruct (chosen_regions s _ [r]); [discriminate|].
    intros H. inversion H; subst. cbn [sel_regions]. discriminate.
  - intros Hs.
    assert (Hview : forall e t, choose w s = (e, t) ->
              forallb (fun x => negb (is_data_view x)) (page t) = true).
    { intros e t Hc. pose proof (choose_emits s) as He. unfold emits in He.
      rewrite Hc in He. simpl in He.
      apply (emits_page (fun e => is_choice_page e = true)) in He.
      apply forallb_forall. rewrite Forall_forall in He.
      intros x Hx. apply He in Hx. now destruct x. }
    assert (Hsel : forall o r, chosen_regions s o [r] = [])
      by (intros o r; unfold chosen_regions; now rewrite Hs).
    pose proof (choose_unfold s) as U.
    destruct (load_all w) as [[dfs|el] tl] eqn:L.
    + pose proof (load_all_ret_page w _ _ L) as Hp. cbv zeta in U.
      destruct (numeric_cols _).
      { eexists _, _. split; [exact U|]. split; [now apply script_of_choose_raise|].
        split; [now apply (Hview _ _ U)|].
        intros o d. simpl. rewrite !page_app, Hp. simpl.
        intros H. repeat destruct H as [H|H]; try discriminate; contradiction. }
      destruct (available_years _).
      2:{ eexists _, _. split; [exact U|]. split; [now apply script_of_choose_raise|].
          split; [now apply (Hview _ _ U)|].
          intros o d. simpl. rewrite !page_app, Hp. simpl.
          intros H. repeat destruct H as [H|H]; try discriminate; contradiction. }
      destruct (slider_refuses _ _).
      { eexists _, _. split; [exact U|]. split; [now apply script_of_choose_raise|].
        split; [now apply (Hview _ _ U)|].
        intros o d. simpl. rewrite !page_app, Hp. simpl.
        intros H. repeat destruct H as [H|H]; try discriminate; contradiction. }
      assert (Hpre2 : forall o d min_year max_year,
                ~ In (Multiselect o d)
                    (page ((Ui Title :: tl ++ [Ui (Header 1); Ui Radio;
                                               Ui (Caption (chosen_topic s));
                                               Ui (Header 2)])
                           ++ [Ui (Slider min_year max_year); Ui (Header 3)]))).
      { intros o d mn mx. simpl. rewrite !page_app, Hp. simpl.
        intros H. repeat destruct H as [H|H]; try discriminate; contradiction. }
      destruct (getitem _ "Name") as [[name|cols]|e];
        try (eexists _, _; split; [exact U|];
             split; [now apply script_of_choose_raise|];
             split; [now apply (Hview _ _ U)|];
             intros o d H; now apply Hpre2 in H).
      destruct (unique name) as [|r rs];
        try (eexists _, _; split; [exact U|];
             split; [now apply script_of_choose_raise|];
             split; [now apply (Hview _ _ U)|];
             intros o d H; now apply Hpre2 in H).
      rewrite Hsel in U.
      eexists _, _. split; [exact U|]. split; [now apply script_of_choose_raise|].
      split; [now apply (Hview _ _ U)|].
      intros o d H. split; [reflexivity|].
      rewrite page_app, page_app in H. apply in_app_or in H as [H|H].
      * apply in_app_or in H as [H|H]; [now apply Hpre2 in H|].
        simpl in H. destruct H as [H|[]]. inversion H; subst.
        eexists. rewrite <- app_assoc. reflexivity.
      * simpl in H. destruct H as [H|[]]. discriminate.
    + eexists _, _. split; [exact U|]. split; [now apply script_of_choose_raise|].
      split; [now apply (Hview _ _ U)|].
      intros o d H. exfalso. simpl in H. destruct H as [H|H]; [discriminate|].
      revert H. apply loading_page_no_multiselect.
      assert (He : emits (fun ev => match ev with
                                   | Ui e => is_loading_page e = true
                                   | _ => True
                                   end) (load_all w))
        by (apply load_all_emits; intros; exact I || reflexivity).
      unfold emits in He. now rewrite L in He.
Qed.

(** Decides that an element is not on a page written out in full. *)
Ltac absent :=
  let H := fresh "H" in
  intros H;
  repeat (simpl in H; rewrite ?page_app, ?in_app_iff in H);
  repeat match goal with
         | Hp : page _ = _ |- _ => rewrite Hp in H
         end;
  simpl in H;
  intuition (try discriminate; eauto).

(** C8, as the script has it.  The check is made on the dataset of the
    chosen topic, after the title, the topic selector, the caption and
    two section headers were shown.  When that dataset has no column
    named in digits the error message is the next and last event of the
    run, which ends in [st.stop()]: no slider, no selector, no chart and
    no table follow.  When it has one, the message is not shown at all,
    whatever the other two datasets look like. *)
Theorem C8_chosen_dataset_without_year_columns
    (s : session) (dfs : DataFrame * DataFrame * DataFrame) (t : list event) :
  load_all w = (Ret dfs, t) ->
  let topic := chosen_topic s in
  let df := chosen_df topic dfs in
  (numeric_cols df = [] ->
     script w s = (Raise StopException,
                   Ui Title :: t ++ [Ui (Header 1); Ui Radio; Ui (Caption topic);
                                     Ui (Header 2); Ui ErrorNoYearColumns]) /\
     page (snd (script w s)) = [Title; Spinner; Header 1; Radio; Caption topic;
                                Header 2; ErrorNoYearColumns]) /\
  (numeric_cols df <> [] -> ~ In ErrorNoYearColumns (page (snd (script w s)))).
Proof.
  intros L topic df.
  pose proof (load_all_ret_page w _ _ L) as Hp.
  pose proof (choose_unfold s) as U. rewrite L in U. cbv zeta in U.
  fold topic in U. fold df in U.
  split.
  - intros N. rewrite N in U.
    assert (E : script w s = (Raise StopException,
                   Ui Title :: t ++ [Ui (Header 1); Ui Radio; Ui (Caption topic);
                                     Ui (Header 2); Ui ErrorNoYearColumns])).
    { rewrite (script_of_choose_raise _ _ _ U). simpl.
      rewrite <- app_assoc. reflexivity. }
    split; [exact E|]. rewrite E. simpl. rewrite page_app, Hp. reflexivity.
  - intros N.
    assert (Hrender : forall i, ~ In ErrorNoYearColumns (page (snd (render w i)))).
    { intros i H. pose proof (render_emits i) as He. unfold emits in He.
      assert (He' : Forall (fun e => e <> ErrorNoYearColumns)
                           (page (snd (render w i)))).
      { apply emits_page. eapply Forall_impl; [|exact He].
        intros [] Ha; auto. congruence. }
      rewrite Forall_forall in He'. now apply He' in H. }
    destruct (numeric_cols df) as [|c cs]; [congruence|].
    destruct (available_years (c :: cs)) as [years|e];
      [|rewrite (script_of_choose_raise _ _ _ U); absent].
    destruct (slider_refuses _ _);
      [rewrite (script_of_choose_raise _ _ _ U); absent|].
    destruct (getitem df "Name") as [[name|cols]|e];
      try (rewrite (script_of_choose_raise _ _ _ U); absent).
    destruct (unique name) as [|r rs];
      [rewrite (script_of_choose_raise _ _ _ U); absent|].
    destruct (chosen_regions s _ [r]).
    + rewrite (script_of_choose_raise _ _ _ U). absent.
    + rewrite (script_of_choose_ret _ _ _ U). absent.
Qed.

End PageFacts.

(** C7 in a first sample session where every region was deselected. *)
Lemma C7_empty_selection_stops_before_the_filter_witness :
  multiselect_state (mk_session None None (Some [])) = Some [] /\
  exists e t,
    choose Sample.w (mk_session None None (Some [])) = (Raise e, t) /\
    script Sample.w (mk_session None None (Some [])) = (Raise e, t) /\
    forallb (fun x => negb (is_data_view x)) (page t) = true /\
    (forall options default, In (Multiselect options default) (page t) ->
       e = StopException /\
       exists pre, t = pre ++ [Ui (Multiselect options default); Ui WarningNoRegion]).
Proof.
  split; [reflexivity|].
  apply (proj2 (C7_empty_selection_stops_before_the_filter Sample.w
                  (mk_session None None (Some [])))).
  reflexivity.
Defined.

(** The requirement does not hold of every dataset: [housing.csv] of the
    sample disk has no year column, and a run on the budget topic
    completes without the message.  And where the message is shown, the
    title, the topic selector, the caption and two headers are on the
    page before it. *)
Lemma C8_counterexample :
  ~ every_dataset_is_checked /\
  page (snd (script Sample.w (mk_session (Some Housing) None None)))
  = [Title; Spinner; Header 1; Radio; Caption Housing; Header 2;
     ErrorNoYearColumns].
Proof.
  split; [|reflexivity].
  intros H.
  destruct (H Sample.w Sample.untouched "housing.csv" Sample.housing
              (opening Sample.w "housing.csv"
                 [Byte.x4e; Byte.x61; Byte.x6d; Byte.x65])) as [Hstop _].
  - right. now left.
  - reflexivity.
  - reflexivity.
  - vm_compute in Hstop. discriminate.
Qed.

(** C8 on the sample disk, topic housing. *)
Lemma C8_chosen_dataset_without_year_columns_witness :
  load_all Sample.w
  = (Ret (Sample.budget_loaded, Sample.housing, Sample.investments),
     snd (load_all Sample.w)) /\
  script Sample.w (mk_session (Some Housing) None None)
  = (Raise StopException,
     Ui Title :: snd (load_all Sample.w)
     ++ [Ui (Header 1); Ui Radio; Ui (Caption Housing); Ui (Header 2);
         Ui ErrorNoYearColumns]).
Proof.
  split; [vm_compute; reflexivity|].
  refine (proj1 (proj1 (C8_chosen_dataset_without_year_columns Sample.w
                          (mk_session (Some Housing) None None) _ _ _) _)).
  - vm_compute. reflexivity.
  - reflexivity.
Defined.

(* ================================================================== *)
(** * Year columns                                                     *)
(* ================================================================== *)

Module YearFacts.
Import PyStr Pandas.

Lemma numeric_cols_iff (df : DataFrame) (c : string) :
  In c (numeric_cols df) <-> In c (columns df) /\ isdigit c = true.
Proof. unfold numeric_cols. apply filter_In. Qed.

Lemma isdecimal_char_isdigit_char (c : ascii) :
  isdecimal_char c = true -> isdigit_char c = true.
Proof. unfold isdecimal_char, isdigit_char. cbv zeta. intros ->. reflexivity. Qed.

Lemma isdecimal_char_not_space (c : ascii) :
  isdecimal_char c = true -> isspace c = false.
Proof.
  destruct c as [[] [] [] [] [] [] [] []]; vm_compute;
    intros H; try reflexivity; discriminate H.
Qed.

Lemma isdecimal_isdigit (s : string) : isdecimal s = true -> isdigit s = true.
Proof.
  destruct s as [|c r]; [discriminate|]. unfold isdecimal, isdigit.
  generalize (String c r). clear. intros s.
  induction s as [|x r IH]; simpl; [reflexivity|].
  intros H. apply andb_true_iff in H as [H1 H2].
  now rewrite (isdecimal_char_isdigit_char _ H1), IH.
Qed.

(** A literal without whitespace has none to drop. *)
Lemma isspace_literal_isspace (c : ascii) :
  isspace c = false -> isspace_literal c = false.
Proof.
  destruct c as [[] [] [] [] [] [] [] []]; vm_compute;
    intros H; try reflexivity; discriminate H.
Qed.

Lemma rstrip_literal_fixed (s : string) :
  forallb_string (fun c => negb (isspace c)) s = true -> rstrip_literal s = s.
Proof.
  induction s as [|c r IH]; simpl; [reflexivity|].
  intros H. apply andb_true_iff in H as [H1 H2].
  rewrite (IH H2). destruct r; [|reflexivity].
  apply negb_true_iff in H1. now rewrite (isspace_literal_isspace _ H1).
Qed.

Lemma strip_literal_fixed (s : string) :
  forallb_string (fun c => negb (isspace c)) s = true ->
  rstrip_literal (lstrip_literal s) = s.
Proof.
  intros H.
  assert (E : lstrip_literal s = s).
  { destruct s as [|c r]; [reflexivity|]. simpl in *.
    apply andb_true_iff in H as [H1 _]. apply negb_true_iff in H1.
    now rewrite (isspace_literal_isspace _ H1). }
  rewrite E. now apply rstrip_literal_fixed.
Qed.

Lemma forallb_string_impl (p q : ascii -> bool) (s : string) :
  (forall c, p c = true -> q c = true) ->
  forallb_string p s = true -> forallb_string q s = true.
Proof.
  intros Hpq. induction s as [|c r IH]; simpl; [reflexivity|].
  intros H. apply andb_true_iff in H as [H1 H2].
  now rewrite (Hpq _ H1), IH.
Qed.

Lemma strip_literal_decimal (s : string) :
  forallb_string isdecimal_char s = true -> rstrip_literal (lstrip_literal s) = s.
Proof.
  intros H. apply strip_literal_fixed.
  apply (forallb_string_impl isdecimal_char); [|exact H].
  intros c Hc. now rewrite (isdecimal_char_not_space _ Hc).
Qed.

Lemma digit_value_nonneg (c : ascii) :
  isdecimal_char c = true -> (0 <= digit_value c)%Z.
Proof.
  unfold isdecimal_char, digit_value. cbv zeta. intros H.
  apply andb_true_iff in H as [H1 _]. apply N.leb_le in H1. lia.
Qed.

Lemma digits_value_decimal (s : string) :
  forallb_string isdecimal_char s = true ->
  forall (acc : Z) (after_digit : bool),
    s <> EmptyString \/ after_digit = true ->
    (0 <= acc)%Z ->
    exists v, digits_value acc after_digit s = Some v /\ (0 <= v)%Z.
Proof.
  induction s as [|c r IH]; cbn [digits_value forallb_string];
    intros H acc b Hne Hacc.
  - destruct Hne as [Hne| ->]; [congruence|]. now exists acc.
  - apply andb_true_iff in H as [H1 H2]. rewrite H1.
    apply IH; [assumption | now right|].
    pose proof (digit_value_nonneg _ H1). lia.
Qed.

(** A name made of the digits 0-9 is read by [int], as a year that is not
    negative. *)
Lemma int_decimal (s : string) :
  isdecimal s = true -> exists y, int s = Some y /\ (0 <= y)%Z.
Proof.
  destruct s as [|c r]; [discriminate|]. unfold isdecimal. intros H.
  unfold int. rewrite (strip_literal_decimal _ H).
  assert (E : match String c r with
              | String "+" r0 => digits_value 0 false r0
              | String "-" r0 => option_map Z.opp (digits_value 0 false r0)
              | t => digits_value 0 false t
              end = digits_value 0 false (String c r)).
  { simpl in H. apply andb_true_iff in H as [H1 _].
    destruct c as [[] [] [] [] [] [] [] []]; try discriminate H1; reflexivity. }
  rewrite E. apply digits_value_decimal; [assumption | left; discriminate | lia].
Qed.

(** The names of decimal digits only are among the year columns, and
    [int] reads each of them. *)
Lemma decimal_names_are_years (df : DataFrame) (c : string) :
  In c (columns df) -> isdecimal c = true ->
  In c (numeric_cols df) /\ exists y, int c = Some y /\ (0 <= y)%Z.
Proof.
  intros Hin Hd. split; [|now apply int_decimal].
  apply numeric_cols_iff. split; [assumption | now apply isdecimal_isdigit].
Qed.

(** The example of the specification. *)
Lemma numeric_cols_mixed :
  columns Sample.mixed = ["2018"; "2019"; "2020"; "abc"] /\
  numeric_cols Sample.mixed = ["2018"; "2019"; "2020"] /\
  available_years (numeric_cols Sample.mixed) = Ret [2018; 2019; 2020]%Z.
Proof. repeat split. Qed.

End YearFacts.

(** C4, at a name that is a digit but not a decimal digit.  The column
    named by SUPERSCRIPT TWO passes [isdigit], so line 102 lists it among
    the year columns although it is no string of decimal digits; line 108
    then fails on it with [ValueError], and so does a run on that file. *)
Theorem C4_superscript_digit_taken_for_a_year :
  load_data (Sample.world_with Sample.superscript) "budget.csv"
  = (Ret Sample.superscript,
     opening (Sample.world_with Sample.superscript) "budget.csv"
       [Byte.x4e; Byte.x61; Byte.x6d; Byte.x65]) /\
  numeric_cols Sample.superscript = [Sample.squared] /\
  PyStr.isdecimal Sample.squared = false /\
  available_years (numeric_cols Sample.superscript) = Raise ValueError /\
  fst (script (Sample.world_with Sample.superscript) Sample.untouched)
  = Raise ValueError.
Proof. repeat split. Qed.

(* ================================================================== *)
(** * The selection filter                                             *)
(* ================================================================== *)

Module FilterFacts.
Import Pandas FrameFacts.

Lemma value_eqb_sym (v x : value) : value_eqb v x = value_eqb x v.
Proof.
  destruct v, x; simpl; try reflexivity.
  - apply String.eqb_sym.
  - apply Qeq_bool_comm.
Qed.

Lemma mask_list_map {A B : Type} (f : A -> B) (m : list bool) (xs : list A) :
  mask_list m (map f xs) = map f (mask_list m xs).
Proof.
  revert xs. induction m as [|b m IH]; intros [|x xs]; simpl; try reflexivity.
  destruct b; simpl; now rewrite IH.
Qed.

Lemma mask_list_filter {A : Type} (p : A -> bool) (xs : list A) :
  mask_list (map p xs) xs = filter p xs.
Proof.
  induction xs as [|x xs IH]; simpl; [reflexivity|].
  destruct (p x); now rewrite IH.
Qed.


Lemma series_values_mask (m : list bool) (s : series) :
  series_values (mask_series m s) = mask_list m (series_values s).
Proof. destruct s; simpl; now rewrite mask_list_map. Qed.

Lemma series_len_values (s : series) : series_len s = length (series_values s).
Proof. destruct s; simpl; now rewrite length_map. Qed.

Lemma columns_getitem_mask (df : DataFrame) (m : list bool) :
  columns (getitem_mask df m) = columns df.
Proof. unfold columns, getitem_mask. rewrite map_map. reflexivity. Qed.


Lemma filter_nil {A : Type} (p : A -> bool) (xs : list A) :
  (forall x, In x xs -> p x = false) -> filter p xs = [].
Proof.
  induction xs as [|x xs IH]; simpl; intros H; [reflexivity|].
  rewrite (H x) by now left. apply IH. intros y Hy. apply H. now right.
Qed.

(** [df[labels]] succeeds when every label is a column... *)
Lemma getitem_list_ret (df : DataFrame) (labels : list string) :
  (forall l, In l labels -> In l (columns df)) ->
  getitem_list df labels = Ret (select_columns labels df).
Proof.
  intros H. unfold getitem_list. rewrite filter_nil; [reflexivity|].
  intros l Hl. apply H in Hl. apply has_column_In in Hl. now rewrite Hl.
Qed.

(** ... and raises [KeyError] as soon as one is not. *)
Lemma getitem_list_raise (df : DataFrame) (labels : list string) (l : string) :
  In l labels -> ~ In l (columns df) ->
  exists missing, getitem_list df labels = Raise (KeyError missing) /\ In l missing.
Proof.
  intros Hl Hn. unfold getitem_list.
  assert (Hm : In l (filter (fun l => negb (has_column df l)) labels)).
  { apply filter_In. split; [assumption|].
    destruct (has_column df l) eqn:E; [|reflexivity].
    apply has_column_In in E. contradiction. }
  destruct (filter _ labels) as [|x r]; [destruct Hm|].
  exists (x :: r). split; [reflexivity | assumption].
Qed.

(** Line 143 when every selected year has its column. *)
Lemma filtered_df_ret (df : DataFrame) (name : series)
    (selected : list value) (year_columns : list string) :
  (forall l, In l ("Name" :: year_columns) -> In l (columns df)) ->
  filtered_df df name selected year_columns
  = Ret (select_columns ("Name" :: year_columns)
           (rows_kept (fun v => existsb (value_eqb v) selected) df name)).
Proof.
  intros H. unfold filtered_df, rows_kept, isin. apply getitem_list_ret.
  intros l Hl. rewrite columns_getitem_mask. now apply H.
Qed.

(** Line 143 when a selected year has no column. *)
Lemma filtered_df_raise (df : DataFrame) (name : series)
    (selected : list value) (year_columns : list string) (l : string) :
  In l ("Name" :: year_columns) -> ~ In l (columns df) ->
  exists missing,
    filtered_df df name selected year_columns = Raise (KeyError missing) /\
    In l missing.
Proof.
  intros Hl Hn. unfold filtered_df. apply getitem_list_raise; [assumption|].
  now rewrite columns_getitem_mask.
Qed.

(** The labels line 121 builds: the decimal name of every year of the
    range, ends included. *)
Lemma year_columns_iff (y0 y1 : Z) (l : string) :
  In l (year_columns (y0, y1)) <->
  exists y, (y0 <= y <= y1)%Z /\ l = PyStr.str y.
Proof.
  unfold year_columns, PyStr.range. simpl fst. simpl snd.
  rewrite in_map_iff. split.
  - intros (y & <- & Hy). apply in_map_iff in Hy as (i & <- & Hi).
    apply in_seq in Hi. exists (y0 + Z.of_nat i)%Z. split; [lia | reflexivity].
  - intros (y & Hy & ->). exists y. split; [reflexivity|].
    apply in_map_iff. exists (Z.to_nat (y - y0)). split; [lia|].
    apply in_seq. lia.
Qed.

(** The columns of a selection carry the labels asked for. *)
Lemma select_columns_labels (labels : list string) (df : DataFrame) (l : string) :
  In l (columns (select_columns labels df)) -> In l labels /\ In l (columns df).
Proof.
  unfold columns, select_columns. rewrite in_map_iff.
  intros ([l' x] & <- & Hin). apply in_flat_map in Hin as (l0 & Hl0 & Hf).
  apply filter_In in Hf as [Hf E]. simpl in *. apply String.eqb_eq in E. subst.
  split; [assumption|]. apply in_map_iff. now exists (l0, x).
Qed.

Lemma filter_getitem_mask (df : DataFrame) (m : list bool) (l : string) :
  filter (fun c => String.eqb (fst c) l) (getitem_mask df m)
  = getitem_mask (filter (fun c => String.eqb (fst c) l) df) m.
Proof.
  unfold getitem_mask. induction df as [|[l0 x] r IH]; simpl; [reflexivity|].
  destruct (String.eqb l0 l); simpl; now rewrite IH.
Qed.

(** The first column of a selection that starts with [Name]. *)
Lemma select_columns_name (df : DataFrame) (name : series)
    (m : list bool) (year_columns : list string) :
  getitem df "Name" = Ret (Series name) ->
  exists rest,
    select_columns ("Name" :: year_columns) (getitem_mask df m)
    = ("Name", mask_series m name) :: rest.
Proof.
  intros G. unfold select_columns. simpl flat_map.
  rewrite filter_getitem_mask. unfold getitem in G.
  destruct (filter _ df) as [|[l x] [|c r]] eqn:E; try discriminate.
  inversion G; subst.
  assert (Hl : l = "Name").
  { assert (Hin : In (l, name) (filter (fun c => String.eqb (fst c) "Name") df))
      by (rewrite E; now left).
    apply filter_In in Hin as [_ Hin]. now apply String.eqb_eq in Hin. }
  subst. simpl. eexists. reflexivity.
Qed.

End FilterFacts.

Section FilterClaims.
Import Pandas FrameFacts FilterFacts.


End FilterClaims.



Section YearRange.
Import Pandas FrameFacts FilterFacts.

(** Line 143 on a frame that has a column for every year of the range:
    the rows whose identifier was selected, under [Name] and the names of
    the years of the range, and no other column. *)
Lemma selection_when_years_present
    (df : DataFrame) (name : series) (selected : list value) (y0 y1 : Z) :
  getitem df "Name" = Ret (Series name) ->
  (forall y, (y0 <= y <= y1)%Z -> In (PyStr.str y) (columns df)) ->
  exists table,
    filtered_df df name selected (year_columns (y0, y1)) = Ret table /\
    table = select_columns ("Name" :: year_columns (y0, y1))
              (rows_kept (fun v => existsb (value_eqb v) selected) df name) /\
    forall l, In l (columns table) ->
              l = "Name" \/ exists y, (y0 <= y <= y1)%Z /\ l = PyStr.str y.
Proof.
  intros G Hy. eexists. split; [|split; [reflexivity|]].
  - apply filtered_df_ret. intros l [<-|Hl].
    + apply has_column_In. now apply getitem_some_has_column in G.
    + apply year_columns_iff in Hl as (y & Hr & ->). now apply Hy.
  - intros l Hl. apply select_columns_labels in Hl as [[<-|Hl] _]; [now left|].
    right. now apply year_columns_iff.
Qed.

(** Line 143 on a frame that lacks the column of one year of the range. *)
Lemma selection_when_a_year_is_missing
    (df : DataFrame) (name : series) (selected : list value) (y0 y1 y : Z) :
  (y0 <= y <= y1)%Z -> ~ In (PyStr.str y) (columns df) ->
  exists missing,
    filtered_df df name selected (year_columns (y0, y1)) = Raise (KeyError missing) /\
    In (PyStr.str y) missing.
Proof.
  intros Hr Hn. apply filtered_df_raise; [|assumption].
  right. apply year_columns_iff. now exists y.
Qed.

(** The example of the specification: the range [2019, 2019] on the
    years 2018-2020. *)
Lemma selection_of_2019 :
  year_columns (2019, 2019)%Z = ["2019"] /\
  filtered_df Sample.budget_loaded
    (ObjectSeries [Some "Moscow"; Some "Kazan"; Some "Moscow"])
    [VStr "Moscow"] (year_columns (2019, 2019)%Z)
  = Ret [("Name", ObjectSeries [Some "Moscow"; Some "Moscow"]);
         ("2019", NumericSeries [Sample.q 11; Sample.q 31])].
Proof. split; reflexivity. Qed.

End YearRange.

(** C5, at a file whose years have a gap.  [Name;2018;2020] loads, its
    year columns are 2018 and 2020, and the slider's default range is
    [2018, 2020].  Line 121 then asks for the columns "2018", "2019" and
    "2020", and line 143 raises [KeyError] for "2019" instead of keeping
    the year columns of the range: the first run on that file ends in
    that exception, before any chart or table. *)
Theorem C5_gap_in_the_years_raises_KeyError :
  load_data (Sample.world_with Sample.gap) "budget.csv"
  = (Ret Sample.gap,
     opening (Sample.world_with Sample.gap) "budget.csv"
       [Byte.x4e; Byte.x61; Byte.x6d; Byte.x65]) /\
  numeric_cols Sample.gap = ["2018"; "2020"] /\
  available_years (numeric_cols Sample.gap) = Ret [2018; 2020]%Z /\
  year_columns (2018, 2020)%Z = ["2018"; "2019"; "2020"] /\
  filtered_df Sample.gap (Pandas.ObjectSeries [Some "Kazan"; Some "Tver"])
    [Pandas.VStr "Kazan"] (year_columns (2018, 2020)%Z)
  = Raise (KeyError ["2019"]) /\
  fst (script (Sample.world_with Sample.gap) Sample.untouched)
  = Raise (KeyError ["2019"]) /\
  forallb (fun e => negb (is_data_view e))
          (page (snd (script (Sample.world_with Sample.gap) Sample.untouched)))
  = true.
Proof. repeat split. Qed.

(* ================================================================== *)
(** * Years: names, numbers and back                                   *)
(* ================================================================== *)

Module YearNumbers.
Import PyStr Pandas YearFacts.

Lemma isdigit_char_not_space (c : ascii) :
  isdigit_char c = true -> isspace c = false.
Proof.
  destruct c as [[] [] [] [] [] [] [] []]; vm_compute;
    intros H; try reflexivity; discriminate H.
Qed.

Lemma strip_literal_digits (s : string) :
  forallb_string isdigit_char s = true -> rstrip_literal (lstrip_literal s) = s.
Proof.
  intros H. apply strip_literal_fixed.
  apply (forallb_string_impl isdigit_char); [|exact H].
  intros c Hc. now rewrite (isdigit_char_not_space _ Hc).
Qed.

(** On a name that [isdigit] accepts, [int] is the reading of its digits:
    there is neither whitespace to drop nor a sign. *)
Lemma int_of_digits (s : string) :
  isdigit s = true -> int s = digits_value 0 false s.
Proof.
  destruct s as [|c r]; [discriminate|]. unfold isdigit. intros H.
  unfold int. rewrite (strip_literal_digits _ H).
  simpl in H. apply andb_true_iff in H as [H1 _].
  destruct c as [[] [] [] [] [] [] [] []]; try discriminate H1; reflexivity.
Qed.

Lemma digits_value_nonneg (s : string) :
  forall (acc : Z) (after_digit : bool) (v : Z),
    digits_value acc after_digit s = Some v -> (0 <= acc)%Z -> (0 <= v)%Z.
Proof.
  induction s as [|c r IH]; cbn [digits_value]; intros acc b v H Hacc.
  - destruct b; inversion H; subst; assumption.
  - destruct (isdecimal_char c) eqn:E.
    + apply IH in H; [assumption|].
      pose proof (digit_value_nonneg _ E). lia.
    + destruct (Ascii.eqb c "_"); [|discriminate].
      destruct b; [|discriminate]. now apply IH in H.
Qed.

(** A digit that is no decimal digit stops the reading. *)
Lemma digits_value_not_decimal (s : string) :
  forallb_string isdigit_char s = true ->
  forallb_string isdecimal_char s = false ->
  forall (acc : Z) (after_digit : bool), digits_value acc after_digit s = None.
Proof.
  induction s as [|c r IH]; cbn [digits_value forallb_string]; intros Hd Hn acc b.
  - discriminate.
  - apply andb_true_iff in Hd as [H1 H2].
    destruct (isdecimal_char c) eqn:E.
    + simpl in Hn. now apply IH.
    + assert (Hu : Ascii.eqb c "_" = false).
      { clear - H1 E. destruct c as [[] [] [] [] [] [] [] []];
          try discriminate H1; reflexivity. }
      now rewrite Hu.
Qed.

Lemma isdigit_forallb (s : string) :
  isdigit s = true -> forallb_string isdigit_char s = true.
Proof. destruct s; [discriminate | auto]. Qed.

Lemma int_of_isdigit_not_decimal (s : string) :
  isdigit s = true -> isdecimal s = false -> int s = None.
Proof.
  intros Hd Hn. rewrite (int_of_digits _ Hd).
  apply digits_value_not_decimal; [now apply isdigit_forallb|].
  destruct s; [discriminate | exact Hn].
Qed.

(** Reading the digits that [str] writes. *)
Lemma string_of_uint_decimal (d : Decimal.uint) :
  forallb_string isdecimal_char (NilEmpty.string_of_uint d) = true.
Proof. induction d; simpl; auto. Qed.

Lemma digits_value_acc (d : Decimal.uint) :
  forall acc : positive,
    digits_value (Z.pos acc) true (NilEmpty.string_of_uint d)
    = Some (Z.pos (Pos.of_uint_acc d acc)).
Proof.
  induction d; intros acc;
    cbn [NilEmpty.string_of_uint digits_value Pos.of_uint_acc];
    try reflexivity;
    match goal with
    | |- context [isdecimal_char ?c] =>
        change (isdecimal_char c) with true; cbv iota
    end;
    match goal with
    | |- context [digit_value ?c] =>
        let v := eval vm_compute in (digit_value c) in
        change (digit_value c) with v
    end;
    match goal with
    | |- digits_value ?x true _ = Some (Z.pos (Pos.of_uint_acc _ ?p)) =>
        replace x with (Z.pos p) by lia
    end;
    apply IHd.
Qed.

Lemma digits_value_uint (d : Decimal.uint) :
  forall after_digit : bool,
    d <> Decimal.Nil \/ after_digit = true ->
    digits_value 0 after_digit (NilEmpty.string_of_uint d)
    = Some (Z.of_N (Pos.of_uint d)).
Proof.
  induction d; intros b Hb; cbn [NilEmpty.string_of_uint digits_value Pos.of_uint].
  - destruct Hb as [Hb| ->]; [congruence | reflexivity].
  - change (isdecimal_char "0") with true. cbv iota.
    change (10 * 0 + digit_value "0")%Z with 0%Z. apply IHd. now right.
  - change (10 * 0 + digit_value "1")%Z with 1%Z. apply (digits_value_acc d 1).
  - change (10 * 0 + digit_value "2")%Z with 2%Z. apply (digits_value_acc d 2).
  - change (10 * 0 + digit_value "3")%Z with 3%Z. apply (digits_value_acc d 3).
  - change (10 * 0 + digit_value "4")%Z with 4%Z. apply (digits_value_acc d 4).
  - change (10 * 0 + digit_value "5")%Z with 5%Z. apply (digits_value_acc d 5).
  - change (10 * 0 + digit_value "6")%Z with 6%Z. apply (digits_value_acc d 6).
  - change (10 * 0 + digit_value "7")%Z with 7%Z. apply (digits_value_acc d 7).
  - change (10 * 0 + digit_value "8")%Z with 8%Z. apply (digits_value_acc d 8).
  - change (10 * 0 + digit_value "9")%Z with 9%Z. apply (digits_value_acc d 9).
Qed.

Lemma string_of_uint_nonempty (d : Decimal.uint) :
  d <> Decimal.Nil -> NilEmpty.string_of_uint d <> EmptyString.
Proof. destruct d; simpl; congruence. Qed.

Lemma digits_of_positive (p : positive) :
  let ds := NilEmpty.string_of_uint (Pos.to_uint p) in
  NilZero.string_of_uint (Pos.to_uint p) = ds /\
  isdecimal ds = true /\
  digits_value 0 false ds = Some (Z.pos p).
Proof.
  pose proof (DecimalPos.Unsigned.to_uint_nonnil p) as Hn.
  cbv zeta. split; [|split].
  - destruct (Pos.to_uint p); [congruence | reflexivity ..].
  - pose proof (string_of_uint_decimal (Pos.to_uint p)) as Hd.
    pose proof (string_of_uint_nonempty _ Hn) as He.
    unfold isdecimal. destruct (NilEmpty.string_of_uint (Pos.to_uint p));
      [congruence | exact Hd].
  - rewrite digits_value_uint by now left.
    now rewrite DecimalPos.Unsigned.of_to.
Qed.

(** [int(str(y)) == y] for every integer. *)
Lemma int_str (y : Z) : int (str y) = Some y.
Proof.
  destruct y as [|p|p]; [reflexivity| |]; unfold str; simpl Z.to_int;
    cbn [NilZero.string_of_int];
    destruct (digits_of_positive p) as (E & Hd & Hv); rewrite E.
  - rewrite (int_of_digits _ (isdecimal_isdigit _ Hd)). exact Hv.
  - unfold int.
    assert (Hs : rstrip_literal
                   (lstrip_literal (String "-" (NilEmpty.string_of_uint (Pos.to_uint p))))
                 = String "-" (NilEmpty.string_of_uint (Pos.to_uint p))).
    { apply strip_literal_fixed. cbn [forallb_string].
      change (negb (isspace "-")) with true. cbn [andb].
      apply (forallb_string_impl isdecimal_char).
      - intros c Hc. now rewrite (isdecimal_char_not_space _ Hc).
      - destruct (NilEmpty.string_of_uint (Pos.to_uint p)); [discriminate Hd | exact Hd]. }
    rewrite Hs. rewrite Hv. reflexivity.
Qed.

Lemma str_injective (a b : Z) : str a = str b -> a = b.
Proof.
  intros H. assert (E : int (str a) = int (str b)) by now rewrite H.
  rewrite !int_str in E. now inversion E.
Qed.

Lemma ints_map_str (ys : list Z) : ints (map str ys) = Ret ys.
Proof.
  induction ys as [|y r IH]; [reflexivity|].
  unfold ints in *. cbn [map fold_right]. rewrite int_str. now rewrite IH.
Qed.

End YearNumbers.

Section YearClaims.
Import PyStr Pandas YearFacts YearNumbers.

Lemma ints_cons (x : string) (xs : list string) :
  ints (x :: xs) =
  match int x, ints xs with
  | Some y, Ret ys => Ret (y :: ys)
  | None, _ => Raise ValueError
  | _, Raise e => Raise e
  end.
Proof. reflexivity. Qed.

Lemma ints_raise (xs : list string) (e : exn) :
  ints xs = Raise e -> e = ValueError.
Proof.
  induction xs as [|x r IH]; [discriminate|]. rewrite ints_cons.
  destruct (int x); [|intros H; now inversion H].
  destruct (ints r); [discriminate|]. intros H. inversion H; subst. now apply IH.
Qed.

Lemma ints_ret (xs : list string) (ys : list Z) :
  ints xs = Ret ys -> Forall2 (fun x y => int x = Some y) xs ys.
Proof.
  revert ys. induction xs as [|x r IH]; intros ys.
  - intros H. inversion H. constructor.
  - rewrite ints_cons. destruct (int x) eqn:E; [|discriminate].
    destruct (ints r); [|discriminate]. intros H. inversion H; subst.
    constructor; [assumption | now apply IH].
Qed.

Lemma fold_left_min (r : list Z) (x : Z) :
  let m := fold_left Z.min r x in
  In m (x :: r) /\ forall y, In y (x :: r) -> (m <= y)%Z.
Proof.
  revert x. induction r as [|a r IH]; intros x; cbn [fold_left].
  - split; [now left|]. intros y [<-|[]]. lia.
  - destruct (IH (Z.min x a)) as [Hin Hle]. split.
    + destruct Hin as [Hin|Hin]; [|right; now right].
      rewrite <- Hin. destruct (Z.min_spec x a) as [[_ ->]|[_ ->]];
        [now left | right; now left].
    + intros y Hy. destruct Hy as [<-|[<-|Hy]].
      * specialize (Hle (Z.min x a) (or_introl eq_refl)). lia.
      * specialize (Hle (Z.min x a) (or_introl eq_refl)). lia.
      * apply Hle. now right.
Qed.

Lemma fold_left_max (r : list Z) (x : Z) :
  let m := fold_left Z.max r x in
  In m (x :: r) /\ forall y, In y (x :: r) -> (y <= m)%Z.
Proof.
  revert x. induction r as [|a r IH]; intros x; cbn [fold_left].
  - split; [now left|]. intros y [<-|[]]. lia.
  - destruct (IH (Z.max x a)) as [Hin Hle]. split.
    + destruct Hin as [Hin|Hin]; [|right; now right].
      rewrite <- Hin. destruct (Z.max_spec x a) as [[_ ->]|[_ ->]];
        [right; now left | now left].
    + intros y Hy. destruct Hy as [<-|[<-|Hy]].
      * specialize (Hle (Z.max x a) (or_introl eq_refl)). lia.
      * specialize (Hle (Z.max x a) (or_introl eq_refl)). lia.
      * apply Hle. now right.
Qed.

Lemma Forall2_In_l {A B : Type} (R : A -> B -> Prop) (xs : list A) (ys : list B) (x : A) :
  Forall2 R xs ys -> In x xs -> exists y, In y ys /\ R x y.
Proof.
  induction 1 as [|a b xs ys Hab _ IH]; intros Hin; [destruct Hin|].
  destruct Hin as [<-|Hin].
  - exists b. split; [now left | assumption].
  - destruct (IH Hin) as (y & Hy & Hr). exists y. split; [now right | assumption].
Qed.

Lemma Forall2_In_r {A B : Type} (R : A -> B -> Prop) (xs : list A) (ys : list B) (y : B) :
  Forall2 R xs ys -> In y ys -> exists x, In x xs /\ R x y.
Proof.
  induction 1 as [|a b xs ys Hab _ IH]; intros Hin; [destruct Hin|].
  destruct Hin as [<-|Hin].
  - exists a. split; [now left | assumption].
  - destruct (IH Hin) as (x & Hx & Hr). exists x. split; [now right | assumption].
Qed.

(** X1.  Lines 108-118.  When the year columns convert, the bounds of the
    slider are themselves years of the frame, the least and the greatest
    one: each is the number of a year column, every year column's number
    lies between them, and neither is negative. *)
Theorem slider_bounds_are_the_extreme_years (df : DataFrame) (years : list Z) :
  numeric_cols df <> [] ->
  available_years (numeric_cols df) = Ret years ->
  let min_year := list_min 0 years in
  let max_year := list_max 0 years in
  (0 <= min_year <= max_year)%Z /\
  (exists c, In c (columns df) /\ int c = Some min_year) /\
  (exists c, In c (columns df) /\ int c = Some max_year) /\
  (forall c, In c (numeric_cols df) ->
             exists y, int c = Some y /\ (min_year <= y <= max_year)%Z).
Proof.
  intros Hne Hy. unfold available_years in Hy. apply ints_ret in Hy.
  destruct years as [|y0 r].
  { inversion Hy as [E1 E2|]. congruence. }
  cbv zeta. unfold list_min, list_max.
  destruct (fold_left_min r y0) as [Hmin_in Hmin].
  destruct (fold_left_max r y0) as [Hmax_in Hmax].
  cbv zeta in *.
  assert (Hcol : forall y, In y (y0 :: r) ->
            exists c, In c (columns df) /\ isdigit c = true /\ int c = Some y).
  { intros y Hin. destruct (Forall2_In_r _ _ _ _ Hy Hin) as (c & Hc & E).
    apply numeric_cols_iff in Hc as [Hc Hd]. now exists c. }
  split; [|split; [|split]].
  - split; [|now apply Hmin].
    destruct (Hcol _ Hmin_in) as (c & _ & Hd & E).
    rewrite (int_of_digits _ Hd) in E.
    apply digits_value_nonneg in E; [assumption | lia].
  - destruct (Hcol _ Hmin_in) as (c & Hc & _ & E). now exists c.
  - destruct (Hcol _ Hmax_in) as (c & Hc & _ & E). now exists c.
  - intros c Hc. destruct (Forall2_In_l _ _ _ _ Hy Hc) as (y & Hin & E).
    exists y. split; [assumption|]. split; [now apply Hmin | now apply Hmax].
Qed.

(** Converting names that [isdigit] accepts. *)
Lemma ints_of_digit_names (cols : list string) :
  Forall (fun c => isdigit c = true) cols ->
  (forallb isdecimal cols = true ->
   exists years,
     ints cols = Ret years /\
     length years = length cols /\
     Forall (fun y => (0 <= y)%Z) years) /\
  (forallb isdecimal cols = false -> ints cols = Raise ValueError).
Proof.
  induction cols as [|c r IH]; intros Hd; cbn [forallb].
  - split; [|discriminate]. intros _. exists []. repeat split. constructor.
  - inversion Hd as [|? ? Hc Hr]; subst. destruct (IH Hr) as [IH1 IH2].
    rewrite ints_cons. split.
    + intros H. apply andb_true_iff in H as [H1 H2].
      destruct (int_decimal _ H1) as (y & E & Hy).
      destruct (IH1 H2) as (ys & E2 & Hl & Hall).
      rewrite E, E2. exists (y :: ys). repeat split; auto. simpl. now rewrite Hl.
    + intros H. apply andb_false_iff in H as [H|H].
      * now rewrite (int_of_isdigit_not_decimal _ Hc H).
      * rewrite (IH2 H). now destruct (int c).
Qed.

Lemma numeric_cols_digits (df : DataFrame) :
  Forall (fun c => isdigit c = true) (numeric_cols df).
Proof.
  apply Forall_forall. intros c Hc. now apply numeric_cols_iff in Hc as [_ Hc].
Qed.

Lemma superscript_not_decimal (s : string) :
  existsb_string is_superscript_digit s = true -> isdecimal s = false.
Proof.
  destruct s as [|c0 r0]; [discriminate|]. unfold isdecimal.
  generalize (String c0 r0). clear. intros s.
  induction s as [|c r IH]; simpl; [discriminate|].
  intros H. apply orb_true_iff in H as [H|H].
  - assert (E : isdecimal_char c = false).
    { clear - H. destruct c as [[] [] [] [] [] [] [] []];
        try discriminate H; reflexivity. }
    now rewrite E.
  - rewrite (IH H). apply andb_false_r.
Qed.

(** X2.  Lines 102-108.  The conversion of the year columns raises
    nothing but [ValueError].  It succeeds when every name that line 102
    kept is made of the digits 0-9 (and is no longer than [int] accepts):
    there is then one year per column, and no year is negative.  It fails
    as soon as one of the names holds a superscript digit, which
    [str.isdigit] lets through and [int] does not read. *)
Theorem year_conversion_fails_on_other_digits (df : DataFrame) :
  (forall e, available_years (numeric_cols df) = Raise e -> e = ValueError) /\
  (forallb isdecimal (numeric_cols df) = true ->
   Forall (fun c => String.length c <= int_max_str_digits) (numeric_cols df) ->
   exists years,
     available_years (numeric_cols df) = Ret years /\
     length years = length (numeric_cols df) /\
     Forall (fun y => (0 <= y)%Z) years) /\
  (forall c, In c (numeric_cols df) ->
             existsb_string is_superscript_digit c = true ->
             available_years (numeric_cols df) = Raise ValueError).
Proof.
  unfold available_years.
  destruct (ints_of_digit_names _ (numeric_cols_digits df)) as [H1 H2].
  split; [intros e He; now apply ints_raise in He|].
  split; [intros H _; now apply H1|].
  intros c Hc Hs. apply H2.
  destruct (forallb isdecimal (numeric_cols df)) eqn:E; [|reflexivity].
  rewrite forallb_forall in E. specialize (E c Hc).
  rewrite (superscript_not_decimal _ Hs) in E. discriminate.
Qed.

(** X3.  Lines 121 and 158.  The labels built from a range are the
    decimal names of its years in ascending order, one per year and no
    two alike (none at all when the range is empty), and reading them
    back with [int] gives the years again: line 158 cannot fail. *)
Theorem year_labels_read_back (y0 y1 : Z) :
  ints (year_columns (y0, y1)) = Ret (range y0 (y1 + 1)) /\
  length (year_columns (y0, y1)) = Z.to_nat (y1 - y0 + 1) /\
  NoDup (year_columns (y0, y1)) /\
  (forall i, i < Z.to_nat (y1 - y0 + 1) ->
             nth_error (year_columns (y0, y1)) i = Some (str (y0 + Z.of_nat i))) /\
  ((y1 < y0)%Z -> year_columns (y0, y1) = []).
Proof.
  unfold year_columns. cbn [fst snd].
  replace (y1 + 1 - y0)%Z with (y1 - y0 + 1)%Z in * by lia.
  split; [apply ints_map_str|].
  unfold range. replace (y1 + 1 - y0)%Z with (y1 - y0 + 1)%Z by lia.
  split; [now rewrite !length_map, length_seq|]. split; [|split].
  - rewrite map_map.
    assert (Hinj : forall n a,
              NoDup (map (fun i => str (y0 + Z.of_nat i)) (seq a n))).
    { induction n as [|n IH]; intros a; simpl; constructor.
      - rewrite in_map_iff. intros (i & E & Hi). apply str_injective in E.
        apply in_seq in Hi. lia.
      - apply IH. }
    apply Hinj.
  - intros i Hi. rewrite map_map, nth_error_map, nth_error_seq.
    destruct (Nat.ltb_spec i (Z.to_nat (y1 - y0 + 1))); [reflexivity | lia].
  - intros H. replace (Z.to_nat (y1 - y0 + 1)) with 0 by lia. reflexivity.
Qed.

End YearClaims.

(** X1 on the cleaned sample budget frame: years 2018 to 2020. *)
Lemma slider_bounds_are_the_extreme_years_witness :
  (0 <= 2018 <= 2020)%Z /\
  (exists c, In c (Pandas.columns Sample.budget_loaded) /\ PyStr.int c = Some 2018%Z) /\
  (exists c, In c (Pandas.columns Sample.budget_loaded) /\ PyStr.int c = Some 2020%Z) /\
  (forall c, In c (numeric_cols Sample.budget_loaded) ->
             exists y, PyStr.int c = Some y /\ (2018 <= y <= 2020)%Z).
Proof.
  apply (slider_bounds_are_the_extreme_years Sample.budget_loaded
           [2018; 2019; 2020]%Z).
  - discriminate.
  - reflexivity.
Defined.

(* ================================================================== *)
(** * More on loading                                                  *)
(* ================================================================== *)

Section Cleaning.
Import Pandas FrameFacts.

Lemma filter_rename_strip (df0 : DataFrame) :
  filter (fun c => String.eqb (fst c) "Name") (rename PyStr.strip df0)
  = rename PyStr.strip (name_columns df0).
Proof.
  unfold rename, name_columns.
  induction df0 as [|[l x] r IH]; cbn [map filter fst snd]; [reflexivity|].
  destruct (String.eqb (PyStr.strip l) "Name"); cbn [map]; now rewrite IH.
Qed.

Lemma has_column_rename_strip (df0 : DataFrame) :
  has_column (rename PyStr.strip df0) "Name"
  = match name_columns df0 with [] => false | _ :: _ => true end.
Proof.
  unfold has_column, columns, rename, name_columns. rewrite map_map.
  induction df0 as [|[l x] r IH]; cbn [map filter existsb fst snd]; [reflexivity|].
  rewrite String.eqb_sym. destruct (String.eqb (PyStr.strip l) "Name");
    cbn [orb]; [reflexivity | exact IH].
Qed.

(** X4.  Lines 44-54.  What the cleaning does is decided by the columns
    whose trimmed name is [Name].  With none, the error naming the file
    is shown and the run is stopped.  With exactly one that holds text,
    the frame is returned with trimmed names and stripped identifiers and
    nothing is shown.  With exactly one that is numeric, or with two or
    more (say [Name] and [ Name]), line 52 raises [AttributeError] and
    the loader shows no message of its own. *)
Theorem cleaning_outcomes (file : string) (df0 : DataFrame) :
  (name_columns df0 = [] ->
   clean file df0 = (Raise StopException, [Ui (ErrorMissingName file)])) /\
  (forall l raw, name_columns df0 = [(l, ObjectSeries raw)] ->
   clean file df0
   = (Ret (setitem (rename PyStr.strip df0) "Name"
             (ObjectSeries (map (option_map PyStr.strip) raw))), [])) /\
  (forall l xs, name_columns df0 = [(l, NumericSeries xs)] ->
   clean file df0 = (Raise AttributeError, [])) /\
  (2 <= length (name_columns df0) ->
   clean file df0 = (Raise AttributeError, [])).
Proof.
  rewrite clean_unfold. cbv zeta. rewrite has_column_rename_strip.
  unfold getitem. rewrite filter_rename_strip.
  destruct (name_columns df0) as [|[l x] [|c r]]; cbn [rename map fst snd length].
  - split; [reflexivity|]. split; [discriminate|]. split; [discriminate|]. lia.
  - split; [discriminate|]. split; [|split].
    + intros l' raw H. inversion H; subst. reflexivity.
    + intros l' xs H. inversion H; subst. reflexivity.
    + lia.
  - split; [discriminate|]. split; [discriminate|]. split; [discriminate|].
    intros _. reflexivity.
Qed.

Lemma setitem_same (df : DataFrame) (label : string) (s : series) :
  getitem df label = Ret (Series s) -> setitem df label s = df.
Proof.
  intros G. pose proof (getitem_some_has_column _ _ _ G) as Hc.
  unfold setitem. rewrite Hc. rewrite <- (map_id df) at 2.
  apply map_ext_in. intros [l x] Hin. simpl.
  destruct (String.eqb l label) eqn:E; [|reflexivity].
  apply String.eqb_eq in E. apply In_nth_error in Hin as [i Hi].
  pose proof (getitem_series_unique _ _ _ _ _ G Hi E) as Hs.
  simpl in Hs. now subst.
Qed.

(** X5.  Lines 44-54.  Cleaning is idempotent: a frame that the cleaning
    returned passes it again unchanged, with nothing shown either time. *)
Theorem cleaning_is_idempotent (file : string) (df0 df : DataFrame) (t : list event) :
  clean file df0 = (Ret df, t) ->
  t = [] /\ rename PyStr.strip df = df /\ clean file df = (Ret df, []).
Proof.
  rewrite clean_unfold. cbv zeta.
  destruct (has_column (rename PyStr.strip df0) "Name") eqn:Hc; [|discriminate].
  destruct (getitem (rename PyStr.strip df0) "Name") as [x|e] eqn:G; [|discriminate].
  destruct x as [[raw|xs]|cols]; simpl; try discriminate.
  intros H. inversion H; subst. clear H. split; [reflexivity|].
  set (df1 := rename PyStr.strip df0) in *.
  set (ids := ObjectSeries (map (option_map PyStr.strip) raw)).
  assert (Hren : rename PyStr.strip (setitem df1 "Name" ids) = setitem df1 "Name" ids).
  { unfold setitem. rewrite Hc. unfold rename at 1. rewrite map_map.
    apply map_ext_in. intros [l x] Hin. cbn [fst snd].
    unfold df1, rename in Hin. apply in_map_iff in Hin as ([l0 x0] & E & _).
    inversion E; subst.
    destruct (String.eqb (PyStr.strip l0) "Name"); cbn [fst snd];
      now rewrite StripFacts.strip_idempotent. }
  split; [exact Hren|].
  rewrite clean_unfold. cbv zeta. rewrite Hren.
  assert (G' : getitem (setitem df1 "Name" ids) "Name" = Ret (Series ids))
    by now apply getitem_setitem with (s0 := ObjectSeries raw).
  rewrite (getitem_some_has_column _ _ _ G'), G'. unfold ids at 2. simpl.
  assert (E : map (option_map PyStr.strip) (map (option_map PyStr.strip) raw)
              = map (option_map PyStr.strip) raw).
  { rewrite map_map. apply map_ext. intros [v|]; simpl; [|reflexivity].
    now rewrite StripFacts.strip_idempotent. }
  rewrite E. fold ids. now rewrite (setitem_same _ _ _ G').
Qed.

End Cleaning.

(** X4 on the sample parse with the columns [Name] and [ Name]. *)
Lemma cleaning_outcomes_witness :
  2 <= length (name_columns Sample.two_names) /\
  clean "budget.csv" Sample.two_names = (Raise AttributeError, []).
Proof.
  split; [simpl; lia|].
  apply (proj2 (proj2 (proj2 (cleaning_outcomes "budget.csv" Sample.two_names)))).
  simpl. lia.
Defined.

(** X5 on the sample budget parse. *)
Lemma cleaning_is_idempotent_witness :
  clean "budget.csv" Sample.budget = (Ret Sample.budget_loaded, []) /\
  clean "budget.csv" Sample.budget_loaded = (Ret Sample.budget_loaded, []).
Proof.
  split; [reflexivity|].
  apply (cleaning_is_idempotent "budget.csv" Sample.budget Sample.budget_loaded []).
  reflexivity.
Defined.

Section LoadingFailures.
Import Pandas.
Variable w : world.

(** A load opens no file but its own. *)
Lemma load_data_opens (file f : string) :
  In (Open f) (snd (load_data w file)) -> f = file.
Proof.
  intros Hin.
  assert (He : emits (fun ev => forall g, ev = Open g -> g = file)
                     (load_data w file)).
  { unfold load_data, detect_and_parse, clean, read_csv.
    walk; intros g Hg; try discriminate Hg. now inversion Hg. }
  unfold emits in He. rewrite Forall_forall in He. now apply (He _ Hin).
Qed.

Lemma clean_attempts (file : string) (df0 : DataFrame) :
  attempts (snd (clean file df0)) = [].
Proof.
  rewrite clean_unfold. cbv zeta.
  destruct (has_column _ _); [|reflexivity].
  destruct (getitem _ _) as [x|?]; [|reflexivity].
  destruct (str_strip x); reflexivity.
Qed.

(** X17.  Lines 22-54.  A load touches nothing but its own file: every
    event of it is the opening of that file, a detection on at most
    10000 bytes, a parse of that file with the separator [;], or the
    error message naming that file; and it makes at most four parse
    attempts. *)
Theorem load_touches_only_its_file (file : string) :
  Forall (fun ev =>
            ev = Open file \/
            (exists rawdata, ev = Detect rawdata /\ length rawdata <= N.to_nat 10000) \/
            (exists encoding, ev = ReadCsv file ";" encoding) \/
            ev = Ui (ErrorMissingName file))
         (snd (load_data w file)) /\
  length (attempts (snd (load_data w file))) <= 4.
Proof.
  split.
  - change (emits (fun ev =>
              ev = Open file \/
              (exists rawdata, ev = Detect rawdata /\ length rawdata <= N.to_nat 10000) \/
              (exists encoding, ev = ReadCsv file ";" encoding) \/
              ev = Ui (ErrorMissingName file)) (load_data w file)).
    unfold load_data, detect_and_parse, clean, read_csv.
    walk;
      first [ now left
            | right; left; eexists; split; [reflexivity|];
              unfold read_prefix; apply firstn_le_length
            | right; right; left; eexists; reflexivity
            | right; right; right; reflexivity ].
  - rewrite load_data_unfold, detect_and_parse_unfold.
    destruct (open_rb w file) as [contents|e]; [|simpl; lia]. cbv zeta.
    unfold opening.
    assert (Hc : forall df0 pre,
              length (attempts (snd (let (r, t') := clean file df0 in
                                     (r, pre ++ t'))))
              = length (attempts pre)).
    { intros df0 pre. pose proof (clean_attempts file df0) as Hc.
      destruct (clean file df0) as [r t']. simpl in *.
      assert (A : forall a b, attempts (a ++ b) = attempts a ++ attempts b).
      { intros a b. induction a as [|ev a IH]; [reflexivity|].
        destruct ev; simpl; now rewrite IH. }
      now rewrite A, Hc, app_nil_r. }
    repeat match goal with
           | |- context [match ?x with _ => _ end] =>
               match x with
               | pd_read_csv _ _ _ _ => destruct x
               | is_UnicodeDecodeError _ => destruct x
               end
           end;
      try (rewrite Hc; simpl; lia); simpl; lia.
Qed.

Lemma is_Exception_other (e : exn) : e <> StopException -> is_Exception e = true.
Proof. destruct e; simpl; congruence. Qed.

(** X6.  Lines 62-70.  When the load of one of the three files raises
    an exception (the file is missing, no encoding of the chain parses
    it, the identifier column is numeric, ...), and the files before it
    loaded, the run shows that exception in an error message right after
    the events of the failed load and stops; the files after it are
    never opened. *)
Theorem load_failure_is_reported
    (s : session) (file : string) (e : exn) (t : list event) :
  In file input_files ->
  (forall f, In f (before file input_files) ->
             exists d t', load_data w f = (Ret d, t')) ->
  load_data w file = (Raise e, t) ->
  e <> StopException ->
  exists pre,
    script w s = (Raise StopException,
                  Ui Title :: Ui Spinner :: pre ++ t ++ [Ui (ErrorLoading e)]) /\
    page pre = [] /\
    forall f, In f (after file input_files) -> ~ In (Open f) (snd (script w s)).
Proof.
  intros Hin Hbefore Hl He. apply is_Exception_other in He.
  assert (Ht : forall f, In (Open f) t -> f = file).
  { intros f Hf. apply load_data_opens. now rewrite Hl. }
  simpl in Hin. destruct Hin as [<-|[<-|[<-|[]]]]; cbn [before String.eqb] in Hbefore.
  - exists []. assert (L : load_all w = (Raise StopException,
                                  Ui Spinner :: t ++ [Ui (ErrorLoading e)])).
    { unfold load_all, load_all_with. rewrite Hl. simpl. rewrite He. reflexivity. }
    rewrite (script_load_stopped _ _ _ _ L). split; [reflexivity|].
    split; [reflexivity|]. intros f Hf. simpl in Hf. simpl.
    rewrite in_app_iff. simpl. intros [H|[H|[H|[H|[]]]]]; try discriminate.
    apply Ht in H. destruct Hf as [<-|[<-|[]]]; discriminate.
  - destruct (Hbefore "budget.csv") as (b & tb & Hb); [now left|].
    exists tb. assert (L : load_all w = (Raise StopException,
                                  Ui Spinner :: tb ++ t ++ [Ui (ErrorLoading e)])).
    { unfold load_all, load_all_with. rewrite Hb, Hl. simpl. rewrite He. simpl.
      now rewrite <- app_assoc. }
    rewrite (script_load_stopped _ _ _ _ L). split; [reflexivity|].
    split; [now apply (load_data_ret_page w _ _ _ Hb)|].
    intros f Hf. simpl in Hf. simpl.
    rewrite !in_app_iff. simpl. intros [H|[H|[H|[H|[H|[]]]]]]; try discriminate.
    + assert (f = "budget.csv") by (apply load_data_opens; now rewrite Hb).
      destruct Hf as [<-|[]]; discriminate.
    + apply Ht in H. destruct Hf as [<-|[]]; discriminate.
  - destruct (Hbefore "budget.csv") as (b & tb & Hb); [now left|].
    destruct (Hbefore "housing.csv") as (h & th & Hh); [right; now left|].
    exists (tb ++ th).
    assert (L : load_all w = (Raise StopException,
                 Ui Spinner :: (tb ++ th) ++ t ++ [Ui (ErrorLoading e)])).
    { unfold load_all, load_all_with. rewrite Hb, Hh, Hl. simpl. rewrite He. simpl.
      now rewrite <- !app_assoc. }
    rewrite (script_load_stopped _ _ _ _ L). split; [reflexivity|]. split.
    + rewrite page_app.
      now rewrite (load_data_ret_page w _ _ _ Hb), (load_data_ret_page w _ _ _ Hh).
    + intros f Hf. destruct Hf.
Qed.

End LoadingFailures.

(** X6 on the sample disk without [housing.csv]. *)
Lemma load_failure_is_reported_witness :
  load_data Sample.w_without_housing "housing.csv"
  = (Raise FileNotFoundError, [Open "housing.csv"]) /\
  exists pre,
    script Sample.w_without_housing Sample.untouched
    = (Raise StopException,
       Ui Title :: Ui Spinner :: pre ++ [Open "housing.csv"]
       ++ [Ui (ErrorLoading FileNotFoundError)]) /\
    page pre = [] /\
    forall f, In f (after "housing.csv" input_files) ->
              ~ In (Open f) (snd (script Sample.w_without_housing Sample.untouched)).
Proof.
  split; [reflexivity|].
  apply (load_failure_is_reported Sample.w_without_housing Sample.untouched
           "housing.csv" FileNotFoundError [Open "housing.csv"]).
  - right. now left.
  - intros f [<-|[]]. eexists _, _. reflexivity.
  - reflexivity.
  - discriminate.
Defined.

(* ================================================================== *)
(** * Chart, table and debug panel                                     *)
(* ================================================================== *)

Section Chart.
Import Pandas YearNumbers.
Variable w : world.

Lemma combine_map_self {A B : Type} (f : A -> B) (l : list A) :
  combine l (map f l) = map (fun x => (x, f x)) l.
Proof. induction l as [|x r IH]; simpl; [reflexivity | now rewrite IH]. Qed.

Lemma iterrows_length (df : DataFrame) : length (iterrows df) = nrows df.
Proof. unfold iterrows. now rewrite length_map, length_seq. Qed.

(** [enumerate(df.iterrows())] *)
Lemma enumerate_rows_length (df : DataFrame) :
  length (combine (seq 0 (nrows df)) (iterrows df)) = nrows df.
Proof. now rewrite length_combine, length_seq, iterrows_length, Nat.min_id. Qed.

Lemma enumerate_rows_nth (df : DataFrame) (k : nat) :
  k < nrows df ->
  nth_error (combine (seq 0 (nrows df)) (iterrows df)) k = Some (k, row_at df k).
Proof.
  intros Hk. unfold iterrows.
  rewrite combine_map_self, nth_error_map, nth_error_seq.
  destruct (Nat.ltb_spec k (nrows df)); [reflexivity | lia].
Qed.

Lemma enumerate_rows_inv (df : DataFrame) (k idx : nat) (row : list (string * value)) :
  nth_error (combine (seq 0 (nrows df)) (iterrows df)) k = Some (idx, row) ->
  k < nrows df /\ idx = k /\ row = row_at df k.
Proof.
  intros H.
  assert (Hk : k < nrows df).
  { rewrite <- (enumerate_rows_length df). apply nth_error_Some. congruence. }
  rewrite (enumerate_rows_nth _ _ Hk) in H. inversion H; subst. auto.
Qed.

(** The body of the loop: what a row that was drawn went through... *)
Lemma plot_row_ret (labels : list string) (drawn : list plot_line) (idx : nat)
    (row : list (string * value)) (lines : list plot_line) (years : list Z) :
  plot_row w labels drawn idx row = Ret (lines, years) ->
  exists label values,
    row_getitem row ["Name"] = Ret label /\
    row_getitem row labels = Ret values /\
    ints labels = Ret years /\
    ax_plot w drawn years (mk_plot_line label values (idx mod 10)) = Ret tt /\
    lines = drawn ++ [mk_plot_line label values (idx mod 10)].
Proof.
  unfold plot_row.
  destruct (row_getitem row ["Name"]) as [label|e]; [|discriminate].
  destruct (row_getitem row labels) as [values|e]; [|discriminate].
  destruct (ints labels) as [ys|e]; [|discriminate].
  destruct (ax_plot w drawn ys _) as [[]|e] eqn:P; [|discriminate].
  intros [= <- <-]. exists label, values. auto.
Qed.

(** ... and where the exception of a row that was not drawn comes from. *)
Lemma plot_row_raise (labels : list string) (drawn : list plot_line) (idx : nat)
    (row : list (string * value)) (e : exn) :
  plot_row w labels drawn idx row = Raise e ->
  row_getitem row ["Name"] = Raise e \/
  row_getitem row labels = Raise e \/
  ints labels = Raise e \/
  exists label values years,
    row_getitem row ["Name"] = Ret label /\
    row_getitem row labels = Ret values /\
    ints labels = Ret years /\
    ax_plot w drawn years (mk_plot_line label values (idx mod 10)) = Raise e.
Proof.
  unfold plot_row.
  destruct (row_getitem row ["Name"]) as [label|e1]; [|intros [= ->]; now left].
  destruct (row_getitem row labels) as [values|e1];
    [|intros [= ->]; right; now left].
  destruct (ints labels) as [ys|e1]; [|intros [= ->]; right; right; now left].
  destruct (ax_plot w drawn ys _) as [[]|e1] eqn:P; [discriminate|].
  intros [= ->]. right. right. right. exists label, values, ys. auto.
Qed.

(** The loop, when it comes to its end: one line was added per row, in
    order, each accepted by [ax.plot] on the axes that held the lines
    before it. *)
Lemma plot_loop_ret (labels : list string) (rows : list (nat * list (string * value))) :
  forall (drawn : list plot_line) (oy : option (list Z))
         (lines : list plot_line) (oy' : option (list Z)),
  plot_loop w labels (drawn, oy) rows = Ret (lines, oy') ->
  length lines = length drawn + length rows /\
  firstn (length drawn) lines = drawn /\
  (rows = [] -> oy' = oy) /\
  (rows <> [] -> exists years, oy' = Some years /\ ints labels = Ret years) /\
  forall j idx row, nth_error rows j = Some (idx, row) ->
    exists label values years,
      row_getitem row ["Name"] = Ret label /\
      row_getitem row labels = Ret values /\
      ints labels = Ret years /\
      nth_error lines (length drawn + j)
      = Some (mk_plot_line label values (idx mod 10)) /\
      ax_plot w (firstn (length drawn + j) lines) years
              (mk_plot_line label values (idx mod 10)) = Ret tt.
Proof.
  induction rows as [|[idx row] rest IH]; intros drawn oy lines oy' H.
  - simpl in H. inversion H; subst. rewrite Nat.add_0_r, firstn_all.
    repeat split; auto; try congruence.
    intros j idx row Hj. destruct j; discriminate.
  - cbn [plot_loop fst] in H.
    destruct (plot_row w labels drawn idx row) as [[drawn1 years1]|e] eqn:R;
      [|discriminate].
    apply plot_row_ret in R as (label & values & Hl & Hv & Hy & Hp & ->).
    apply IH in H as (Hlen & Hfirst & Hnil & Hcons & Hrows).
    rewrite length_app in Hlen, Hfirst, Hrows. cbn [length] in Hlen, Hfirst, Hrows.
    assert (Hdrawn : firstn (length drawn) lines = drawn).
    { rewrite <- (Nat.min_l (length drawn) (length drawn + 1)) by lia.
      rewrite <- firstn_firstn, Hfirst, firstn_app, Nat.sub_diag, firstn_all.
      simpl. apply app_nil_r. }
    assert (Hline : nth_error lines (length drawn)
                    = Some (mk_plot_line label values (idx mod 10))).
    { assert (E : nth_error (firstn (length drawn + 1) lines) (length drawn)
                  = nth_error lines (length drawn)).
      { rewrite nth_error_firstn.
        destruct (Nat.ltb_spec (length drawn) (length drawn + 1)); [reflexivity|lia]. }
      rewrite <- E, Hfirst, nth_error_app2, Nat.sub_diag by lia. reflexivity. }
    split; [cbn [length]; lia|]. split; [exact Hdrawn|].
    split; [discriminate|]. split.
    + intros _. destruct rest as [|r1 rest1].
      * exists years1. split; [|exact Hy]. now apply Hnil.
      * apply Hcons. discriminate.
    + intros j idx0 row0 Hj. destruct j as [|j].
      * simpl in Hj. inversion Hj; subst idx0 row0.
        exists label, values, years1. rewrite Nat.add_0_r, Hdrawn. auto.
      * simpl in Hj. destruct (Hrows j idx0 row0 Hj)
          as (label0 & values0 & years0 & H1 & H2 & H3 & H4 & H5).
        exists label0, values0, years0.
        replace (length drawn + S j) with (length drawn + 1 + j) by lia. auto.
Qed.

(** The loop, when it does not: the exception is that of the body on one
    of the rows. *)
Lemma plot_loop_raise (labels : list string) (rows : list (nat * list (string * value))) :
  forall (drawn : list plot_line) (oy : option (list Z)) (e : exn),
  plot_loop w labels (drawn, oy) rows = Raise e ->
  exists j idx row drawn',
    nth_error rows j = Some (idx, row) /\
    plot_row w labels drawn' idx row = Raise e.
Proof.
  induction rows as [|[idx row] rest IH]; intros drawn oy e H; [discriminate|].
  cbn [plot_loop fst] in H.
  destruct (plot_row w labels drawn idx row) as [[drawn1 years1]|e1] eqn:R.
  - apply IH in H as (j & idx0 & row0 & drawn' & Hj & Hr).
    exists (S j), idx0, row0, drawn'. auto.
  - inversion H; subst. exists 0, idx, row, drawn. auto.
Qed.

(** A chart that was drawn had rows to draw. *)
Lemma plot_lines_ret (filtered : DataFrame) (labels : list string)
    (chart : list plot_line * list Z) :
  plot_lines w filtered labels = Ret chart ->
  0 < nrows filtered /\ length (fst chart) = nrows filtered /\
  ints labels = Ret (snd chart).
Proof.
  unfold plot_lines.
  destruct (plot_loop w labels ([], None) _) as [[lines [years|]]|e] eqn:L;
    try discriminate.
  intros [= <-]. apply plot_loop_ret in L as (Hlen & _ & Hnil & Hcons & _).
  rewrite enumerate_rows_length in Hlen. cbn [fst snd length] in *.
  assert (Hrows : combine (seq 0 (nrows filtered)) (iterrows filtered) <> [])
    by (intros E; specialize (Hnil E); discriminate).
  split.
  - destruct (nrows filtered); [|lia]. now contradiction Hrows.
  - split; [lia|]. destruct (Hcons Hrows) as (ys & [= <-] & Hy). exact Hy.
Qed.



(** The two ways a chart fails. *)
Lemma plot_lines_raise (filtered : DataFrame) (labels : list string)
    (ticks : list Z) (e : exn) :
  ints labels = Ret ticks ->
  plot_lines w filtered labels = Raise e ->
  (nrows filtered = 0 /\ e = NameError) \/
  exists k drawn,
    k < nrows filtered /\
    (row_getitem (row_at filtered k) ["Name"] = Raise e \/
     row_getitem (row_at filtered k) labels = Raise e \/
     exists label values,
       row_getitem (row_at filtered k) ["Name"] = Ret label /\
       row_getitem (row_at filtered k) labels = Ret values /\
       ax_plot w drawn ticks (mk_plot_line label values (k mod 10)) = Raise e).
Proof.
  intros Hy P. unfold plot_lines in P.
  destruct (plot_loop w labels ([], None) _) as [[lines0 [years0|]]|e1] eqn:L;
    try discriminate.
  - inversion P; subst e. left. split; [|reflexivity].
    apply plot_loop_ret in L as (_ & _ & _ & Hcons & _).
    destruct (Nat.eq_dec (nrows filtered) 0) as [N|N]; [exact N|]. exfalso.
    destruct Hcons as (ys & Habs & _); [|discriminate].
    intros E. pose proof (enumerate_rows_length filtered) as Hl.
    rewrite E in Hl. simpl in Hl. lia.
  - inversion P; subst e1. right.
    apply plot_loop_raise in L as (j & idx & row & drawn & Hj & Hr).
    apply enumerate_rows_inv in Hj as (Hk & -> & ->).
    exists j, drawn. split; [exact Hk|].
    apply plot_row_raise in Hr as [Hr|[Hr|[Hr|Hr]]]; [now left | right; now left | |].
    + rewrite Hy in Hr. discriminate.
    + destruct Hr as (label & values & years & H1 & H2 & H3 & H4).
      rewrite Hy in H3. inversion H3; subst years.
      right. right. exists label, values. auto.
Qed.

(** [row[labels]] finds the labels that are columns of the frame. *)
Lemma row_getitem_columns (df : DataFrame) (k : nat) (labels : list string) :
  (forall l, In l labels -> In l (columns df)) ->
  row_getitem (row_at df k) labels = Ret (row_values (row_at df k) labels).
Proof.
  intros H. unfold row_getitem.
  assert (E : map fst (row_at df k) = columns df)
    by (unfold row_at, columns; rewrite map_map; reflexivity).
  rewrite E.
  assert (F : filter (fun l => negb (existsb (String.eqb l) (columns df))) labels = []).
  { induction labels as [|l r IH]; [reflexivity|]. cbn [filter].
    assert (Hl : existsb (String.eqb l) (columns df) = true).
    { apply existsb_exists. exists l. split; [apply H; now left|].
      apply String.eqb_refl. }
    rewrite Hl. cbn [negb]. apply IH. intros x Hx. apply H. now right. }
  now rewrite F.
Qed.


End Chart.

Section Panel.
Import Pandas.
Variable w : world.

(** A load that returned a frame had opened its file, and began with the
    attempt under the detected encoding. *)
Lemma load_data_ret_opened (file : string) (df : DataFrame) (t : list event) :
  load_data w file = (Ret df, t) ->
  exists contents rest,
    open_rb w file = Ret contents /\ t = opening w file contents ++ rest.
Proof.
  intros H. apply load_data_ret in H as (df0 & raw & D & _).
  rewrite detect_and_parse_unfold in D.
  destruct (open_rb w file) as [contents|e]; [|discriminate].
  exists contents. cbv zeta in D.
  destruct (pd_read_csv w file ";" (chardet_detect w (read_prefix contents)))
    as [d|e].
  - inversion D; subst. exists []. now rewrite app_nil_r.
  - destruct (is_UnicodeDecodeError e); [|discriminate].
    destruct (pd_read_csv w file ";" (Some "utf-8")).
    { inversion D; subst. eexists. split; reflexivity. }
    destruct (pd_read_csv w file ";" (Some "cp1251")).
    { inversion D; subst. eexists. split; reflexivity. }
    inversion D; subst. eexists. split; reflexivity.
Qed.

(** Lines 204-208 when the three files open. *)
Lemma debug_section_opened (cb ch ci : list Byte.byte) :
  open_rb w "budget.csv" = Ret cb ->
  open_rb w "housing.csv" = Ret ch ->
  open_rb w "investments.csv" = Ret ci ->
  debug_section w
  = (Ret tt,
     [Ui Expander; Ui DebugHeading;
      Open "budget.csv"; Detect (read_prefix cb);
      Ui (DebugLine "budget.csv" (chardet_detect w (read_prefix cb)));
      Open "housing.csv"; Detect (read_prefix ch);
      Ui (DebugLine "housing.csv" (chardet_detect w (read_prefix ch)));
      Open "investments.csv"; Detect (read_prefix ci);
      Ui (DebugLine "investments.csv" (chardet_detect w (read_prefix ci)))]).
Proof.
  intros Hb Hh Hi. unfold debug_section, input_files. cbn [mapM].
  unfold bind, st, emit, lift, ret. rewrite Hb, Hh, Hi. reflexivity.
Qed.

Lemma debug_panel_page
    (dfs : DataFrame * DataFrame * DataFrame) (t : list event) :
  load_all w = (Ret dfs, t) ->
  exists eb eh ei,
    page (snd (debug_section w))
    = [Expander; DebugHeading; DebugLine "budget.csv" eb;
       DebugLine "housing.csv" eh; DebugLine "investments.csv" ei] /\
    fst (debug_section w) = Ret tt.
Proof.
  intros L. apply load_all_ret in L as (tb & th & ti & Hb & Hh & Hi & _).
  destruct (load_data_ret_opened _ _ _ Hb) as (cb & rb & Ob & Eb).
  destruct (load_data_ret_opened _ _ _ Hh) as (ch & rh & Oh & Eh).
  destruct (load_data_ret_opened _ _ _ Hi) as (ci & ri & Oi & Ei).
  rewrite (debug_section_opened _ _ _ Ob Oh Oi).
  eexists _, _, _. split; reflexivity.
Qed.

(** The panel names, for each file, the encoding of the first parse
    attempt of its load. *)
Lemma debug_panel_first_attempts
    (dfs : DataFrame * DataFrame * DataFrame) (t : list event) :
  load_all w = (Ret dfs, t) ->
  exists eb eh ei,
    page (snd (debug_section w))
    = [Expander; DebugHeading; DebugLine "budget.csv" eb;
       DebugLine "housing.csv" eh; DebugLine "investments.csv" ei] /\
    fst (debug_section w) = Ret tt /\
    attempts (snd (debug_section w)) = [] /\
    (exists rest, attempts (snd (load_data w "budget.csv")) = eb :: rest) /\
    (exists rest, attempts (snd (load_data w "housing.csv")) = eh :: rest) /\
    (exists rest, attempts (snd (load_data w "investments.csv")) = ei :: rest).
Proof.
  intros L. apply load_all_ret in L as (tb & th & ti & Hb & Hh & Hi & _).
  destruct (load_data_ret_opened _ _ _ Hb) as (cb & rb & Ob & Eb).
  destruct (load_data_ret_opened _ _ _ Hh) as (ch & rh & Oh & Eh).
  destruct (load_data_ret_opened _ _ _ Hi) as (ci & ri & Oi & Ei).
  rewrite (debug_section_opened _ _ _ Ob Oh Oi).
  exists (chardet_detect w (read_prefix cb)), (chardet_detect w (read_prefix ch)),
         (chardet_detect w (read_prefix ci)).
  split; [reflexivity|]. split; [reflexivity|]. split; [reflexivity|].
  rewrite Hb, Hh, Hi. subst tb th ti. simpl. repeat split; eexists; reflexivity.
Qed.

(** The panel fails at the first file that does not open. *)
Lemma debug_section_raise (file : string) (e : exn) :
  In file input_files ->
  open_rb w file = Raise e ->
  (forall g, In g (before file input_files) -> exists contents, open_rb w g = Ret contents) ->
  fst (debug_section w) = Raise e.
Proof.
  intros Hin O Hbefore. unfold debug_section. cbn [mapM input_files].
  unfold bind, st, emit, lift, ret.
  simpl in Hin. destruct Hin as [<-|[<-|[<-|[]]]]; simpl in Hbefore.
  - rewrite O. reflexivity.
  - destruct (Hbefore "budget.csv") as [cb Ob]; [now left|].
    rewrite Ob, O. reflexivity.
  - destruct (Hbefore "budget.csv") as [cb Ob]; [now left|].
    destruct (Hbefore "housing.csv") as [ch Oh]; [right; now left|].
    rewrite Ob, Oh, O. reflexivity.
Qed.

End Panel.

(* ================================================================== *)
(** * Regions: the options and the selection                           *)
(* ================================================================== *)

Module RegionFacts.
Import Pandas FilterFacts.

Lemma value_eqb_refl (v : value) : value_eqb v v = true.
Proof.
  destruct v; simpl; [apply String.eqb_refl | apply Qeq_bool_refl | reflexivity].
Qed.

Lemma value_eqb_trans (a b c : value) :
  value_eqb a b = true -> value_eqb b c = true -> value_eqb a c = true.
Proof.
  destruct a, b, c; simpl; try discriminate; try reflexivity.
  - intros H1 H2. apply String.eqb_eq in H1, H2. subst. apply String.eqb_refl.
  - apply Qeq_bool_trans.
Qed.

(** Values that are not told apart occur in the same lists. *)
Lemma occurs_same_value (a b : value) (vs : list value) :
  value_eqb a b = true -> occurs a vs = occurs b vs.
Proof.
  intros H. unfold occurs. induction vs as [|x r IH]; simpl; [reflexivity|].
  rewrite IH. f_equal.
  destruct (value_eqb a x) eqn:E1, (value_eqb b x) eqn:E2; try reflexivity.
  - rewrite value_eqb_sym in H.
    now rewrite (value_eqb_trans _ _ _ H E1) in E2.
  - now rewrite (value_eqb_trans _ _ _ H E2) in E1.
Qed.

Lemma occurs_In (v : value) (vs : list value) : In v vs -> occurs v vs = true.
Proof.
  intros H. apply existsb_exists. exists v. split; [assumption | apply value_eqb_refl].
Qed.

Lemma occurs_dedup (vs seen : list value) (v : value) :
  occurs v (dedup seen vs) = occurs v vs && negb (occurs v seen).
Proof.
  unfold occurs. revert seen. induction vs as [|x r IH]; intros seen; simpl.
  - reflexivity.
  - destruct (existsb (value_eqb x) seen) eqn:Ex.
    + rewrite IH. destruct (value_eqb v x) eqn:E; simpl; [|reflexivity].
      pose proof (occurs_same_value _ _ seen E) as Hs. unfold occurs in Hs.
      rewrite Hs, Ex. simpl. apply andb_false_r.
    + simpl. rewrite IH. simpl. destruct (value_eqb v x) eqn:E; simpl.
      * pose proof (occurs_same_value _ _ seen E) as Hs. unfold occurs in Hs.
        now rewrite Hs, Ex.
      * reflexivity.
Qed.

Lemma dedup_distinct (vs seen : list value) :
  ForallOrdPairs (fun a b => value_eqb a b = false) (dedup seen vs).
Proof.
  revert seen. induction vs as [|x r IH]; intros seen; cbn [dedup].
  - constructor.
  - destruct (existsb (value_eqb x) seen); [apply IH|].
    constructor; [|apply IH].
    apply Forall_forall. intros y Hy. apply occurs_In in Hy.
    rewrite occurs_dedup in Hy. apply andb_true_iff in Hy as [_ Hy].
    unfold occurs in Hy. cbn [existsb] in Hy.
    rewrite value_eqb_sym. now destruct (value_eqb y x).
Qed.

Lemma dedup_length (vs seen : list value) : length (dedup seen vs) <= length vs.
Proof.
  revert seen. induction vs as [|x r IH]; intros seen; cbn [dedup]; [lia|].
  destruct (existsb (value_eqb x) seen); simpl.
  - specialize (IH seen). lia.
  - specialize (IH (x :: seen)). lia.
Qed.

Lemma length_mask_list {A : Type} (m : list bool) (xs : list A) :
  length m = length xs ->
  length (mask_list m xs) = length (filter (fun b => b) m).
Proof.
  revert xs. induction m as [|b m IH]; intros [|x xs]; simpl; try discriminate;
    [reflexivity|].
  intros H. destruct b; simpl; rewrite IH by lia; reflexivity.
Qed.

Lemma length_mask_list_le {A : Type} (m : list bool) (xs : list A) :
  length (mask_list m xs) <= length xs.
Proof.
  revert xs. induction m as [|b m IH]; intros [|x xs]; simpl; try lia.
  specialize (IH xs). destruct b; simpl; lia.
Qed.

End RegionFacts.

Section Regions.
Import Pandas FrameFacts FilterFacts RegionFacts.

(** X9.  Line 127.  The options of the region selector hold every
    identifier of the column and nothing else, each one once, the first
    option being the identifier of the first row; there are no options
    exactly when the column is empty (and then line 133 raises
    [IndexError]). *)
Theorem regions_are_listed_once (name : series) :
  (forall v, occurs v (unique name) = occurs v (series_values name)) /\
  ForallOrdPairs (fun a b => value_eqb a b = false) (unique name) /\
  hd_error (unique name) = hd_error (series_values name) /\
  (unique name = [] <-> series_len name = 0) /\
  length (unique name) <= series_len name.
Proof.
  unfold unique. split; [|split; [|split; [|split]]].
  - intros v. rewrite occurs_dedup. simpl. apply andb_true_r.
  - apply dedup_distinct.
  - destruct (series_values name); reflexivity.
  - rewrite series_len_values. destruct (series_values name); simpl.
    + tauto.
    + split; [discriminate | lia].
  - rewrite series_len_values. apply dedup_length.
Qed.

(** X10.  Line 143.  Only membership in the selection counts: two
    selections with the same members, in whatever order and however
    often repeated, give the same table or the same error. *)
Theorem selection_is_a_set
    (df : DataFrame) (name : series) (year_columns : list string)
    (sel1 sel2 : list value) :
  (forall v, In v sel1 <-> In v sel2) ->
  filtered_df df name sel1 year_columns = filtered_df df name sel2 year_columns.
Proof.
  intros H. unfold filtered_df, isin. f_equal. f_equal.
  apply map_ext. intros v.
  destruct (existsb (value_eqb v) sel1) eqn:E1.
  - apply existsb_exists in E1 as (x & Hx & E). symmetry.
    apply existsb_exists. exists x. split; [now apply H | assumption].
  - destruct (existsb (value_eqb v) sel2) eqn:E2; [|reflexivity].
    apply existsb_exists in E2 as (x & Hx & E).
    assert (existsb (value_eqb v) sel1 = true)
      by (apply existsb_exists; exists x; split; [now apply H | assumption]).
    congruence.
Qed.

Lemma select_one_column (df : DataFrame) (l : string) :
  NoDup (columns df) -> In l (columns df) ->
  exists s, filter (fun c => String.eqb (fst c) l) df = [(l, s)].
Proof.
  induction df as [|[l0 x] r IH]; simpl; intros Hnd Hin; [destruct Hin|].
  inversion Hnd as [|? ? Hnot Hnd']; subst.
  destruct (String.eqb l0 l) eqn:E.
  - apply String.eqb_eq in E. subst. exists x. f_equal.
    apply filter_nil. intros [l1 x1] H1. simpl.
    destruct (String.eqb l1 l) eqn:E1; [|reflexivity].
    apply String.eqb_eq in E1. subst. exfalso. apply Hnot.
    unfold columns. apply in_map_iff. now exists (l, x1).
  - destruct Hin as [->|Hin]; [now rewrite String.eqb_refl in E|].
    now apply IH.
Qed.

Lemma columns_select_columns (labels : list string) (df : DataFrame) :
  NoDup (columns df) -> (forall l, In l labels -> In l (columns df)) ->
  columns (select_columns labels df) = labels.
Proof.
  intros Hnd. induction labels as [|l r IH]; intros H; [reflexivity|].
  unfold select_columns, columns in *. cbn [flat_map]. rewrite map_app.
  destruct (select_one_column df l Hnd) as [s Hs]; [apply H; now left|].
  rewrite Hs. cbn [map fst app]. f_equal. apply IH. intros l' Hl'. apply H. now right.
Qed.

(** X11.  Line 143.  On a rectangular frame with distinct column names
    that has a column for every label asked for, the table has the
    columns [Name] and then the labels in their order; each of them is
    the frame's column cut down, in row order, to the rows whose
    identifier is selected; so the table is rectangular again and has as
    many rows as the frame has rows with a selected identifier, never
    more than the frame. *)
Theorem filtered_table_shape
    (df : DataFrame) (name : series) (selected : list value)
    (year_columns : list string) :
  getitem df "Name" = Ret (Series name) ->
  rectangular df ->
  NoDup (columns df) ->
  (forall l, In l year_columns -> In l (columns df)) ->
  exists table,
    filtered_df df name selected year_columns = Ret table /\
    columns table = "Name" :: year_columns /\
    (forall l s, In (l, s) table ->
       exists s0, In (l, s0) df /\
                  series_values s
                  = mask_list (isin name selected) (series_values s0)) /\
    rectangular table /\
    nrows table
    = length (filter (fun v => occurs v selected) (series_values name)) /\
    nrows table <= nrows df.
Proof.
  intros G Hrect Hnd Hy.
  assert (Hlabels : forall l, In l ("Name" :: year_columns) -> In l (columns df)).
  { intros l [<-|Hl]; [|now apply Hy].
    apply has_column_In. now apply getitem_some_has_column in G. }
  assert (Hname : In ("Name", name) df).
  { unfold getitem in G.
    destruct (filter _ df) as [|[l x] [|c r]] eqn:E; try discriminate.
    inversion G; subst.
    assert (Hin : In (l, name) (filter (fun c => String.eqb (fst c) "Name") df))
      by (rewrite E; now left).
    apply filter_In in Hin as [Hin Hl]. simpl in Hl.
    apply String.eqb_eq in Hl. now subst. }
  unfold rectangular in Hrect. rewrite Forall_forall in Hrect.
  assert (Hmask : length (isin name selected) = nrows df).
  { unfold isin. rewrite length_map, <- series_len_values.
    apply (Hrect _ Hname). }
  assert (Hcols : forall l s,
            In (l, s) (select_columns ("Name" :: year_columns)
                         (rows_kept (fun v => existsb (value_eqb v) selected) df name)) ->
            exists s0, In (l, s0) df /\
                       series_values s
                       = mask_list (isin name selected) (series_values s0)).
  { intros l s Hin. unfold select_columns in Hin.
    apply in_flat_map in Hin as (l' & _ & Hin). apply filter_In in Hin as [Hin _].
    unfold rows_kept, getitem_mask in Hin.
    apply in_map_iff in Hin as ([l0 s0] & E & Hin0). inversion E; subst.
    exists s0. split; [assumption|]. apply series_values_mask. }
  assert (Hlen : forall l s,
            In (l, s) (select_columns ("Name" :: year_columns)
                         (rows_kept (fun v => existsb (value_eqb v) selected) df name)) ->
            series_len s = length (filter (fun b => b) (isin name selected))).
  { intros l s Hin. destruct (Hcols l s Hin) as (s0 & Hin0 & E).
    rewrite series_len_values, E. apply length_mask_list.
    rewrite Hmask, <- series_len_values. symmetry. apply (Hrect _ Hin0). }
  destruct (select_columns_name df name (isin name selected) year_columns G)
    as [rest Hrest].
  assert (Hrows : nrows (select_columns ("Name" :: year_columns)
                     (rows_kept (fun v => existsb (value_eqb v) selected) df name))
                  = length (filter (fun b => b) (isin name selected))).
  { unfold rows_kept. fold (isin name selected). rewrite Hrest. simpl.
    apply (Hlen "Name"). unfold rows_kept. fold (isin name selected).
    rewrite Hrest. now left. }
  eexists. split; [now apply filtered_df_ret|]. split; [|split; [|split; [|split]]].
  - unfold rows_kept. rewrite columns_select_columns; [reflexivity| |].
    + now rewrite columns_getitem_mask.
    + intros l Hl. rewrite columns_getitem_mask. now apply Hlabels.
  - exact Hcols.
  - unfold rectangular. apply Forall_forall. intros [l s] Hin.
    cbn [snd]. rewrite Hrows. now apply (Hlen l).
  - rewrite Hrows. unfold isin, occurs.
    clear. induction (series_values name) as [|v r IH]; simpl; [reflexivity|].
    destruct (existsb (value_eqb v) selected); simpl; now rewrite IH.
  - rewrite Hrows, <- Hmask. apply filter_length_le.
Qed.

End Regions.

(** X10 on the cleaned sample frame: a selection, reordered and with a
    repetition. *)
Lemma selection_is_a_set_witness :
  filtered_df Sample.budget_loaded
    (Pandas.ObjectSeries [Some "Moscow"; Some "Kazan"; Some "Moscow"])
    [Pandas.VStr "Kazan"; Pandas.VStr "Moscow"] ["2019"]
  = filtered_df Sample.budget_loaded
      (Pandas.ObjectSeries [Some "Moscow"; Some "Kazan"; Some "Moscow"])
      [Pandas.VStr "Moscow"; Pandas.VStr "Kazan"; Pandas.VStr "Moscow"] ["2019"].
Proof.
  apply selection_is_a_set. intros v. simpl. tauto.
Defined.

(** X11 on the cleaned sample frame. *)
Lemma filtered_table_shape_witness :
  exists table,
    filtered_df Sample.budget_loaded
      (Pandas.ObjectSeries [Some "Moscow"; Some "Kazan"; Some "Moscow"])
      [Pandas.VStr "Moscow"] ["2018"; "2020"] = Ret table /\
    Pandas.columns table = ["Name"; "2018"; "2020"] /\
    Pandas.nrows table = 2.
Proof.
  destruct (filtered_table_shape Sample.budget_loaded
              (Pandas.ObjectSeries [Some "Moscow"; Some "Kazan"; Some "Moscow"])
              [Pandas.VStr "Moscow"] ["2018"; "2020"])
    as (table & E & Hc & _ & _ & Hn & _).
  - reflexivity.
  - repeat constructor.
  - repeat constructor; simpl; intuition discriminate.
  - intros l [<-|[<-|[]]]; simpl; tauto.
  - exists table. split; [exact E|]. split; [exact Hc|]. exact Hn.
Defined.

(* ================================================================== *)
(** * Whole runs                                                       *)
(* ================================================================== *)

Section Runs.
Import Pandas FrameFacts FilterFacts RegionFacts YearNumbers.
Variable w : world.

#[local] Arguments available_years : simpl never.
#[local] Arguments numeric_cols : simpl never.
#[local] Arguments getitem : simpl never.
#[local] Arguments unique : simpl never.
#[local] Arguments year_columns : simpl never.
#[local] Arguments list_min : simpl never.
#[local] Arguments list_max : simpl never.
#[local] Arguments filtered_df : simpl never.
#[local] Arguments plot_lines : simpl never.
#[local] Arguments slider_refuses : simpl never.
#[local] Arguments debug_section : simpl never.

(** Lines 143-208 in one formula. *)
Lemma render_unfold (i : selection_inputs) :
  render w i =
  match filtered_df (sel_df i) (sel_name i) (sel_regions i) (sel_year_columns i) with
  | Raise e => (Raise e, [])
  | Ret filtered =>
      match plot_lines w filtered (sel_year_columns i) with
      | Raise e => (Raise e, [Ui (Header 4)])
      | Ret chart =>
          (fst (debug_section w),
           [Ui (Header 4); Ui (Pyplot (fst chart) (snd chart)); Ui (Header 5);
            Ui (Dataframe filtered (table_height (nrows filtered)));
            Ui Markdown;
            Ui (Summary (sel_topic i) (sel_year_range i)
                        (length (sel_regions i)) (today w))]
           ++ snd (debug_section w))
      end
  end.
Proof.
  unfold render, table_height.
  destruct (filtered_df _ _ _ _) as [filtered|e]; [|reflexivity].
  unfold bind, lift, st, emit. simpl.
  destruct (plot_lines w filtered (sel_year_columns i)) as [chart|e]; [|reflexivity].
  simpl. destruct (debug_section w) as [r td]. reflexivity.
Qed.

(** The frames that loading hands over have their identifier column. *)
Lemma load_data_ret_name (file : string) (df : DataFrame) (t : list event) :
  load_data w file = (Ret df, t) ->
  exists ids, getitem df "Name" = Ret (Series (ObjectSeries ids)).
Proof.
  intros H. apply load_data_ret in H as (df0 & raw & _ & G & ->).
  eexists. now apply getitem_setitem with (s0 := ObjectSeries raw).
Qed.

Lemma load_all_ret_name
    (dfs : DataFrame * DataFrame * DataFrame) (t : list event) (c : topic) :
  load_all w = (Ret dfs, t) ->
  exists ids, getitem (chosen_df c dfs) "Name" = Ret (Series (ObjectSeries ids)).
Proof.
  intros L. apply load_all_ret in L as (tb & th & ti & Hb & Hh & Hi & _).
  destruct dfs as [[b h] i]. simpl in *.
  destruct c; eapply load_data_ret_name; eassumption.
Qed.

(** What a run that reaches line 143 has done and chosen. *)
Lemma choose_ret (s : session) (i : selection_inputs) (tc : list event) :
  choose w s = (Ret i, tc) ->
  exists dfs tl years ids r,
    load_all w = (Ret dfs, tl) /\
    available_years (numeric_cols (sel_df i)) = Ret years /\
    sel_topic i = chosen_topic s /\
    sel_df i = chosen_df (chosen_topic s) dfs /\
    sel_name i = ObjectSeries ids /\
    getitem (sel_df i) "Name" = Ret (Series (sel_name i)) /\
    hd_error (unique (sel_name i)) = Some r /\
    slider_refuses (list_min 0 years) (list_max 0 years) = false /\
    sel_year_range i = chosen_range s (list_min 0 years) (list_max 0 years) /\
    sel_year_columns i = year_columns (sel_year_range i) /\
    sel_regions i = chosen_regions s (unique (sel_name i)) [r] /\
    sel_regions i <> [] /\
    page tc = [Title; Spinner; Header 1; Radio; Caption (sel_topic i); Header 2;
               Slider (list_min 0 years) (list_max 0 years); Header 3;
               Multiselect (unique (sel_name i)) [r]].
Proof.
  rewrite choose_unfold.
  destruct (load_all w) as [[dfs|e] tl] eqn:L; [|discriminate]. cbv zeta.
  pose proof (load_all_ret_page w _ _ L) as Hp.
  destruct (load_all_ret_name _ _ (chosen_topic s) L) as [ids G].
  destruct (numeric_cols _) eqn:N; [discriminate|].
  destruct (available_years _) as [years|e] eqn:Y; [|discriminate].
  destruct (slider_refuses _ _) eqn:S; [discriminate|].
  rewrite G. destruct (unique (ObjectSeries ids)) as [|r rs] eqn:U; [discriminate|].
  destruct (chosen_regions s _ [r]) eqn:R; [discriminate|].
  intros H. inversion H; subst. clear H.
  exists dfs, tl, years, ids, r. cbn [sel_topic sel_df sel_name sel_year_range
                                      sel_year_columns sel_regions].
  rewrite N, U.
  repeat split; try assumption; try reflexivity; try discriminate;
    try (symmetry; assumption).
  simpl. rewrite !page_app, Hp. reflexivity.
Qed.

(** The rows a selection keeps, counted on the identifier column. *)
Lemma filtered_df_rows (df : DataFrame) (name : series)
    (selected : list value) (labels : list string) (table : DataFrame) :
  getitem df "Name" = Ret (Series name) ->
  filtered_df df name selected labels = Ret table ->
  nrows table = length (filter (fun v => occurs v selected) (series_values name)).
Proof.
  intros G H.
  assert (E : table = select_columns ("Name" :: labels)
                        (getitem_mask df (isin name selected))).
  { unfold filtered_df, getitem_list in H.
    destruct (filter _ ("Name" :: labels)); [|discriminate].
    now inversion H. }
  subst table.
  destruct (select_columns_name df name (isin name selected) labels G)
    as [rest Hrest].
  rewrite Hrest. simpl.
  rewrite series_len_values, series_values_mask. unfold isin.
  now rewrite mask_list_filter.
Qed.

(** The filter raises nothing but [KeyError]. *)
Lemma filtered_df_raise_KeyError (df : DataFrame) (name : series)
    (selected : list value) (labels : list string) (e : exn) :
  filtered_df df name selected labels = Raise e -> exists missing, e = KeyError missing.
Proof.
  unfold filtered_df, getitem_list.
  destruct (filter _ ("Name" :: labels)); [discriminate|].
  intros [= <-]. eexists. reflexivity.
Qed.

(** A table the filter returned has a column for every label asked for. *)
Lemma filtered_df_columns (df : DataFrame) (name : series)
    (selected : list value) (labels : list string) (table : DataFrame) :
  filtered_df df name selected labels = Ret table ->
  forall l, In l ("Name" :: labels) -> In l (columns table).
Proof.
  unfold filtered_df, getitem_list. intros H l Hl.
  destruct (filter _ ("Name" :: labels)) eqn:E; [|discriminate].
  injection H as <-.
  assert (Hc : has_column (getitem_mask df (isin name selected)) l = true).
  { destruct (has_column _ l) eqn:Hc; [reflexivity|]. exfalso.
    assert (Hin : In l (filter (fun l => negb (has_column
                            (getitem_mask df (isin name selected)) l))
                          ("Name" :: labels)))
      by (apply filter_In; split; [assumption | now rewrite Hc]).
    rewrite E in Hin. destruct Hin. }
  apply has_column_In in Hc. unfold columns in *.
  apply in_map_iff in Hc as ([l0 x] & Hfst & Hin). simpl in Hfst. subst l0.
  apply in_map_iff. exists (l, x). split; [reflexivity|].
  change (In (l, x)
            (flat_map (fun l0 => filter (fun c => String.eqb (fst c) l0)
                                   (getitem_mask df (isin name selected)))
                      ("Name" :: labels))).
  apply in_flat_map. exists l. split; [assumption|].
  apply filter_In. split; [assumption|]. apply String.eqb_refl.
Qed.

(** The multiselect returns options only. *)
Lemma chosen_regions_occur (s : session) (options : list value) (r v : value) :
  In r options -> In v (chosen_regions s options [r]) -> occurs v options = true.
Proof.
  intros Hr Hv. unfold chosen_regions in Hv.
  destruct (multiselect_state s) as [sel|].
  - apply filter_In in Hv as [_ Hv]. exact Hv.
  - destruct Hv as [<-|[]]. now apply occurs_In.
Qed.

(** The selection of a run that reaches line 143: members of the
    identifier column, at least one. *)
Lemma choose_ret_selection (s : session) (i : selection_inputs) (tc : list event) :
  choose w s = (Ret i, tc) ->
  sel_regions i <> [] /\
  forall v, In v (sel_regions i) -> occurs v (series_values (sel_name i)) = true.
Proof.
  intros Hc.
  destruct (choose_ret _ _ _ Hc)
    as (dfs & tl & years & ids & r & _ & _ & _ & _ & _ & _ & Hr & _ & _ & _ & Hsel
        & Hne & _).
  split; [exact Hne|]. intros v Hv. rewrite Hsel in Hv.
  apply chosen_regions_occur in Hv.
  - unfold unique in Hv. rewrite occurs_dedup in Hv.
    now apply andb_true_iff in Hv as [Hv _].
  - destruct (unique (sel_name i)); [discriminate|].
    simpl in Hr. inversion Hr. now left.
Qed.

(** A table filtered by members of the identifier column has a row. *)
Lemma filtered_df_has_rows (df : DataFrame) (name : series)
    (selected : list value) (labels : list string) (table : DataFrame) (v : value) :
  getitem df "Name" = Ret (Series name) ->
  filtered_df df name selected labels = Ret table ->
  In v selected -> occurs v (series_values name) = true ->
  0 < nrows table.
Proof.
  intros G F Hv Ho. rewrite (filtered_df_rows _ _ _ _ _ G F).
  apply existsb_exists in Ho as (x & Hx & E).
  assert (Hin : In x (filter (fun v => occurs v selected) (series_values name))).
  { apply filter_In. split; [assumption|].
    apply existsb_exists. exists v. split; [assumption|].
    now rewrite value_eqb_sym. }
  destruct (filter (fun v => occurs v selected) (series_values name));
    [destruct Hin | simpl; lia].
Qed.

(** The chart of a table the filter returned fails only where [ax.plot]
    refuses a row. *)
Lemma plot_lines_of_table (df : DataFrame) (name : series) (selected : list value)
    (y0 y1 : Z) (table : DataFrame) (e : exn) :
  filtered_df df name selected (year_columns (y0, y1)) = Ret table ->
  0 < nrows table ->
  plot_lines w table (year_columns (y0, y1)) = Raise e ->
  exists k drawn label values,
    k < nrows table /\
    ax_plot w drawn (PyStr.range y0 (y1 + 1))
            (mk_plot_line label values (k mod 10)) = Raise e.
Proof.
  intros F Hpos P.
  assert (Hy : ints (year_columns (y0, y1)) = Ret (PyStr.range y0 (y1 + 1)))
    by (unfold year_columns; cbn [fst snd]; apply ints_map_str).
  pose proof (filtered_df_columns _ _ _ _ _ F) as Hcols.
  destruct (plot_lines_raise w _ _ _ _ Hy P) as [[N _]|(k & drawn & Hk & H)]; [lia|].
  rewrite !row_getitem_columns in H.
  - destruct H as [H|[H|(label & values & _ & _ & H)]]; try discriminate.
    exists k, drawn, label, values. auto.
  - intros l Hl. apply Hcols. now right.
  - intros l [<-|[]]. apply Hcols. now left.
Qed.

(** X12.  Lines 127-143.  On a run where the region selector was not
    touched, the selector shows the identifier of the first row of the
    chosen frame as its default and returns it, alone; a filter that
    returns then gives the rows that carry this identifier, and there is
    at least one. *)
Theorem first_run_selects_the_first_region
    (s : session) (i : selection_inputs) (tc : list event) :
  choose w s = (Ret i, tc) ->
  multiselect_state s = None ->
  exists v,
    sel_regions i = [v] /\
    hd_error (series_values (sel_name i)) = Some v /\
    In (Multiselect (unique (sel_name i)) [v]) (page tc) /\
    forall table,
      filtered_df (sel_df i) (sel_name i) (sel_regions i) (sel_year_columns i)
      = Ret table ->
      nrows table
      = length (filter (fun x => value_eqb x v) (series_values (sel_name i))) /\
      0 < nrows table.
Proof.
  intros Hc Hs.
  destruct (choose_ret _ _ _ Hc)
    as (dfs & tl & years & ids & r & _ & _ & _ & _ & _ & G & Hr & _ & _ & _ & Hsel
        & _ & Hp).
  unfold chosen_regions in Hsel. rewrite Hs in Hsel.
  exists r. split; [exact Hsel|].
  assert (Hhd : hd_error (series_values (sel_name i)) = Some r).
  { unfold unique in Hr. destruct (series_values (sel_name i)); [discriminate|].
    simpl in Hr. exact Hr. }
  split; [exact Hhd|]. split.
  { rewrite Hp. simpl. do 8 right. now left. }
  intros table Ht.
  assert (Hrows : nrows table
            = length (filter (fun x => value_eqb x r) (series_values (sel_name i)))).
  { rewrite (filtered_df_rows _ _ _ _ _ G Ht), Hsel. f_equal.
    apply filter_ext. intros x. unfold occurs. simpl. now rewrite orb_false_r. }
  split; [exact Hrows|]. rewrite Hrows.
  destruct (series_values (sel_name i)) as [|x xs]; [discriminate|].
  simpl in Hhd. inversion Hhd; subst. cbn [filter].
  rewrite value_eqb_refl. simpl. lia.
Qed.

(** X13.  Lines 59-208.  A run that completes has put on the page, in
    this order: title, spinner, topic header and selector, caption, period
    header and slider, region header and selector, chart header and
    chart, table header and table, rule, summary, debug panel with its
    heading and one line per file.  Chart and table show the same
    filtered frame: the chart has one line per row of the table and the
    years of the range as ticks; the table is as high as line 188 says;
    the summary counts the selected regions. *)
Theorem completed_run_page (s : session) (t : list event) :
  script w s = (Ret tt, t) ->
  exists i tc years table lines eb eh ei,
    choose w s = (Ret i, tc) /\
    filtered_df (sel_df i) (sel_name i) (sel_regions i) (sel_year_columns i)
    = Ret table /\
    page t
    = [Title; Spinner; Header 1; Radio; Caption (sel_topic i); Header 2;
       Slider (list_min 0 years) (list_max 0 years); Header 3;
       Multiselect (unique (sel_name i)) (firstn 1 (unique (sel_name i)));
       Header 4;
       Pyplot lines (PyStr.range (fst (sel_year_range i))
                                 (snd (sel_year_range i) + 1));
       Header 5; Dataframe table (table_height (nrows table)); Markdown;
       Summary (sel_topic i) (sel_year_range i) (length (sel_regions i)) (today w);
       Expander; DebugHeading; DebugLine "budget.csv" eb;
       DebugLine "housing.csv" eh; DebugLine "investments.csv" ei] /\
    available_years (numeric_cols (sel_df i)) = Ret years /\
    length lines = nrows table /\
    0 < nrows table.
Proof.
  intros H. unfold script in H.
  destruct (choose w s) as [[i|e] tc] eqn:Hc; [|discriminate].
  rewrite bind_ret_l in H. rewrite render_unfold in H.
  destruct (choose_ret _ _ _ Hc)
    as (dfs & tl & years & ids & r & L & Y & _ & _ & _ & G & Hr & _ & Hrange & Hcols
        & Hsel & _ & Hp).
  destruct (filtered_df _ _ _ _) as [table|e] eqn:F; [|discriminate].
  destruct (plot_lines w table (sel_year_columns i)) as [[lines ticks]|e] eqn:P;
    [|discriminate].
  destruct (debug_panel_page w dfs tl L) as (eb & eh & ei & Hd & Hr').
  cbn [fst snd] in H. inversion H as [[Hret Ht]]. clear H.
  apply plot_lines_ret in P as (Hpos & Hlen & Hticks). cbn [fst snd] in *.
  rewrite Hcols in Hticks. destruct (sel_year_range i) as [y0 y1] eqn:Er.
  assert (Hy : ints (year_columns (y0, y1)) = Ret (PyStr.range y0 (y1 + 1)))
    by (unfold year_columns; cbn [fst snd]; apply ints_map_str).
  rewrite Hy in Hticks. inversion Hticks; subst ticks.
  exists i, tc, years, table, lines, eb, eh, ei.
  split; [reflexivity|]. split; [exact F|]. split; [|auto].
  subst t. rewrite !page_app, Hp. cbn [page app fst snd]. rewrite Hd.
  assert (Hone : firstn 1 (unique (sel_name i)) = [r]).
  { destruct (unique (sel_name i)); [discriminate|]. simpl in Hr.
    inversion Hr; subst. reflexivity. }
  rewrite Hone, Er. reflexivity.
Qed.

(** X14.  Lines 130-176.  The selection that reaches the filter is never
    empty and holds identifiers of the chosen frame only, the selector
    returning none but its options.  So a table that the filter returns
    has at least one row: the loop of line 155 runs, [years] is bound, and
    line 176 cannot fail for want of it.  The chart of a run fails only
    where [ax.plot] refuses a row. *)
Theorem selected_regions_are_in_the_frame
    (s : session) (i : selection_inputs) (tc : list event) :
  choose w s = (Ret i, tc) ->
  sel_regions i <> [] /\
  (forall v, In v (sel_regions i) -> occurs v (series_values (sel_name i)) = true) /\
  forall table,
    filtered_df (sel_df i) (sel_name i) (sel_regions i) (sel_year_columns i)
    = Ret table ->
    0 < nrows table /\
    forall e, plot_lines w table (sel_year_columns i) = Raise e ->
      exists k drawn label values,
        k < nrows table /\
        ax_plot w drawn
                (PyStr.range (fst (sel_year_range i)) (snd (sel_year_range i) + 1))
                (mk_plot_line label values (k mod 10)) = Raise e.
Proof.
  intros Hc. destruct (choose_ret_selection _ _ _ Hc) as [Hne Hocc].
  split; [exact Hne|]. split; [exact Hocc|]. intros table F.
  destruct (choose_ret _ _ _ Hc)
    as (dfs & tl & years & ids & r & _ & _ & _ & _ & _ & G & _ & _ & _ & Hcols & _).
  assert (Hpos : 0 < nrows table).
  { destruct (sel_regions i) as [|v vs] eqn:E; [contradiction|].
    apply (filtered_df_has_rows _ _ _ _ _ v G F); [now left|].
    apply Hocc. now left. }
  split; [exact Hpos|]. intros e P.
  rewrite Hcols in F, P. destruct (sel_year_range i) as [y0 y1].
  now apply (plot_lines_of_table _ _ _ _ _ _ _ F Hpos P).
Qed.

(** X15.  Lines 186-191.  Whenever a run shows the table, its height is
    35 for the header plus 35 per row, capped at 400: it grows with the
    table up to ten rows and stays at 400 from eleven rows on, so it is
    never below 35 nor above 400. *)
Theorem table_height_is_bounded (s : session) (df : DataFrame) (h : Z) :
  In (Ui (Dataframe df h)) (snd (script w s)) ->
  h = table_height (nrows df) /\
  (35 <= h <= 400)%Z /\
  (nrows df <= 10 -> h = (35 * (Z.of_nat (nrows df) + 1))%Z) /\
  (11 <= nrows df -> h = 400%Z).
Proof.
  intros Hin.
  assert (He : emits (fun ev => match ev with
                                | Ui (Dataframe d x) => x = table_height (nrows d)
                                | _ => True
                                end) (script w s)).
  { unfold script, choose, choose_from, after_loading, render,
      st_radio, st_slider, st_multiselect.
    walk; reflexivity. }
  unfold emits in He. rewrite Forall_forall in He.
  specialize (He _ Hin). cbv beta iota in He. subst h.
  unfold table_height. repeat split; lia.
Qed.

End Runs.

(** X12 on a first run over the sample disk. *)
Lemma first_run_selects_the_first_region_witness :
  exists i tc,
    choose Sample.w Sample.untouched = (Ret i, tc) /\
    multiselect_state Sample.untouched = None /\
    exists v,
      sel_regions i = [v] /\
      hd_error (Pandas.series_values (sel_name i)) = Some v /\
      In (Multiselect (Pandas.unique (sel_name i)) [v]) (page tc) /\
      forall table,
        filtered_df (sel_df i) (sel_name i) (sel_regions i) (sel_year_columns i)
        = Ret table ->
        Pandas.nrows table
        = length (filter (fun x => Pandas.value_eqb x v)
                         (Pandas.series_values (sel_name i))) /\
        0 < Pandas.nrows table.
Proof.
  eexists _, _. split; [vm_compute; reflexivity|]. split; [reflexivity|].
  eapply (first_run_selects_the_first_region Sample.w Sample.untouched).
  - vm_compute. reflexivity.
  - reflexivity.
Defined.

(** X14 on the sample disk, in a session that holds a choice left over
    from other data beside a region of the file. *)
Lemma selected_regions_are_in_the_frame_witness :
  exists i tc,
    choose Sample.w
      (mk_session None None (Some [Pandas.VStr "Nowhere"; Pandas.VStr "Kazan"]))
    = (Ret i, tc) /\
    sel_regions i = [Pandas.VStr "Kazan"] /\
    forall table,
      filtered_df (sel_df i) (sel_name i) (sel_regions i) (sel_year_columns i)
      = Ret table ->
      0 < Pandas.nrows table.
Proof.
  eexists _, _. split; [vm_compute; reflexivity|]. split; [reflexivity|].
  intros table F.
  refine (proj1 (proj2 (proj2 (selected_regions_are_in_the_frame Sample.w
            (mk_session None None (Some [Pandas.VStr "Nowhere"; Pandas.VStr "Kazan"]))
            _ _ _)) table F)).
  vm_compute. reflexivity.
Defined.

(** X13 on a first run over the sample disk. *)
Lemma completed_run_page_witness :
  exists t,
    script Sample.w Sample.untouched = (Ret tt, t) /\
    exists i tc years table lines eb eh ei,
      choose Sample.w Sample.untouched = (Ret i, tc) /\
      filtered_df (sel_df i) (sel_name i) (sel_regions i) (sel_year_columns i)
      = Ret table /\
      page t
      = [Title; Spinner; Header 1; Radio; Caption (sel_topic i); Header 2;
         Slider (list_min 0 years) (list_max 0 years); Header 3;
         Multiselect (Pandas.unique (sel_name i))
                     (firstn 1 (Pandas.unique (sel_name i)));
         Header 4;
         Pyplot lines (PyStr.range (fst (sel_year_range i))
                                   (snd (sel_year_range i) + 1));
         Header 5; Dataframe table (table_height (Pandas.nrows table)); Markdown;
         Summary (sel_topic i) (sel_year_range i) (length (sel_regions i))
                 (today Sample.w);
         Expander; DebugHeading; DebugLine "budget.csv" eb;
         DebugLine "housing.csv" eh; DebugLine "investments.csv" ei] /\
      available_years (numeric_cols (sel_df i)) = Ret years /\
      length lines = Pandas.nrows table /\
      0 < Pandas.nrows table.
Proof.
  eexists. split; [vm_compute; reflexivity|].
  apply (completed_run_page Sample.w Sample.untouched).
  vm_compute. reflexivity.
Defined.

(** X15 on a first run over the sample disk: two rows, height 105. *)
Lemma table_height_is_bounded_witness :
  In (Ui (Dataframe
            [("Name", Pandas.ObjectSeries [Some "Moscow"; Some "Moscow"]);
             ("2018", Pandas.NumericSeries [Sample.q 10; None]);
             ("2019", Pandas.NumericSeries [Sample.q 11; Sample.q 31]);
             ("2020", Pandas.NumericSeries [Sample.q 12; Sample.q 32])]
            105))
     (snd (script Sample.w Sample.untouched)) /\
  (35 <= 105 <= 400)%Z.
Proof.
  assert (Hin : In (Ui (Dataframe
            [("Name", Pandas.ObjectSeries [Some "Moscow"; Some "Moscow"]);
             ("2018", Pandas.NumericSeries [Sample.q 10; None]);
             ("2019", Pandas.NumericSeries [Sample.q 11; Sample.q 31]);
             ("2020", Pandas.NumericSeries [Sample.q 12; Sample.q 32])]
            105))
     (snd (script Sample.w Sample.untouched))).
  { vm_compute. repeat (first [left; reflexivity | right]). }
  split; [exact Hin|].
  exact (proj1 (proj2 (table_height_is_bounded Sample.w Sample.untouched _ _ Hin))).
Defined.
(* ================================================================== *)
(** * Where a run stops                                                *)
(* ================================================================== *)

Section Stops.
Import Pandas FrameFacts FilterFacts RegionFacts YearNumbers.
Variable w : world.
Hypothesis Hw : never_stops w.

#[local] Arguments available_years : simpl never.
#[local] Arguments numeric_cols : simpl never.
#[local] Arguments getitem : simpl never.
#[local] Arguments unique : simpl never.
#[local] Arguments year_columns : simpl never.
#[local] Arguments list_min : simpl never.
#[local] Arguments list_max : simpl never.
#[local] Arguments filtered_df : simpl never.
#[local] Arguments plot_lines : simpl never.
#[local] Arguments debug_section : simpl never.
#[local] Arguments slider_refuses : simpl never.

Lemma detect_and_parse_no_stop (file : string) (t : list event) :
  detect_and_parse w file <> (Raise StopException, t).
Proof.
  destruct Hw as (Hopen & Hread & _).
  rewrite detect_and_parse_unfold. intros H.
  destruct (open_rb w file) as [contents|e] eqn:O.
  - cbv zeta in H.
    destruct (pd_read_csv w file ";" (chardet_detect w (read_prefix contents)))
      as [df|e] eqn:R1; [discriminate|].
    destruct (is_UnicodeDecodeError e) eqn:U.
    + destruct (pd_read_csv w file ";" (Some "utf-8")); [discriminate|].
      destruct (pd_read_csv w file ";" (Some "cp1251")); [discriminate|].
      destruct (pd_read_csv w file ";" (Some "latin1")) as [df|e3] eqn:R4;
        [discriminate|].
      inversion H; subst e3. now apply Hread in R4.
    + inversion H; subst e. now apply Hread in R1.
  - inversion H; subst e. now apply Hopen in O.
Qed.

(** A load stops only for want of the identifier column, and says so. *)
Lemma load_data_stop (file : string) (t : list event) :
  load_data w file = (Raise StopException, t) ->
  exists pre, t = pre ++ [Ui (ErrorMissingName file)].
Proof.
  rewrite load_data_unfold.
  destruct (detect_and_parse w file) as [[df0|e] t0] eqn:D.
  - rewrite clean_unfold. cbv zeta.
    destruct (has_column (rename PyStr.strip df0) "Name").
    + destruct (getitem (rename PyStr.strip df0) "Name") as [x|e] eqn:G.
      * destruct x as [[?|?]|?]; simpl; discriminate.
      * unfold getitem in G.
        destruct (filter _ _) as [|[? ?] [|? ?]]; inversion G; discriminate.
    + intros [= <-]. now exists t0.
  - intros [= -> <-]. now apply detect_and_parse_no_stop in D.
Qed.

(** The end of one load inside the [try] of lines 63-70. *)
Lemma load_failure_message (file : string) (e : exn) (t : list event) :
  load_data w file = (Raise e, t) ->
  exists pre m,
    (if is_Exception e then t ++ [Ui (ErrorLoading e)] else t) = pre ++ [Ui m] /\
    ((m = ErrorMissingName file /\ fst (load_data w file) = Raise StopException) \/
     (m = ErrorLoading e /\ e <> StopException /\ fst (load_data w file) = Raise e)).
Proof.
  intros H. destruct (is_Exception e) eqn:IE.
  - exists t, (ErrorLoading e). split; [reflexivity|]. right.
    split; [reflexivity|]. split; [intros ->; discriminate | now rewrite H].
  - assert (e = StopException) by (destruct e; try discriminate; reflexivity).
    subst e. destruct (load_data_stop _ _ H) as [pre ->].
    exists pre, (ErrorMissingName file). split; [reflexivity|]. left.
    split; [reflexivity | now rewrite H].
Qed.

Lemma load_all_stopped (e : exn) (tl : list event) :
  load_all w = (Raise e, tl) ->
  exists pre m,
    tl = pre ++ [Ui m] /\
    ((exists f, In f input_files /\ m = ErrorMissingName f /\
                fst (load_data w f) = Raise StopException) \/
     (exists e' f, In f input_files /\ m = ErrorLoading e' /\ e' <> StopException /\
                   fst (load_data w f) = Raise e')).
Proof.
  unfold load_all, load_all_with, input_files.
  destruct (load_data w "budget.csv") as [[b|e1] tb] eqn:Hb.
  2:{ destruct (load_failure_message _ _ _ Hb) as (pre & m & E & Hm).
      simpl. destruct (is_Exception e1); simpl; intros [= _ <-];
        exists (Ui Spinner :: pre), m; (split; [simpl; now rewrite <- E|]);
        (destruct Hm as [[-> Hm]|(-> & Hne & Hm)];
         [left; exists "budget.csv" | right; exists e1, "budget.csv"];
         simpl; auto). }
  destruct (load_data w "housing.csv") as [[h|e1] th] eqn:Hh.
  2:{ destruct (load_failure_message _ _ _ Hh) as (pre & m & E & Hm).
      simpl. destruct (is_Exception e1); simpl; intros [= _ <-];
        exists (Ui Spinner :: tb ++ pre), m;
        (split; [simpl; rewrite <- ?app_assoc; simpl in E; now rewrite <- E|]);
        (destruct Hm as [[-> Hm]|(-> & Hne & Hm)];
         [left; exists "housing.csv" | right; exists e1, "housing.csv"];
         simpl; auto). }
  destruct (load_data w "investments.csv") as [[i|e1] ti] eqn:Hi.
  2:{ destruct (load_failure_message _ _ _ Hi) as (pre & m & E & Hm).
      simpl. destruct (is_Exception e1); simpl; intros [= _ <-];
        exists (Ui Spinner :: tb ++ th ++ pre), m;
        (split; [simpl; rewrite <- ?app_assoc; simpl in E; now rewrite <- E|]);
        (destruct Hm as [[-> Hm]|(-> & Hne & Hm)];
         [left; exists "investments.csv" | right; exists e1, "investments.csv"];
         simpl; auto 6). }
  simpl. discriminate.
Qed.

Lemma debug_section_no_stop : fst (debug_section w) <> Raise StopException.
Proof.
  destruct Hw as (Hopen & _ & _).
  unfold debug_section, input_files. cbn [mapM].
  unfold bind, st, emit, lift, ret.
  destruct (open_rb w "budget.csv") as [cb|e] eqn:Ob; simpl;
    [|intros [= ->]; now apply Hopen in Ob].
  destruct (open_rb w "housing.csv") as [ch|e] eqn:Oh; simpl;
    [|intros [= ->]; now apply Hopen in Oh].
  destruct (open_rb w "investments.csv") as [ci|e] eqn:Oi; simpl;
    [|intros [= ->]; now apply Hopen in Oi].
  discriminate.
Qed.

(** Lines 143-208 never stop a run. *)
Lemma render_no_stop (s : session) (i : selection_inputs) (tc : list event) :
  choose w s = (Ret i, tc) -> fst (render w i) <> Raise StopException.
Proof.
  intros Hc. rewrite render_unfold.
  destruct (filtered_df _ _ _ _) as [table|e] eqn:F.
  - destruct (plot_lines w table (sel_year_columns i)) as [chart|e] eqn:P.
    + apply debug_section_no_stop.
    + simpl. intros [= ->].
      destruct (choose_ret_selection w _ _ _ Hc) as [Hne Hocc].
      destruct (choose_ret w _ _ _ Hc)
        as (dfs & tl & years & ids & r & _ & _ & _ & _ & _ & G & _ & _ & _ & Hcols & _).
      assert (Hpos : 0 < nrows table).
      { destruct (sel_regions i) as [|v vs] eqn:E; [contradiction|].
        apply (filtered_df_has_rows _ _ _ _ _ v G F); [now left|].
        apply Hocc. now left. }
      rewrite Hcols in F, P. destruct (sel_year_range i) as [y0 y1].
      destruct (plot_lines_of_table w _ _ _ _ _ _ _ F Hpos P)
        as (k & drawn & label & values & _ & A).
      destruct Hw as (_ & _ & Hplot). now apply Hplot in A.
  - simpl. intros [= ->].
    apply filtered_df_raise_KeyError in F as [missing F]. discriminate.
Qed.

(** X16.  Lines 49, 70, 105 and 140.  The libraries raising exceptions
    of their own only, a run that is stopped was stopped by the script,
    and the last thing on its page is the message that says why: the
    error naming a file without identifier column, the error carrying
    the exception of a failed load, the error about year columns when
    the chosen dataset has none, or the warning when the session's
    selection holds no region of the chosen dataset. *)
Theorem every_stop_is_explained (s : session) (t : list event) :
  script w s = (Raise StopException, t) ->
  exists pre m,
    t = pre ++ [Ui m] /\
    ((exists f, In f input_files /\ m = ErrorMissingName f /\
                fst (load_data w f) = Raise StopException) \/
     (exists e f, In f input_files /\ m = ErrorLoading e /\ e <> StopException /\
                  fst (load_data w f) = Raise e) \/
     (m = ErrorNoYearColumns /\
      exists dfs tl, load_all w = (Ret dfs, tl) /\
                     numeric_cols (chosen_df (chosen_topic s) dfs) = []) \/
     (m = WarningNoRegion /\
      exists sel dfs tl ids,
        multiselect_state s = Some sel /\
        load_all w = (Ret dfs, tl) /\
        getitem (chosen_df (chosen_topic s) dfs) "Name" = Ret (Series ids) /\
        forall v, In v sel -> occurs v (series_values ids) = false)).
Proof.
  intros H.
  destruct (choose w s) as [[i|e] tc] eqn:Hc.
  { rewrite (script_of_choose_ret w _ _ _ Hc) in H. inversion H as [[Hr Ht]].
    now apply (render_no_stop _ _ _ Hc) in Hr. }
  rewrite (script_of_choose_raise w _ _ _ Hc) in H. inversion H; subst e tc. clear H.
  rewrite choose_unfold in Hc.
  destruct (load_all w) as [[dfs|e] tl] eqn:L.
  2:{ inversion Hc; subst e t.
      destruct (load_all_stopped _ _ L) as (pre & m & -> & Hm).
      exists (Ui Title :: pre), m. split; [reflexivity|].
      destruct Hm as [Hm|Hm]; [now left | right; now left]. }
  cbv zeta in Hc.
  destruct (numeric_cols _) as [|c cs] eqn:N.
  { injection Hc as <-. eexists (Ui Title :: _), _. split; [reflexivity|].
    right. right. left. split; [reflexivity|]. now exists dfs, tl. }
  destruct (available_years (c :: cs)) as [years|e] eqn:Y.
  2:{ inversion Hc; subst e. unfold available_years in Y.
      apply ints_raise in Y. discriminate. }
  destruct (slider_refuses _ _); [discriminate|].
  destruct (getitem _ "Name") as [[name|cols]|e] eqn:G; try discriminate.
  2:{ inversion Hc; subst e. unfold getitem in G.
      destruct (filter _ _) as [|[? ?] [|? ?]]; inversion G. }
  destruct (unique name) as [|r rs] eqn:U; [discriminate|].
  destruct (chosen_regions s (r :: rs) [r]) eqn:R; [|discriminate].
  injection Hc as <-. eexists (Ui Title :: _), _. split; [reflexivity|].
  right. right. right. split; [reflexivity|].
  unfold chosen_regions in R.
  destruct (multiselect_state s) as [sel|]; [|discriminate].
  exists sel, dfs, tl, name. split; [reflexivity|]. split; [reflexivity|].
  split; [exact G|]. intros v Hv.
  destruct (occurs v (series_values name)) eqn:O; [exfalso | reflexivity].
  assert (Hin : In v (filter (fun v => existsb (value_eqb v) (r :: rs)) sel)).
  { apply filter_In. split; [assumption|].
    change (occurs v (r :: rs) = true). rewrite <- U. unfold unique.
    rewrite occurs_dedup, O. reflexivity. }
  rewrite R in Hin. destruct Hin.
Qed.

End Stops.

Section SliderBounds.
Import Pandas YearFacts YearNumbers.
Variable w : world.

#[local] Arguments available_years : simpl never.
#[local] Arguments numeric_cols : simpl never.
#[local] Arguments getitem : simpl never.
#[local] Arguments unique : simpl never.
#[local] Arguments year_columns : simpl never.
#[local] Arguments list_min : simpl never.
#[local] Arguments list_max : simpl never.
#[local] Arguments slider_refuses : simpl never.

(** The least year of a frame is not negative. *)
Lemma min_year_nonneg (df : DataFrame) (years : list Z) :
  available_years (numeric_cols df) = Ret years -> (0 <= list_min 0 years)%Z.
Proof.
  intros Y. unfold available_years in Y. apply ints_ret in Y.
  destruct years as [|y0 r]; [unfold list_min; lia|].
  unfold list_min. destruct (fold_left_min r y0) as [Hin _]. cbv zeta in Hin.
  destruct (Forall2_In_r _ _ _ _ Y Hin) as (c & Hc & E).
  apply numeric_cols_iff in Hc as [_ Hd].
  rewrite (int_of_digits _ Hd) in E.
  apply digits_value_nonneg in E; [assumption | lia].
Qed.

(** X18.  Lines 108-118.  A dataset whose year columns all name the same
    year, a single year column above all, cannot be shown: the slider
    refuses bounds that are equal, and the run ends in its exception
    right after the header of the period section, before the slider, the
    region selector, the chart and the table.  The same happens when the
    greatest year is beyond the safe integers.  In every other case the
    slider is shown with the least and the greatest year as bounds. *)
Theorem single_year_dataset_is_refused
    (s : session) (dfs : DataFrame * DataFrame * DataFrame)
    (tl : list event) (years : list Z) :
  load_all w = (Ret dfs, tl) ->
  let df := chosen_df (chosen_topic s) dfs in
  numeric_cols df <> [] ->
  available_years (numeric_cols df) = Ret years ->
  let min_year := list_min 0 years in
  let max_year := list_max 0 years in
  ((min_year = max_year \/ (max_year > max_safe_integer)%Z) ->
   script w s = (Raise StreamlitAPIException,
                 Ui Title :: tl ++ [Ui (Header 1); Ui Radio;
                                    Ui (Caption (chosen_topic s)); Ui (Header 2)]) /\
   page (snd (script w s))
   = [Title; Spinner; Header 1; Radio; Caption (chosen_topic s); Header 2]) /\
  ((min_year < max_year <= max_safe_integer)%Z ->
   In (Slider min_year max_year) (page (snd (script w s)))).
Proof.
  intros L df N Y min_year max_year.
  pose proof (load_all_ret_page w _ _ L) as Hp.
  pose proof (min_year_nonneg df years Y) as Hmin. fold min_year in Hmin.
  pose proof (choose_unfold w s) as U. rewrite L in U. cbv zeta in U.
  fold df in U. destruct (numeric_cols df) as [|c cs] eqn:Nc; [congruence|].
  rewrite Y in U. fold min_year max_year in U.
  split.
  - intros Href.
    assert (R : slider_refuses min_year max_year = true).
    { unfold slider_refuses. destruct Href as [->|H].
      - now rewrite Z.eqb_refl.
      - apply Z.gtb_gt in H. rewrite H. now rewrite orb_true_r. }
    rewrite R in U. rewrite (script_of_choose_raise w _ _ _ U).
    split; [reflexivity|]. cbn [snd page]. rewrite page_app, Hp. reflexivity.
  - intros Hok.
    assert (R : slider_refuses min_year max_year = false).
    { unfold slider_refuses.
      replace (min_year =? max_year)%Z with false by (symmetry; apply Z.eqb_neq; lia).
      replace (max_year >? max_safe_integer)%Z with false
        by (symmetry; rewrite Z.gtb_ltb; apply Z.ltb_ge; lia).
      replace (min_year <? - max_safe_integer)%Z with false
        by (symmetry; apply Z.ltb_ge; unfold max_safe_integer; lia).
      reflexivity. }
    rewrite R in U.
    assert (Hin : forall rest,
              In (Slider min_year max_year)
                 (page (((Ui Title :: tl ++ [Ui (Header 1); Ui Radio;
                                             Ui (Caption (chosen_topic s));
                                             Ui (Header 2)])
                         ++ [Ui (Slider min_year max_year); Ui (Header 3)]) ++ rest))).
    { intros rest. rewrite !page_app. apply in_or_app. left.
      apply in_or_app. right. now left. }
    destruct (getitem df "Name") as [[name|cols]|e] eqn:G.
    + destruct (unique name) as [|r rs] eqn:Un.
      * rewrite (script_of_choose_raise w _ _ _ U).
        cbn [snd]. rewrite <- (app_nil_r (_ ++ [Ui (Slider _ _); _])). apply Hin.
      * destruct (chosen_regions s (r :: rs) [r]) eqn:Rg.
        -- rewrite (script_of_choose_raise w _ _ _ U).
           cbn [snd]. rewrite <- app_assoc. apply Hin.
        -- rewrite (script_of_choose_ret w _ _ _ U). cbn [snd].
           rewrite <- !app_assoc. rewrite !app_assoc. rewrite <- app_assoc.
           apply Hin.
    + rewrite (script_of_choose_raise w _ _ _ U).
      cbn [snd]. rewrite <- (app_nil_r (_ ++ [Ui (Slider _ _); _])). apply Hin.
    + rewrite (script_of_choose_raise w _ _ _ U).
      cbn [snd]. rewrite <- (app_nil_r (_ ++ [Ui (Slider _ _); _])). apply Hin.
Qed.

End SliderBounds.


(** X18 on the sample disk, topic investments: the file has the single
    year column 2019. *)
Lemma single_year_dataset_is_refused_witness :
  load_all Sample.w
  = (Ret (Sample.budget_loaded, Sample.housing, Sample.investments),
     snd (load_all Sample.w)) /\
  numeric_cols Sample.investments = ["2019"] /\
  script Sample.w (mk_session (Some Investments) None None)
  = (Raise StreamlitAPIException,
     Ui Title :: snd (load_all Sample.w)
     ++ [Ui (Header 1); Ui Radio; Ui (Caption Investments); Ui (Header 2)]).
Proof.
  split; [vm_compute; reflexivity|]. split; [reflexivity|].
  refine (proj1 (proj1 (single_year_dataset_is_refused Sample.w
                          (mk_session (Some Investments) None None)
                          _ _ [2019%Z] _ _ _) _)).
  - vm_compute. reflexivity.
  - discriminate.
  - reflexivity.
  - left. reflexivity.
Defined.

(** The sample disk raises no stop of its own. *)
Lemma sample_never_stops : never_stops Sample.w.
Proof.
  repeat split.
  - intros f. unfold Sample.w, Sample.world_with, open_rb, Sample.bytes_of.
    destruct (String.eqb f "legacy.csv"); [discriminate|].
    destruct (String.eqb f "odd.csv"); [discriminate|].
    destruct (Sample.disk [] f None) as [|[]]; discriminate.
  - intros f sep enc. unfold Sample.w, Sample.world_with, pd_read_csv, Sample.disk.
    repeat match goal with
           | |- context [if ?b then _ else _] => destruct b
           | |- context [match ?x with _ => _ end] => destruct x
           end; discriminate.
  - intros drawn years line. unfold Sample.w, Sample.world_with, ax_plot, Sample.plotter.
    destruct (_ && _); [discriminate|].
    destruct (Nat.eqb _ _); discriminate.
Qed.

(** X16 on the sample disk: the housing topic, whose file has no year
    column, and a session whose selection holds no region of the budget
    file. *)
Lemma every_stop_is_explained_witness :
  never_stops Sample.w /\
  (script Sample.w (mk_session (Some Housing) None None)
   = (Raise StopException,
      snd (script Sample.w (mk_session (Some Housing) None None))) /\
   exists pre,
     snd (script Sample.w (mk_session (Some Housing) None None))
     = pre ++ [Ui ErrorNoYearColumns]) /\
  (script Sample.w (mk_session None None (Some [Pandas.VStr "Nowhere"]))
   = (Raise StopException,
      snd (script Sample.w (mk_session None None (Some [Pandas.VStr "Nowhere"])))) /\
   exists pre,
     snd (script Sample.w (mk_session None None (Some [Pandas.VStr "Nowhere"])))
     = pre ++ [Ui WarningNoRegion]).
Proof.
  split; [exact sample_never_stops|]. split.
  - split; [vm_compute; reflexivity|].
    destruct (every_stop_is_explained Sample.w sample_never_stops
                (mk_session (Some Housing) None None)
                (snd (script Sample.w (mk_session (Some Housing) None None))))
      as (pre & m & E & _); [vm_compute; reflexivity|].
    exists pre.
    assert (C : snd (script Sample.w (mk_session (Some Housing) None None))
                = removelast (snd (script Sample.w (mk_session (Some Housing) None None)))
                  ++ [Ui ErrorNoYearColumns])
      by (vm_compute; reflexivity).
    rewrite E in C at 1. apply app_inj_tail in C as [_ C].
    rewrite E. now rewrite C.
  - split; [vm_compute; reflexivity|].
    destruct (every_stop_is_explained Sample.w sample_never_stops
                (mk_session None None (Some [Pandas.VStr "Nowhere"]))
                (snd (script Sample.w
                        (mk_session None None (Some [Pandas.VStr "Nowhere"])))))
      as (pre & m & E & _); [vm_compute; reflexivity|].
    exists pre.
    assert (C : snd (script Sample.w
                       (mk_session None None (Some [Pandas.VStr "Nowhere"])))
                = removelast (snd (script Sample.w
                       (mk_session None None (Some [Pandas.VStr "Nowhere"]))))
                  ++ [Ui WarningNoRegion])
      by (vm_compute; reflexivity).
    rewrite E in C at 1. apply app_inj_tail in C as [_ C].
    rewrite E. now rewrite C.
Defined.
(* ================================================================== *)
(** * Reruns: the cache of the loader and the debug panel              *)
(* ================================================================== *)

Section Rerun.
Import Pandas.
Variable w : world.

#[local] Arguments debug_section : simpl never.
#[local] Arguments filtered_df : simpl never.
#[local] Arguments plot_lines : simpl never.

(** Loading through the cache shows what loading shows, or less. *)
Lemma cached_load_all_emits (c : cache) (P : event -> Prop) :
  (forall f, P (Open f)) -> (forall r, P (Detect r)) ->
  (forall f sep enc, P (ReadCsv f sep enc)) ->
  P (Ui Spinner) -> (forall f, P (Ui (ErrorMissingName f))) ->
  (forall e, P (Ui (ErrorLoading e))) ->
  emits P (load_all_with (st_cache_data c (load_data w))).
Proof.
  intros H1 H2 H3 H4 H5 H6.
  unfold load_all_with, st_cache_data.
  walk; auto; apply load_data_emits; auto.
Qed.

Lemma choose_from_emits (loading : M (DataFrame * DataFrame * DataFrame))
    (s : session) (P : event -> Prop) :
  emits P loading ->
  (forall e, is_choice_page e = true -> P (Ui e)) ->
  emits P (choose_from loading s).
Proof.
  intros Hl Hp.
  unfold choose_from, after_loading, st_radio, st_slider, st_multiselect.
  walk; try assumption; apply Hp; reflexivity.
Qed.

(** Before the panel the page holds no expander. *)
Lemma no_expander_before_the_panel (c : cache) (s : session) :
  ~ In Expander
      (page (snd (choose_from (load_all_with (st_cache_data c (load_data w))) s))).
Proof.
  intros Hin.
  assert (He : emits (fun ev => ev <> Ui Expander)
                     (choose_from (load_all_with (st_cache_data c (load_data w))) s)).
  { apply choose_from_emits.
    - apply cached_load_all_emits; intros; discriminate.
    - intros e He H. inversion H; subst. discriminate. }
  unfold emits in He.
  assert (Hp : Forall (fun e => e <> Expander)
                 (page (snd (choose_from
                               (load_all_with (st_cache_data c (load_data w))) s)))).
  { apply emits_page. eapply Forall_impl; [|exact He].
    intros [] Ha; auto. congruence. }
  rewrite Forall_forall in Hp. now apply Hp in Hin.
Qed.

(** X8.  Line 9 against lines 204-208.  The loader is cached, the debug
    panel is not: it opens the three files again in every run.  On a
    first run (empty cache) whose loading succeeded the panel cannot
    fail, and the encoding it names for a file is the one of the first
    parse attempt of that file's load, whichever encoding parsed the
    file in the end.  On a rerun that finds the three frames in the cache
    loading opens and parses nothing.  In every run that gets as far as
    the panel, the outcome of the run is the outcome of the panel; and
    the panel fails with the exception of the first file that does not
    open, so that a file removed after it was cached ends the rerun
    after chart and table were shown. *)
Theorem debug_panel_reads_the_files_again (c : cache) (s : session) :
  rerun w no_cache s = script w s /\
  (forall dfs t, load_all w = (Ret dfs, t) ->
     exists eb eh ei,
       page (snd (debug_section w))
       = [Expander; DebugHeading; DebugLine "budget.csv" eb;
          DebugLine "housing.csv" eh; DebugLine "investments.csv" ei] /\
       fst (debug_section w) = Ret tt /\
       attempts (snd (debug_section w)) = [] /\
       (exists rest, attempts (snd (load_data w "budget.csv")) = eb :: rest) /\
       (exists rest, attempts (snd (load_data w "housing.csv")) = eh :: rest) /\
       (exists rest, attempts (snd (load_data w "investments.csv")) = ei :: rest)) /\
  (forall b h i,
     c "budget.csv" = Some b -> c "housing.csv" = Some h ->
     c "investments.csv" = Some i ->
     load_all_with (st_cache_data c (load_data w)) = (Ret (b, h, i), [Ui Spinner])) /\
  (In Expander (page (snd (rerun w c s))) ->
   fst (rerun w c s) = fst (debug_section w)) /\
  (forall file e,
     In file input_files -> open_rb w file = Raise e ->
     (forall g, In g (before file input_files) ->
                exists contents, open_rb w g = Ret contents) ->
     fst (debug_section w) = Raise e).
Proof.
  split; [reflexivity|]. split; [apply debug_panel_first_attempts|]. split; [|split].
  - intros b h i Hb Hh Hi. unfold load_all_with, st_cache_data.
    rewrite Hb, Hh, Hi. reflexivity.
  - unfold rerun. pose proof (no_expander_before_the_panel c s) as Hno.
    destruct (choose_from _ s) as [[i|e] tc]; [|intros H; now apply Hno in H].
    rewrite bind_ret_l. cbn [fst snd] in *. rewrite render_unfold.
    destruct (filtered_df _ _ _ _) as [table|e].
    + destruct (plot_lines w table (sel_year_columns i)) as [chart|e].
      * reflexivity.
      * cbn [fst snd]. rewrite page_app. intros H.
        apply in_app_or in H as [H|H]; [now apply Hno in H|].
        simpl in H. destruct H as [H|[]]. discriminate.
    + cbn [fst snd]. rewrite app_nil_r. intros H. now apply Hno in H.
  - apply debug_section_raise.
Qed.

End Rerun.

(** X8 on the sample disk after [housing.csv] was removed, the three
    frames being cached: nothing is parsed, chart and table are shown,
    and the run ends in the panel's [FileNotFoundError]. *)
Lemma debug_panel_reads_the_files_again_witness :
  attempts (snd (rerun Sample.w_without_housing Sample.cached Sample.untouched)) = [] /\
  existsb is_data_view
    (page (snd (rerun Sample.w_without_housing Sample.cached Sample.untouched)))
  = true /\
  fst (rerun Sample.w_without_housing Sample.cached Sample.untouched)
  = Raise FileNotFoundError.
Proof.
  split; [vm_compute; reflexivity|]. split; [vm_compute; reflexivity|].
  destruct (debug_panel_reads_the_files_again Sample.w_without_housing
              Sample.cached Sample.untouched) as (_ & _ & _ & Hrun & Hpanel).
  rewrite Hrun.
  - apply (Hpanel "housing.csv").
    + right. now left.
    + reflexivity.
    + intros g [<-|[]]. eexists. reflexivity.
  - vm_compute. repeat (first [left; reflexivity | right]).
Defined.
